(** * Attribution, cohort and engagement scoring of the analytics pipeline

    A shallow embedding of [features/engagement.py],
    [features/gateway_attribution.py] and of the [max_date] computation of
    [pipelines/build_tables.py], with the properties the specification
    states about them.

    Modelling conventions.
    - A pandas frame is a list of records, one record per row, in row
      order; only the columns the embedded functions read or write are kept.
    - A nullable cell is an [option]: [None] is null (None, NaN or NaT).
    - A timestamp is a number of nanoseconds ([Z]), a [Timedelta] likewise.
    - A float is an exact rational (kept in lowest terms) or one of NaN,
      +inf, -inf: rounding is not modelled, the IEEE special values and
      their comparisons are.
    - Identifiers and titles are byte strings. *)

From Stdlib Require Import List ZArith QArith Qround Bool Lia.
From Stdlib Require Import Strings.String Strings.Ascii.
From Stdlib Require Import Sorting.Permutation Sorting.Sorted.
Import ListNotations.

Local Open Scope Z_scope.

(* ===================================================================== *)
(** * Cells *)
(* ===================================================================== *)

(** An identifier cell (userId, liveSessionId, productId, courseId). *)
Definition key := option string.

(** Equality of join keys: pandas joins and groups null with null. *)
Definition key_eqb (a b : key) : bool :=
  match a, b with
  | Some x, Some y => String.eqb x y
  | None, None => true
  | _, _ => false
  end.

(** Elementwise [==]: a null cell equals nothing, not even null. *)
Definition cell_eqb (a b : key) : bool :=
  match a, b with
  | Some x, Some y => String.eqb x y
  | _, _ => false
  end.

(** Order used to sort group keys: strings by code unit, null last. *)
Definition key_leb (a b : key) : bool :=
  match a, b with
  | Some x, Some y => String.leb x y
  | Some _, None => true
  | None, Some _ => false
  | None, None => true
  end.

Definition notna {A} (c : option A) : bool :=
  match c with Some _ => true | None => false end.

Definition isna {A} (c : option A) : bool := negb (notna c).

(** [a.fillna(b)] on one cell. *)
Definition fillna {A} (a b : option A) : option A :=
  match a with Some _ => a | None => b end.

(** ** Timestamps *)

Definition timestamp := option Z.

Definition day_ns : Z := 86400000000000.

(** [pd.Timedelta(days=n)]. *)
Definition Timedelta_days (n : Z) : Z := n * day_ns.

(** Comparisons of timestamp cells: any comparison with NaT is false. *)
Definition ts_le (a b : timestamp) : bool :=
  match a, b with Some x, Some y => x <=? y | _, _ => false end.
Definition ts_lt (a b : timestamp) : bool :=
  match a, b with Some x, Some y => x <? y | _, _ => false end.
Definition ts_ge (a b : timestamp) : bool := ts_le b a.
Definition ts_gt (a b : timestamp) : bool := ts_lt b a.

(** [a - d] for a timedelta [d]; NaT is absorbing. *)
Definition ts_sub (a : timestamp) (d : Z) : timestamp :=
  match a with Some x => Some (x - d) | None => None end.

(** Minimum and maximum of a column, nulls skipped; null when none is left. *)
Definition ts_min2 (a b : timestamp) : timestamp :=
  match a, b with
  | Some x, Some y => Some (Z.min x y)
  | Some x, None => Some x
  | None, _ => b
  end.
Definition ts_max2 (a b : timestamp) : timestamp :=
  match a, b with
  | Some x, Some y => Some (Z.max x y)
  | Some x, None => Some x
  | None, _ => b
  end.
Definition col_min (c : list timestamp) : timestamp := fold_right ts_min2 None c.
Definition col_max (c : list timestamp) : timestamp := fold_right ts_max2 None c.

(** ** Floats *)

Inductive float : Type :=
| NaN
| NInf
| Fin (q : Q)
| PInf.

Definition of_count (n : nat) : float := Fin (inject_Z (Z.of_nat n)).

(** [x <= y]; false as soon as one side is NaN. *)
Definition fle (x y : float) : bool :=
  match x, y with
  | NaN, _ | _, NaN => false
  | NInf, _ => true
  | _, PInf => true
  | Fin a, Fin b => Qle_bool a b
  | _, _ => false
  end.
Definition fge (x y : float) : bool := fle y x.
(** [x < y]; false as soon as one side is NaN. *)
Definition flt (x y : float) : bool :=
  match x, y with
  | NaN, _ | _, NaN => false
  | _, _ => negb (fle y x)
  end.

(** [col.fillna(0)] on one cell. *)
Definition fillna0 (x : float) : float :=
  match x with NaN => Fin 0 | _ => x end.

(** [col.replace(0, np.nan)] on one cell. *)
Definition replace0_nan (x : float) : float :=
  match x with
  | Fin q => if Qeq_bool q 0 then NaN else x
  | _ => x
  end.

Definition Qsign (q : Q) : comparison := (0 ?= q)%Q.

(** Elementwise float division, as numpy does it: no exception,
    [x/0] is an infinity or NaN. *)
Definition fdiv (x y : float) : float :=
  match x, y with
  | NaN, _ | _, NaN => NaN
  | Fin a, Fin b =>
      match Qsign b with
      | Eq => match Qsign a with Eq => NaN | Lt => PInf | Gt => NInf end
      | _ => Fin (Qred (a / b))
      end
  | Fin _, _ => Fin 0
  | PInf, Fin b => match Qsign b with Gt => NInf | _ => PInf end
  | NInf, Fin b => match Qsign b with Gt => PInf | _ => NInf end
  | _, _ => NaN
  end.

(* ===================================================================== *)
(** * Frame operations *)
(* ===================================================================== *)

Section Frames.
Context {A B : Type}.

(** [left.merge(right, how="left")]: the rows of [left] in order, each
    paired with every matching row of [right], or with null columns
    when none matches. *)
Definition merge_left (on : A -> B -> bool) (left : list A) (right : list B)
  : list (A * option B) :=
  flat_map
    (fun a =>
       match filter (on a) right with
       | [] => [(a, None)]
       | ms => map (fun b => (a, Some b)) ms
       end)
    left.

(** The rows of [right] no row of [left] matches. *)
Definition right_only (on : A -> B -> bool) (left : list A) (right : list B)
  : list B :=
  filter (fun b => negb (existsb (fun a => on a b) left)) right.
End Frames.

Section Distinct.
Context {A : Type} (eqb : A -> A -> bool).

(** The distinct values in order of first appearance
    ([unique], [drop_duplicates]). *)
Fixpoint distinct (l : list A) : list A :=
  match l with
  | [] => []
  | x :: t => x :: filter (fun y => negb (eqb x y)) (distinct t)
  end.
End Distinct.

Section Sort.
Context {A : Type} (leb : A -> A -> bool).

Fixpoint insert_sorted (x : A) (l : list A) : list A :=
  match l with
  | [] => [x]
  | y :: t => if leb x y then x :: l else y :: insert_sorted x t
  end.

(** A stable sort by [leb]. *)
Definition sort (l : list A) : list A := fold_right insert_sorted [] l.
End Sort.

(** [left.merge(right, on=key, how="outer")]: the left join, then the rows
    of [right] without a partner, the whole sorted by join key. *)
Definition merge_outer {A B} (ka : A -> key) (kb : B -> key)
    (left : list A) (right : list B) : list (key * option A * option B) :=
  let on := fun a b => key_eqb (ka a) (kb b) in
  let matched :=
    map (fun ab => (ka (fst ab), Some (fst ab), snd ab)) (merge_left on left right) in
  let unmatched := map (fun b => (kb b, None, Some b)) (right_only on left right) in
  sort (fun x y => key_leb (fst (fst x)) (fst (fst y))) (matched ++ unmatched).

(** [series.nunique()]: the number of distinct non-null values. *)
Definition nunique (c : list key) : nat :=
  List.length (distinct key_eqb (filter notna c)).

(** The group keys of [groupby(col, dropna=...)]: distinct, sorted, the
    null group kept (last) only with [dropna=False]. *)
Definition group_keys (dropna : bool) (c : list key) : list key :=
  sort key_leb (distinct key_eqb (if dropna then filter notna c else c)).

(** The rows of one group. *)
Definition group_of {A} (k : A -> key) (g : key) (rows : list A) : list A :=
  filter (fun r => key_eqb (k r) g) rows.

(** [rows.groupby(k, dropna=...)[v].agg()] followed by [reset_index()]. *)
Definition groupby_agg {A V R} (dropna : bool) (k : A -> key) (v : A -> V)
    (agg : list V -> R) (rows : list A) : list (key * R) :=
  map (fun g => (g, agg (map v (group_of k g rows))))
      (group_keys dropna (map k rows)).

(** The order of [sort_values] on a time column: ascending, nulls last. *)
Definition ts_leb (a b : timestamp) : bool :=
  match a, b with
  | Some x, Some y => x <=? y
  | Some _, None => true
  | None, Some _ => false
  | None, None => true
  end.

(** [rows.sort_values(t)]. pandas leaves the relative order of rows with
    equal times open; the model keeps them in row order. *)
Definition sort_values {A} (t : A -> timestamp) (rows : list A) : list A :=
  sort (fun a b => ts_leb (t a) (t b)) rows.

(** [groupby(...).first()] on one column: its first non-null value. *)
Fixpoint first_valid {V} (c : list (option V)) : option V :=
  match c with
  | [] => None
  | Some v :: _ => Some v
  | None :: t => first_valid t
  end.

(** Python's builtin [max(a, b, ...)]: the running maximum is replaced
    only when [item > maximum] answers true, which NaT never does. *)
Definition py_max (first : timestamp) (rest : list timestamp) : timestamp :=
  fold_left (fun m x => if ts_gt x m then x else m) rest first.

(* ===================================================================== *)
(** * Input relations *)
(* ===================================================================== *)

Record live_session := {
  ls_id : key;
  ls_title : option string
}.

Record assigned := {
  asg_userId : key;
  asg_liveSessionId : key
}.

Record attendance_event := {
  att_studentId : key;
  att_liveSessionId : key;
  att_attendedAt : timestamp
}.

Record submission := {
  sub_studentId : key;
  sub_assignmentId : key;
  sub_submittedAt : timestamp
}.

Record login := {
  lg_userId : key;
  lg_status : option string;
  lg_timestamp : timestamp
}.

Record payment := {
  pay_userId : key;
  pay_productId : key;
  pay_status : option string;
  pay_paidAt : timestamp;
  pay_createdAt : timestamp
}.

Record product := {
  prod_id : key;
  prod_title : option string;
  prod_price : option Q
}.

Record product_access := {
  pa_userId : key;
  pa_startDate : timestamp;
  pa_createdAt : timestamp
}.

Record enrollment := {
  enr_userId : key;
  enr_courseId : key
}.

(** [col == "literal"] on a string cell. *)
Definition str_is (lit : string) (c : option string) : bool :=
  match c with Some s => String.eqb s lit | None => false end.

(* ===================================================================== *)
(** * features/engagement.py *)
(* ===================================================================== *)

Module Engagement.

(** A row of the [completion] frame [build_assignment_completion]
    returns, which [build_completion_and_absconded] takes as input. *)
Record assignment_completion_row := {
  ac_studentId : key;
  ac_courseId : key;
  ac_assignmentCompletionRate : float
}.

Record attendance_row := {
  at_userId : key;
  at_assignedSessions : nat;
  at_attendedSessions : float;
  at_attendanceRate : float
}.

(** The first frame [build_attendance] returns (the per-session summary,
    its second result, is not part of this development). *)
Definition build_attendance (live_session_assigned : list assigned)
    (live_session_attendance : list attendance_event) : list attendance_row :=
  let assigned :=
    groupby_agg false asg_userId asg_liveSessionId nunique live_session_assigned in
  let attended :=
    groupby_agg false att_studentId att_liveSessionId nunique live_session_attendance in
  let attendance :=
    merge_left (fun a b => key_eqb (fst a) (fst b)) assigned attended in
  map (fun ab =>
         let '(a, b) := ab in
         let attendedSessions :=
           fillna0 (match b with Some b => of_count (snd b) | None => NaN end) in
         {| at_userId := fst a;
            at_assignedSessions := snd a;
            at_attendedSessions := attendedSessions;
            at_attendanceRate :=
              fdiv attendedSessions (replace0_nan (of_count (snd a))) |})
      attendance.

Record completion_row := {
  userId : key;
  courseId : key;
  assignedSessions : float;
  attendedSessions : float;
  assignmentCompletionRate : float;
  attendanceRate : float;
  isComplete : bool
}.

Record absconded_row := {
  ab_completion : completion_row;
  ab_timestamp : timestamp;
  inactive30 : bool;
  isAbsconded : bool
}.

Definition pair_eqb (a b : key * key) : bool :=
  key_eqb (fst a) (fst b) && key_eqb (snd a) (snd b).

(** The literals [0.7] and [0.1]. *)
Definition threshold_complete : float := Fin (7 # 10).
Definition threshold_absconded : float := Fin (1 # 10).

Definition completion_of
    (row : (key * key) * option assignment_completion_row * option attendance_row)
  : completion_row :=
  let '(e, ac, att) := row in
  let assignmentCompletionRate :=
    fillna0 (match ac with Some r => ac_assignmentCompletionRate r | None => NaN end) in
  let attendanceRate :=
    fillna0 (match att with Some r => at_attendanceRate r | None => NaN end) in
  {| userId := fst e;
     courseId := snd e;
     assignedSessions :=
       match att with Some r => of_count (at_assignedSessions r) | None => NaN end;
     attendedSessions :=
       match att with Some r => at_attendedSessions r | None => NaN end;
     assignmentCompletionRate := assignmentCompletionRate;
     attendanceRate := attendanceRate;
     isComplete :=
       fge assignmentCompletionRate threshold_complete
       && fge attendanceRate threshold_complete |}.

Definition build_completion (enrollments : list enrollment)
    (assignment_completion : list assignment_completion_row)
    (attendance : list attendance_row) : list completion_row :=
  let completion :=
    distinct pair_eqb (map (fun e => (enr_userId e, enr_courseId e)) enrollments) in
  let completion :=
    merge_left
      (fun e r => key_eqb (fst e) (ac_studentId r) && key_eqb (snd e) (ac_courseId r))
      completion assignment_completion in
  let completion :=
    merge_left (fun l r => key_eqb (fst (fst l)) (at_userId r)) completion attendance in
  map completion_of completion.

Definition last_login (login_history : list login) : list (key * timestamp) :=
  let login_success := filter (fun l => str_is "success" (lg_status l)) login_history in
  groupby_agg true lg_userId lg_timestamp col_max login_success.

Definition absconded_of (cutoff : timestamp)
    (row : completion_row * option (key * timestamp)) : absconded_row :=
  let '(c, ll) := row in
  let timestamp := match ll with Some r => snd r | None => None end in
  let inactive30 := isna timestamp || ts_lt timestamp cutoff in
  {| ab_completion := c;
     ab_timestamp := timestamp;
     inactive30 := inactive30;
     isAbsconded :=
       flt (assignmentCompletionRate c) threshold_absconded
       && flt (attendanceRate c) threshold_absconded
       && inactive30 |}.

Definition build_completion_and_absconded (enrollments : list enrollment)
    (assignment_completion : list assignment_completion_row)
    (attendance : list attendance_row)
    (login_history : list login)
    (max_date : timestamp) : list completion_row * list absconded_row :=
  let completion := build_completion enrollments assignment_completion attendance in
  let absconded :=
    merge_left (fun c r => key_eqb (userId c) (fst r)) completion (last_login login_history) in
  let cutoff := ts_sub max_date (Timedelta_days 30) in
  (completion, map (absconded_of cutoff) absconded).

Record remorse_row := {
  rr_userId : key;
  rr_paidAt : Z;
  week1_attendance : nat;
  week4_attendance : nat;
  week1_submissions : nat;
  week4_submissions : nat;
  week1_logins : nat;
  week4_logins : nat
}.

(** The closure [_count_between] of [buyers_remorse_window], with the
    [user_id] and [paid_at] it captures as leading arguments. *)
Definition _count_between {R} (user_id : key) (paid_at : Z)
    (uid : R -> key) (time_col : R -> timestamp)
    (df : list R) (start stop : Z) : nat :=
  List.length
    (filter
       (fun r =>
          cell_eqb (uid r) user_id
          && ts_ge (time_col r) (Some (paid_at + Timedelta_days start))
          && ts_le (time_col r) (Some (paid_at + Timedelta_days stop)))
       df).

Definition buyers_remorse_window (payments : list payment)
    (live_session_attendance : list attendance_event)
    (assignment_submissions : list submission)
    (login_history : list login) : list remorse_row :=
  let payments := filter (fun p => str_is "succeeded" (pay_status p)) payments in
  let payments := filter (fun p => notna (pay_paidAt p)) payments in
  let login_success := filter (fun l => str_is "success" (lg_status l)) login_history in
  flat_map
    (fun pay =>
       let user_id := pay_userId pay in
       match pay_paidAt pay with
       | None => []
       | Some paid_at =>
           let count {R} := @_count_between R user_id paid_at in
           [ {| rr_userId := user_id;
                rr_paidAt := paid_at;
                week1_attendance :=
                  count att_studentId att_attendedAt live_session_attendance 0 7;
                week4_attendance :=
                  count att_studentId att_attendedAt live_session_attendance 22 28;
                week1_submissions :=
                  count sub_studentId sub_submittedAt assignment_submissions 0 7;
                week4_submissions :=
                  count sub_studentId sub_submittedAt assignment_submissions 22 28;
                week1_logins := count lg_userId lg_timestamp login_success 0 7;
                week4_logins := count lg_userId lg_timestamp login_success 22 28 |} ]
       end)
    payments.

End Engagement.

(* ===================================================================== *)
(** * pipelines/build_tables.py: the as-of date *)
(* ===================================================================== *)

Module BuildTables.

(** [max_date], as [build_tables] computes it before any scoring. *)
Definition max_date (payments : list payment) (login_history : list login)
    (product_accesses : list product_access)
    (live_session_attendance : list attendance_event) : timestamp :=
  py_max (col_max (map pay_createdAt payments))
         [ col_max (map lg_timestamp login_history);
           col_max (map pa_createdAt product_accesses);
           col_max (map att_attendedAt live_session_attendance) ].

End BuildTables.

(* ===================================================================== *)
(** * Exceptions *)
(* ===================================================================== *)

Inductive exn : Type :=
| ValueError.

Inductive result (A : Type) : Type :=
| Ok (a : A)
| Raise (e : exn).

Arguments Ok {A} a.
Arguments Raise {A} e.

Definition bind {A B} (m : result A) (f : A -> result B) : result B :=
  match m with
  | Ok a => f a
  | Raise e => Raise e
  end.

Notation "x <- m ;; k" := (bind m (fun x => k))
  (at level 61, m at next level, right associativity).

(* ===================================================================== *)
(** * config/constants.py *)
(* ===================================================================== *)

Local Open Scope string_scope.

Definition GATEWAY_KEYWORDS : list string := ["interview prep"; "interview"; "prep"].

Definition MENTORSHIP_KEYWORDS : list string := ["mentorship"; "mentor"; "coaching"].

Definition GATEWAY_SESSION_KEYWORDS : list string :=
  [ "info session"; "information session"; "intro"; "introduction";
    "orientation"; "webinar"; "open day"; "open-day"; "masterclass";
    "taster"; "trial"; "interview"; "interview prep"; "prep" ].

(** A list built from a set: its order is not fixed, and never read. *)
Definition GATEWAY_PRODUCT_KEYWORDS : list string :=
  GATEWAY_KEYWORDS
  ++ [ "intro"; "starter"; "foundation"; "taster"; "trial"; "basic";
       "entry"; "one-time"; "a la carte"; "ala carte" ].

Local Close Scope string_scope.

(* ===================================================================== *)
(** * features/gateway_attribution.py *)
(* ===================================================================== *)

Module Gateway.

(** ** Keyword matching *)

Definition lower_ascii (c : ascii) : ascii :=
  let n := nat_of_ascii c in
  if (65 <=? n)%nat && (n <=? 90)%nat then ascii_of_nat (n + 32) else c.

(** [str.lower], on the ASCII letters: the keywords are ASCII, and no
    other letter lowers to text a keyword can match. *)
Fixpoint lower (s : string) : string :=
  match s with
  | EmptyString => EmptyString
  | String c t => String (lower_ascii c) (lower t)
  end.

(** [needle in hay]. *)
Fixpoint contains (needle hay : string) : bool :=
  String.prefix needle hay
  || match hay with
     | EmptyString => false
     | String _ t => contains needle t
     end.

(** A missing title is [None] (text [""]) or NaN (text ["nan"]); no
    keyword occurs in either, and the model keeps the first. *)
Definition _has_keyword (value : option string) (keywords : list string) : bool :=
  let text := match value with Some v => lower v | None => EmptyString end in
  existsb (fun k => contains k text) keywords.

(** ** Classifiers *)

Record session_flags := {
  sf_liveSessionId : key;
  sf_sessionTitle : option string;
  is_gateway_session : bool
}.

Definition classify_gateway_sessions (live_sessions : list live_session)
  : list session_flags :=
  map (fun s =>
         {| sf_liveSessionId := ls_id s;
            sf_sessionTitle := ls_title s;
            is_gateway_session := _has_keyword (ls_title s) GATEWAY_SESSION_KEYWORDS |})
      live_sessions.

(** The non-null values of a column. *)
Fixpoint dropna {V} (c : list (option V)) : list V :=
  match c with
  | [] => []
  | Some v :: t => v :: dropna t
  | None :: t => dropna t
  end.

(** Linear interpolation between the order statistics around position
    [q * (n - 1)]; NaN on an empty column. *)
Definition quantile_sorted (vals : list Q) (q : Q) : option Q :=
  match vals with
  | [] => None
  | v0 :: _ =>
      let n := Z.of_nat (List.length vals) in
      let h := (q * inject_Z (n - 1))%Q in
      let lo := Qfloor h in
      let hi := Z.min (lo + 1) (n - 1) in
      let a := nth (Z.to_nat lo) vals v0 in
      let b := nth (Z.to_nat hi) vals v0 in
      Some (Qred (a + (b - a) * (h - inject_Z lo)))
  end.

(** [series.quantile(q)]: a percentile outside [0, 1] is refused. *)
Definition quantile (c : list (option Q)) (q : Q) : result (option Q) :=
  if Qle_bool 0 q && Qle_bool q 1
  then Ok (quantile_sorted (sort Qle_bool (dropna c)) q)
  else Raise ValueError.

Record product_flags := {
  pf_productId : key;
  pf_productTitle : option string;
  pf_price : option Q;
  is_gateway_product : bool;
  is_mentorship_product : bool
}.

(** [prod["price"] <= bound] and [>=]: false on a null price. *)
Definition price_le (p : option Q) (bound : Q) : bool :=
  match p with Some x => Qle_bool x bound | None => false end.
Definition price_ge (p : option Q) (bound : Q) : bool :=
  match p with Some x => Qle_bool bound x | None => false end.

Definition classify_products (products : list product)
    (gateway_quantile mentorship_quantile : Q) : result (list product_flags) :=
  let price := map prod_price products in
  price_low <- (if existsb notna price then quantile price gateway_quantile else Ok None) ;;
  price_high <- (if existsb notna price then quantile price mentorship_quantile else Ok None) ;;
  Ok (map
        (fun p =>
           let kw_gateway := _has_keyword (prod_title p) GATEWAY_PRODUCT_KEYWORDS in
           let kw_mentorship := _has_keyword (prod_title p) MENTORSHIP_KEYWORDS in
           {| pf_productId := prod_id p;
              pf_productTitle := prod_title p;
              pf_price := prod_price p;
              is_gateway_product :=
                match price_low with
                | Some lo => kw_gateway || price_le (prod_price p) lo
                | None => kw_gateway
                end;
              is_mentorship_product :=
                match price_high with
                | Some hi => kw_mentorship || price_ge (prod_price p) hi
                | None => kw_mentorship
                end |})
        products).

(** ** First gateway touch *)

(** [frame[frame[flag] == True]] on a flag column a left join may have
    left null. *)
Definition flag_true {F} (flag : F -> bool) (o : option F) : bool :=
  match o with Some f => flag f | None => false end.

Inductive touch_type : Type :=
| touch_session
| touch_product.

Definition touch_type_eqb (a b : touch_type) : bool :=
  match a, b with
  | touch_session, touch_session | touch_product, touch_product => true
  | _, _ => false
  end.

Record session_touch := {
  st_time : timestamp;
  st_id : key;
  st_title : option string
}.

Record product_touch := {
  pt_time : timestamp;
  pt_id : key;
  pt_title : option string
}.

Record touch_base := {
  userId : key;
  gateway_session_time : timestamp;
  gateway_session_id : key;
  sessionTitle : option string;
  gateway_product_time : timestamp;
  gateway_product_id : key;
  productTitle : option string;
  first_touch_time : timestamp;
  first_touch_type : touch_type;
  gateway_asset_name : option string
}.

Record touch_newcomer := {
  tn_base : touch_base;
  first_payment_time : timestamp;
  first_mentorship_time : timestamp;
  first_access_time : timestamp;
  is_newcomer_A : bool;
  is_newcomer_B : bool;
  is_newcomer_C : bool;
  is_newcomer_strict : bool
}.

Record touch := {
  t_newcomer : touch_newcomer;
  first_any_paid_after : timestamp;
  first_mentorship_paid_after : timestamp;
  days_to_any_paid : option Z;
  days_to_mentorship_paid : option Z
}.

(** [(a - b).dt.days]: whole days, rounded down. *)
Definition days_between (a b : timestamp) : option Z :=
  match a, b with
  | Some x, Some y => Some ((x - y) / day_ns)
  | _, _ => None
  end.

Section Attribution.
Variable live_sessions : list live_session.
Variable live_session_attendance : list attendance_event.
Variable payments : list payment.
Variable prod_flags : list product_flags.
Variable product_accesses : list product_access.

Definition sessions : list session_flags := classify_gateway_sessions live_sessions.

Definition attendance : list (attendance_event * option session_flags) :=
  merge_left (fun a s => key_eqb (att_liveSessionId a) (sf_liveSessionId s))
             live_session_attendance sessions.

Definition gateway_attendance : list (attendance_event * option session_flags) :=
  let gateway_attendance :=
    filter (fun r => flag_true is_gateway_session (snd r)) attendance in
  let gateway_attendance :=
    filter (fun r => notna (att_attendedAt (fst r))) gateway_attendance in
  sort_values (fun r => att_attendedAt (fst r)) gateway_attendance.

Definition first_session_touch : list (key * session_touch) :=
  groupby_agg true (fun r => att_studentId (fst r)) (fun r => r)
    (fun rows : list (attendance_event * option session_flags) =>
       {| st_time := first_valid (map (fun r => att_attendedAt (fst r)) rows);
          st_id := first_valid (map (fun r => att_liveSessionId (fst r)) rows);
          st_title :=
            first_valid
              (map (fun r => match snd r with
                             | Some s => sf_sessionTitle s
                             | None => None
                             end) rows) |})
    gateway_attendance.

Definition fill_paidAt (p : payment) : payment :=
  {| pay_userId := pay_userId p;
     pay_productId := pay_productId p;
     pay_status := pay_status p;
     pay_paidAt := fillna (pay_paidAt p) (pay_createdAt p);
     pay_createdAt := pay_createdAt p |}.

Definition payments_succ : list (payment * option product_flags) :=
  let payments_succ := filter (fun p => str_is "succeeded" (pay_status p)) payments in
  let payments_succ := map fill_paidAt payments_succ in
  merge_left (fun p f => key_eqb (pay_productId p) (pf_productId f))
             payments_succ prod_flags.

Definition gateway_payments : list (payment * option product_flags) :=
  let gateway_payments :=
    filter (fun r => flag_true is_gateway_product (snd r)) payments_succ in
  let gateway_payments :=
    filter (fun r => notna (pay_paidAt (fst r))) gateway_payments in
  sort_values (fun r => pay_paidAt (fst r)) gateway_payments.

Definition first_product_touch : list (key * product_touch) :=
  groupby_agg true (fun r => pay_userId (fst r)) (fun r => r)
    (fun rows : list (payment * option product_flags) =>
       {| pt_time := first_valid (map (fun r => pay_paidAt (fst r)) rows);
          pt_id := first_valid (map (fun r => pay_productId (fst r)) rows);
          pt_title :=
            first_valid
              (map (fun r => match snd r with
                             | Some f => pf_productTitle f
                             | None => None
                             end) rows) |})
    gateway_payments.

Definition touch_of (row : key * option (key * session_touch) * option (key * product_touch))
  : touch_base :=
  let '(user, s, p) := row in
  let gateway_session_time := match s with Some s => st_time (snd s) | None => None end in
  let gateway_product_time := match p with Some p => pt_time (snd p) | None => None end in
  let sessionTitle := match s with Some s => st_title (snd s) | None => None end in
  let productTitle := match p with Some p => pt_title (snd p) | None => None end in
  let first_touch_type :=
    if notna gateway_session_time
       && (isna gateway_product_time || ts_le gateway_session_time gateway_product_time)
    then touch_session else touch_product in
  {| userId := user;
     gateway_session_time := gateway_session_time;
     gateway_session_id := match s with Some s => st_id (snd s) | None => None end;
     sessionTitle := sessionTitle;
     gateway_product_time := gateway_product_time;
     gateway_product_id := match p with Some p => pt_id (snd p) | None => None end;
     productTitle := productTitle;
     first_touch_time := col_min [gateway_session_time; gateway_product_time];
     first_touch_type := first_touch_type;
     gateway_asset_name :=
       if touch_type_eqb first_touch_type touch_session
       then sessionTitle else productTitle |}.

Definition touches_base : list touch_base :=
  let touches := merge_outer fst fst first_session_touch first_product_touch in
  let touches := map touch_of touches in
  filter (fun t => notna (first_touch_time t)) touches.

(** ** Newcomer predicates *)

Definition first_payment : list (key * timestamp) :=
  groupby_agg true (fun r => pay_userId (fst r)) (fun r => pay_paidAt (fst r))
              col_min payments_succ.

Definition mentorship_payments : list (payment * option product_flags) :=
  filter (fun r => flag_true is_mentorship_product (snd r)) payments_succ.

Definition first_mentor_payment : list (key * timestamp) :=
  groupby_agg true (fun r => pay_userId (fst r)) (fun r => pay_paidAt (fst r))
              col_min mentorship_payments.

Definition access_time (a : product_access) : timestamp :=
  fillna (pa_startDate a) (pa_createdAt a).

Definition first_access : list (key * timestamp) :=
  groupby_agg true pa_userId access_time col_min product_accesses.

Definition on_user {T} (user : T -> key) (t : T) (r : key * timestamp) : bool :=
  key_eqb (user t) (fst r).

Definition newcomer_of
    (row : touch_base * option (key * timestamp) * option (key * timestamp)
           * option (key * timestamp)) : touch_newcomer :=
  let '(t, fp, fm, fa) := row in
  let first_payment_time := match fp with Some r => snd r | None => None end in
  let first_mentorship_time := match fm with Some r => snd r | None => None end in
  let first_access_time := match fa with Some r => snd r | None => None end in
  let is_newcomer_A :=
    isna first_payment_time || ts_ge first_payment_time (first_touch_time t) in
  let is_newcomer_B :=
    isna first_mentorship_time || ts_ge first_mentorship_time (first_touch_time t) in
  let is_newcomer_C :=
    isna first_access_time || ts_ge first_access_time (first_touch_time t) in
  {| tn_base := t;
     first_payment_time := first_payment_time;
     first_mentorship_time := first_mentorship_time;
     first_access_time := first_access_time;
     is_newcomer_A := is_newcomer_A;
     is_newcomer_B := is_newcomer_B;
     is_newcomer_C := is_newcomer_C;
     is_newcomer_strict := is_newcomer_A && is_newcomer_B && is_newcomer_C |}.

Definition touches_newcomer : list touch_newcomer :=
  let touches := merge_left (on_user userId) touches_base first_payment in
  let touches := merge_left (on_user (fun r => userId (fst r))) touches first_mentor_payment in
  let touches :=
    merge_left (on_user (fun r => userId (fst (fst r)))) touches first_access in
  map newcomer_of touches.

(** ** Conversion after the touch *)

Definition merged : list (touch_newcomer * option (payment * option product_flags)) :=
  let merged :=
    merge_left (fun t r => key_eqb (userId (tn_base t)) (pay_userId (fst r)))
               touches_newcomer payments_succ in
  filter
    (fun m =>
       ts_gt (match snd m with Some r => pay_paidAt (fst r) | None => None end)
             (first_touch_time (tn_base (fst m))))
    merged.

Definition merged_paidAt (m : touch_newcomer * option (payment * option product_flags))
  : timestamp :=
  match snd m with Some r => pay_paidAt (fst r) | None => None end.

Definition merged_is_mentorship
    (m : touch_newcomer * option (payment * option product_flags)) : bool :=
  match snd m with
  | Some r => flag_true is_mentorship_product (snd r)
  | None => false
  end.

Definition first_any_after : list (key * timestamp) :=
  groupby_agg true (fun m => userId (tn_base (fst m))) merged_paidAt col_min merged.

Definition first_mentor_after : list (key * timestamp) :=
  groupby_agg true (fun m => userId (tn_base (fst m))) merged_paidAt col_min
              (filter merged_is_mentorship merged).

Definition converted_of
    (row : touch_newcomer * option (key * timestamp) * option (key * timestamp))
  : touch :=
  let '(t, fa, fm) := row in
  let first_any_paid_after := match fa with Some r => snd r | None => None end in
  let first_mentorship_paid_after := match fm with Some r => snd r | None => None end in
  {| t_newcomer := t;
     first_any_paid_after := first_any_paid_after;
     first_mentorship_paid_after := first_mentorship_paid_after;
     days_to_any_paid :=
       days_between first_any_paid_after (first_touch_time (tn_base t));
     days_to_mentorship_paid :=
       days_between first_mentorship_paid_after (first_touch_time (tn_base t)) |}.

Definition touches : list touch :=
  let touches :=
    merge_left (on_user (fun t => userId (tn_base t))) touches_newcomer first_any_after in
  let touches :=
    merge_left (on_user (fun r => userId (tn_base (fst r)))) touches first_mentor_after in
  map converted_of touches.

End Attribution.

(** ** Conversion summary and curve *)

Definition windows : list Z := [1; 3; 7; 14; 30].

Local Open Scope string_scope.

Definition cohort_defs : list (string * (touch -> bool)) :=
  [ ("newcomer_A", fun t => is_newcomer_A (t_newcomer t));
    ("newcomer_B", fun t => is_newcomer_B (t_newcomer t));
    ("newcomer_C", fun t => is_newcomer_C (t_newcomer t));
    ("newcomer_strict", fun t => is_newcomer_strict (t_newcomer t)) ].

Local Close Scope string_scope.

Definition touch_user (t : touch) : key := userId (tn_base (t_newcomer t)).

(** [(col.notna() & (col <= w)).sum()]. *)
Definition count_within (col : touch -> option Z) (w : Z) (cohort : list touch) : nat :=
  List.length
    (filter (fun t => notna (col t)
                      && match col t with Some d => d <=? w | None => false end)
            cohort).

(** Python's [count / size], which the code evaluates on a non-zero
    [size] only. *)
Definition quotient (count size : nat) : float :=
  Fin (Qred (inject_Z (Z.of_nat count) / inject_Z (Z.of_nat size))).

(** [count / size if size else np.nan]. *)
Definition rate_or_nan (count size : nat) : float :=
  if (size =? 0)%nat then NaN else quotient count size.

(** [series.median()]: nulls skipped, NaN when nothing is left. *)
Definition median (c : list (option Z)) : float :=
  let vals := sort Z.leb (dropna c) in
  let n := List.length vals in
  match vals with
  | [] => NaN
  | v0 :: _ =>
      if Nat.even n
      then Fin ((inject_Z (nth (n / 2 - 1) vals v0) + inject_Z (nth (n / 2) vals v0)) / 2)
      else Fin (inject_Z (nth (n / 2) vals v0))
  end.

Record window_stats := {
  ws_window : Z;
  any_paid : nat;
  any_paid_rate : float;
  mentorship_paid : nat;
  mentorship_paid_rate : float
}.

Record summary_row := {
  sr_cohort : string;
  cohort_size : nat;
  sr_windows : list window_stats;
  median_days_any_paid : float;
  median_days_mentorship_paid : float
}.

Record curve_row := {
  cv_cohort : string;
  cv_day : Z;
  mentorship_conversion_rate : float
}.

Definition summary_of (touches : list touch) (def : string * (touch -> bool))
  : summary_row :=
  let '(cohort_name, col) := def in
  let cohort := filter col touches in
  let size := nunique (map touch_user cohort) in
  {| sr_cohort := cohort_name;
     cohort_size := size;
     sr_windows :=
       map (fun w =>
              let any_count := count_within days_to_any_paid w cohort in
              let ment_count := count_within days_to_mentorship_paid w cohort in
              {| ws_window := w;
                 any_paid := any_count;
                 any_paid_rate := rate_or_nan any_count size;
                 mentorship_paid := ment_count;
                 mentorship_paid_rate := rate_or_nan ment_count size |})
           windows;
     median_days_any_paid :=
       if (size =? 0)%nat then NaN else median (map days_to_any_paid cohort);
     median_days_mentorship_paid :=
       if (size =? 0)%nat then NaN else median (map days_to_mentorship_paid cohort) |}.

Definition conversion_summary (touches : list touch) : list summary_row :=
  map (summary_of touches) cohort_defs.

(** [range(0, 31)]. *)
Definition curve_days : list Z := map Z.of_nat (seq 0 31).

Definition curve_of (touches : list touch) (def : string * (touch -> bool))
  : list curve_row :=
  let '(cohort_name, col) := def in
  let cohort := filter col touches in
  let size := nunique (map touch_user cohort) in
  if (size =? 0)%nat then []
  else
    map (fun day =>
           {| cv_cohort := cohort_name;
              cv_day := day;
              mentorship_conversion_rate :=
                quotient (count_within days_to_mentorship_paid day cohort) size |})
        curve_days.

Definition conversion_curve (touches : list touch) : list curve_row :=
  flat_map (curve_of touches) cohort_defs.

(** ** Result tables *)

(** A row of [gateway_touch_attribution], the final column selection. *)
Record touch_row := {
  tr_userId : key;
  tr_first_touch_time : timestamp;
  tr_first_touch_type : touch_type;
  tr_gateway_asset_name : option string;
  tr_gateway_session_id : key;
  tr_gateway_session_title : option string;
  tr_gateway_product_id : key;
  tr_gateway_product_title : option string;
  tr_is_newcomer_A : bool;
  tr_is_newcomer_B : bool;
  tr_is_newcomer_C : bool;
  tr_is_newcomer_strict : bool;
  tr_days_to_any_paid : option Z;
  tr_days_to_mentorship_paid : option Z
}.

Definition final_columns (t : touch) : touch_row :=
  let n := t_newcomer t in
  let b := tn_base n in
  {| tr_userId := userId b;
     tr_first_touch_time := first_touch_time b;
     tr_first_touch_type := first_touch_type b;
     tr_gateway_asset_name := gateway_asset_name b;
     tr_gateway_session_id := gateway_session_id b;
     tr_gateway_session_title := sessionTitle b;
     tr_gateway_product_id := gateway_product_id b;
     tr_gateway_product_title := productTitle b;
     tr_is_newcomer_A := is_newcomer_A n;
     tr_is_newcomer_B := is_newcomer_B n;
     tr_is_newcomer_C := is_newcomer_C n;
     tr_is_newcomer_strict := is_newcomer_strict n;
     tr_days_to_any_paid := days_to_any_paid t;
     tr_days_to_mentorship_paid := days_to_mentorship_paid t |}.

(** The tables of the result dictionary this development covers (the
    asset-conversion and session-mix tables, the only readers of
    [live_session_assigned], are not part of it). *)
Record attribution := {
  gateway_touch_attribution : list touch_row;
  gateway_conversion_summary : list summary_row;
  gateway_conversion_curve : list curve_row
}.

Definition build_gateway_attribution
    (live_sessions : list live_session)
    (live_session_attendance : list attendance_event)
    (live_session_assigned : list assigned)
    (payments : list payment)
    (products : list product)
    (product_accesses : list product_access)
    (gateway_quantile mentorship_quantile : Q) : result attribution :=
  prod_flags <- classify_products products gateway_quantile mentorship_quantile ;;
  let touches :=
    touches live_sessions live_session_attendance payments prod_flags product_accesses in
  Ok {| gateway_touch_attribution := map final_columns touches;
        gateway_conversion_summary := conversion_summary touches;
        gateway_conversion_curve := conversion_curve touches |}.

End Gateway.

(* ===================================================================== *)
(** * Notions the properties are stated with *)
(* ===================================================================== *)

(** The row of a keyed frame a key selects. *)
Definition lookup {V} (g : key) (frame : list (key * V)) : option (key * V) :=
  find (fun r => key_eqb g (fst r)) frame.

(** The value a left join on a keyed frame brings: null without a partner. *)
Definition lookup_ts (g : key) (frame : list (key * timestamp)) : timestamp :=
  match lookup g frame with Some r => snd r | None => None end.

Module EngagementSpec.
Import Engagement.

(** The user's distinct assigned and attended sessions, platform-wide. *)
Definition assigned_sessions (live_session_assigned : list assigned) (u : key) : nat :=
  nunique (map asg_liveSessionId (group_of asg_userId u live_session_assigned)).

Definition attended_sessions (live_session_attendance : list attendance_event)
    (u : key) : nat :=
  nunique (map att_liveSessionId (group_of att_studentId u live_session_attendance)).

(** Whether the user occurs in the session-assignment relation at all. *)
Definition is_assigned (live_session_assigned : list assigned) (u : key) : bool :=
  existsb (key_eqb u) (map asg_userId live_session_assigned).

(** The row of the attendance frame for a user who occurs in the
    session-assignment relation. *)
Definition attendance_of (live_session_assigned : list assigned)
    (live_session_attendance : list attendance_event) (u : key) : attendance_row :=
  {| at_userId := u;
     at_assignedSessions := assigned_sessions live_session_assigned u;
     at_attendedSessions := of_count (attended_sessions live_session_attendance u);
     at_attendanceRate :=
       fdiv (of_count (attended_sessions live_session_attendance u))
            (replace0_nan (of_count (assigned_sessions live_session_assigned u))) |}.

(** The user's latest successful login, null when there is none. *)
Definition latest_success_login (login_history : list login) (u : key) : timestamp :=
  col_max
    (map lg_timestamp
         (filter (fun l => str_is "success" (lg_status l) && cell_eqb (lg_userId l) u)
                 login_history)).

(** The attendance rate of a user: a quantity of the user and of the
    platform-wide session relations, null for a user who occurs in no
    session assignment. *)
Definition user_attendance_rate (live_session_assigned : list assigned)
    (live_session_attendance : list attendance_event) (u : key) : float :=
  if is_assigned live_session_assigned u
  then at_attendanceRate (attendance_of live_session_assigned live_session_attendance u)
  else NaN.

(** The number of events of [user] with a timestamp in
    [paid_at + lo days, paid_at + hi days], both ends included. *)
Fixpoint events_in_window (user : key) (paid_at lo hi : Z)
    (events : list (key * timestamp)) : nat :=
  match events with
  | [] => 0
  | (Some u, Some t) :: rest =>
      match user with
      | Some v =>
          if String.eqb u v
             && (paid_at + lo * day_ns <=? t) && (t <=? paid_at + hi * day_ns)
          then S (events_in_window user paid_at lo hi rest)
          else events_in_window user paid_at lo hi rest
      | None => events_in_window user paid_at lo hi rest
      end
  | _ :: rest => events_in_window user paid_at lo hi rest
  end.

(** A succeeded payment with a non-null [paidAt]. *)
Definition is_paid_event (p : payment) : bool :=
  str_is "succeeded" (pay_status p) && notna (pay_paidAt p).

Definition successful (l : login) : bool := str_is "success" (lg_status l).

(** The latest timestamp of the four columns [build_tables] reads for
    its as-of date, nulls skipped. *)
Definition latest_observed (payments : list payment) (login_history : list login)
    (product_accesses : list product_access)
    (live_session_attendance : list attendance_event) : timestamp :=
  col_max (map pay_createdAt payments ++ map lg_timestamp login_history
           ++ map pa_createdAt product_accesses
           ++ map att_attendedAt live_session_attendance).

(** What one row of the buyer's-remorse table says about the payment it
    is made from. *)
Definition remorse_row_of (live_session_attendance : list attendance_event)
    (assignment_submissions : list submission) (login_history : list login)
    (pay : payment) (row : remorse_row) : Prop :=
  let attended := map (fun a => (att_studentId a, att_attendedAt a)) live_session_attendance in
  let submitted := map (fun b => (sub_studentId b, sub_submittedAt b)) assignment_submissions in
  let logged := map (fun l => (lg_userId l, lg_timestamp l)) (filter successful login_history) in
  let user := pay_userId pay in
  let paid_at := rr_paidAt row in
  rr_userId row = user
  /\ pay_paidAt pay = Some paid_at
  /\ week1_attendance row = events_in_window user paid_at 0 7 attended
  /\ week4_attendance row = events_in_window user paid_at 22 28 attended
  /\ week1_submissions row = events_in_window user paid_at 0 7 submitted
  /\ week4_submissions row = events_in_window user paid_at 22 28 submitted
  /\ week1_logins row = events_in_window user paid_at 0 7 logged
  /\ week4_logins row = events_in_window user paid_at 22 28 logged.

End EngagementSpec.

Module GatewaySpec.
Import Gateway.

Section Candidates.
Variable live_sessions : list live_session.
Variable live_session_attendance : list attendance_event.
Variable payments : list payment.
Variable prod_flags : list product_flags.
Variable product_accesses : list product_access.

Definition session_frame : list (key * session_touch) :=
  first_session_touch live_sessions live_session_attendance.
Definition product_frame : list (key * product_touch) :=
  first_product_touch payments prod_flags.
Definition payment_frame : list (key * timestamp) := first_payment payments prod_flags.
Definition mentor_frame : list (key * timestamp) :=
  first_mentor_payment payments prod_flags.
Definition access_frame : list (key * timestamp) := first_access product_accesses.
Definition any_after_frame : list (key * timestamp) :=
  first_any_after live_sessions live_session_attendance payments prod_flags
                  product_accesses.
Definition mentor_after_frame : list (key * timestamp) :=
  first_mentor_after live_sessions live_session_attendance payments prod_flags
                     product_accesses.

(** The candidate session touch of a user: the time of their row in
    the first-session-touch frame, null without a row. *)
Definition session_candidate (g : key) : timestamp :=
  match lookup g session_frame with Some a => st_time (snd a) | None => None end.

(** The candidate product touch of a user. *)
Definition product_candidate (g : key) : timestamp :=
  match lookup g product_frame with Some a => pt_time (snd a) | None => None end.

(** The touch row of a user, from the rows the frames hold for them. *)
Definition base_of (g : key) : touch_base :=
  touch_of (g, lookup g session_frame, lookup g product_frame).

Definition newcomer_row (b : touch_base) : touch_newcomer :=
  newcomer_of (b, lookup (userId b) payment_frame, lookup (userId b) mentor_frame,
               lookup (userId b) access_frame).

Definition touch_row_of (n : touch_newcomer) : touch :=
  converted_of (n, lookup (userId (tn_base n)) any_after_frame,
                lookup (userId (tn_base n)) mentor_after_frame).

(** A succeeded payment, and the time it counts at: [paidAt], or
    [createdAt] when [paidAt] is missing. *)
Definition succeeded (p : payment) : bool := str_is "succeeded" (pay_status p).

Definition paid_time (p : payment) : timestamp :=
  fillna (pay_paidAt p) (pay_createdAt p).

(** The payment buys a product flagged as mentorship. *)
Definition buys_mentorship (p : payment) : bool :=
  existsb (fun f => key_eqb (pay_productId p) (pf_productId f)
                    && is_mentorship_product f)
          prod_flags.

(** The payment buys a product flagged as gateway. *)
Definition buys_gateway (p : payment) : bool :=
  existsb (fun f => key_eqb (pay_productId p) (pf_productId f)
                    && is_gateway_product f)
          prod_flags.

(** The attendance is to a session flagged as gateway. *)
Definition attends_gateway (a : attendance_event) : bool :=
  existsb (fun s => key_eqb (att_liveSessionId a) (sf_liveSessionId s)
                    && is_gateway_session s)
          (classify_gateway_sessions live_sessions).

(** The user's earliest attendance of a gateway session and earliest
    succeeded payment of a gateway product: null when there is none
    with a timestamp. *)
Definition earliest_gateway_attendance (u : key) : timestamp :=
  col_min (map att_attendedAt
               (filter (fun a => cell_eqb (att_studentId a) u && attends_gateway a)
                       live_session_attendance)).

Definition earliest_gateway_payment (u : key) : timestamp :=
  col_min (map paid_time
               (filter (fun p => succeeded p && cell_eqb (pay_userId p) u
                                 && buys_gateway p)
                       payments)).

(** The user's first-ever succeeded payment, first succeeded payment
    of a mentorship product, and first product access: null when the
    user has none. *)
Definition first_succeeded_payment (u : key) : timestamp :=
  col_min (map paid_time
               (filter (fun p => succeeded p && cell_eqb (pay_userId p) u) payments)).

Definition first_mentorship_payment (u : key) : timestamp :=
  col_min (map paid_time
               (filter (fun p => succeeded p && cell_eqb (pay_userId p) u
                                 && buys_mentorship p)
                       payments)).

Definition first_product_access (u : key) : timestamp :=
  col_min (map access_time
               (filter (fun a => cell_eqb (pa_userId a) u) product_accesses)).
End Candidates.

(** [x] is null or at/after the touch time. *)
Definition null_or_not_before (x touch : timestamp) : bool :=
  match x with
  | None => true
  | Some t => match touch with Some t0 => t0 <=? t | None => false end
  end.

Local Open Scope string_scope.

(** The four cohorts, by the flag column of the touch table. *)
Definition cohort_flags : list (string * (touch_row -> bool)) :=
  [ ("newcomer_A", tr_is_newcomer_A);
    ("newcomer_B", tr_is_newcomer_B);
    ("newcomer_C", tr_is_newcomer_C);
    ("newcomer_strict", tr_is_newcomer_strict) ].

Local Close Scope string_scope.

(** Classification of a product by its title alone. *)
Definition keyword_only (p : product) : product_flags :=
  {| pf_productId := prod_id p;
     pf_productTitle := prod_title p;
     pf_price := prod_price p;
     is_gateway_product := _has_keyword (prod_title p) GATEWAY_PRODUCT_KEYWORDS;
     is_mentorship_product := _has_keyword (prod_title p) MENTORSHIP_KEYWORDS |}.

(** The low price threshold of [classify_products]. *)
Definition price_low (products : list product) (gateway_quantile : Q)
  : result (option Q) :=
  quantile (map prod_price products) gateway_quantile.

(** The members of a cohort and its rows of the conversion curve. *)
Definition members (flag : touch_row -> bool) (out : attribution) : list touch_row :=
  filter flag (gateway_touch_attribution out).

Definition curve_rows (name : string) (out : attribution) : list curve_row :=
  filter (fun c => String.eqb (cv_cohort c) name) (gateway_conversion_curve out).

End GatewaySpec.

(* ===================================================================== *)
(** * Scenarios *)
(* ===================================================================== *)

Module Scenario.
Import Engagement.
Local Open Scope string_scope.

Definition days (n : Z) : timestamp := Some (n * day_ns).

(** Three students: ada attends everything, bob is assigned only a
    session row without a session id, cy is assigned nothing. *)
Definition enrollments : list enrollment :=
  [ {| enr_userId := Some "ada"; enr_courseId := Some "c1" |};
    {| enr_userId := Some "ada"; enr_courseId := Some "c2" |};
    {| enr_userId := Some "bob"; enr_courseId := Some "c1" |};
    {| enr_userId := Some "cy"; enr_courseId := Some "c1" |} ].

Definition live_session_assigned : list assigned :=
  [ {| asg_userId := Some "ada"; asg_liveSessionId := Some "s1" |};
    {| asg_userId := Some "ada"; asg_liveSessionId := Some "s2" |};
    {| asg_userId := Some "bob"; asg_liveSessionId := None |} ].

Definition live_session_attendance : list attendance_event :=
  [ {| att_studentId := Some "ada"; att_liveSessionId := Some "s1";
       att_attendedAt := days 1 |};
    {| att_studentId := Some "ada"; att_liveSessionId := Some "s2";
       att_attendedAt := days 2 |};
    {| att_studentId := Some "bob"; att_liveSessionId := Some "s1";
       att_attendedAt := days 3 |} ].

Definition assignment_completion : list assignment_completion_row :=
  [ {| ac_studentId := Some "ada"; ac_courseId := Some "c1";
       ac_assignmentCompletionRate := Fin (4 # 5) |} ].

Definition login_history : list login :=
  [ {| lg_userId := Some "ada"; lg_status := Some "success"; lg_timestamp := days 90 |};
    {| lg_userId := Some "bob"; lg_status := Some "success"; lg_timestamp := days 10 |};
    {| lg_userId := Some "cy"; lg_status := Some "failed"; lg_timestamp := days 95 |} ].

Definition payments : list payment :=
  [ {| pay_userId := Some "ada"; pay_productId := Some "p1";
       pay_status := Some "succeeded"; pay_paidAt := days 0; pay_createdAt := days 0 |};
    {| pay_userId := Some "ada"; pay_productId := Some "p3";
       pay_status := Some "succeeded"; pay_paidAt := days 5; pay_createdAt := days 5 |};
    {| pay_userId := Some "ada"; pay_productId := Some "p2";
       pay_status := Some "succeeded"; pay_paidAt := days 68; pay_createdAt := days 100 |};
    {| pay_userId := Some "bob"; pay_productId := Some "p1";
       pay_status := Some "pending"; pay_paidAt := days 5; pay_createdAt := days 5 |};
    {| pay_userId := Some "cy"; pay_productId := Some "p1";
       pay_status := Some "succeeded"; pay_paidAt := None; pay_createdAt := days 7 |} ].

Definition product_accesses : list product_access :=
  [ {| pa_userId := Some "ada"; pa_startDate := None; pa_createdAt := days 1 |} ].

Definition as_of : timestamp :=
  BuildTables.max_date payments login_history product_accesses live_session_attendance.

Definition attendance_table : list attendance_row :=
  build_attendance live_session_assigned live_session_attendance.

Definition scored : list completion_row * list absconded_row :=
  build_completion_and_absconded enrollments assignment_completion attendance_table
                                 login_history as_of.

Definition no_completion : completion_row :=
  {| userId := None; courseId := None; assignedSessions := NaN;
     attendedSessions := NaN; assignmentCompletionRate := NaN;
     attendanceRate := NaN; isComplete := false |}.

Definition no_absconded : absconded_row :=
  {| ab_completion := no_completion; ab_timestamp := None;
     inactive30 := false; isAbsconded := false |}.

(** The rows (ada, c1), (ada, c2), (bob, c1) and (cy, c1) of the two frames. *)
Definition ada_c1 : completion_row := Eval vm_compute in nth 0 (fst scored) no_completion.
Definition ada_c2 : completion_row := Eval vm_compute in nth 1 (fst scored) no_completion.
Definition bob_c1 : completion_row := Eval vm_compute in nth 2 (fst scored) no_completion.
Definition cy_c1 : completion_row := Eval vm_compute in nth 3 (fst scored) no_completion.
Definition ada_c1_absconded : absconded_row :=
  Eval vm_compute in nth 0 (snd scored) no_absconded.
Definition bob_c1_absconded : absconded_row :=
  Eval vm_compute in nth 2 (snd scored) no_absconded.
Definition bob_attendance : attendance_row :=
  Eval vm_compute in
    nth 1 attendance_table
        {| at_userId := None; at_assignedSessions := 0;
           at_attendedSessions := NaN; at_attendanceRate := NaN |}.

(** The same platform before its first payment is recorded. *)
Definition max_date_without_payments : timestamp :=
  BuildTables.max_date [] login_history product_accesses live_session_attendance.

Definition scored_without_payments : list completion_row * list absconded_row :=
  build_completion_and_absconded enrollments assignment_completion attendance_table
                                 login_history max_date_without_payments.

Definition bob_c1_without_payments : absconded_row :=
  Eval vm_compute in nth 2 (snd scored_without_payments) no_absconded.

(** ** Gateway attribution on the same platform *)

Import Gateway.

Definition live_sessions : list live_session :=
  [ {| ls_id := Some "s1"; ls_title := Some "Intro Webinar" |};
    {| ls_id := Some "s2"; ls_title := Some "Deep dive" |} ].

Definition products : list product :=
  [ {| prod_id := Some "p1"; prod_title := Some "Starter pack"; prod_price := Some (10 # 1) |};
    {| prod_id := Some "p2"; prod_title := Some "Mentorship Gold";
       prod_price := Some (1000 # 1) |};
    {| prod_id := Some "p3"; prod_title := Some "Course"; prod_price := Some (100 # 1) |};
    {| prod_id := Some "p4"; prod_title := Some "Workshop"; prod_price := Some (40 # 1) |};
    {| prod_id := Some "p5"; prod_title := Some "Bundle"; prod_price := Some (200 # 1) |} ].

Definition workshop : product :=
  {| prod_id := Some "p4"; prod_title := Some "Workshop"; prod_price := Some (40 # 1) |}.

Definition unpriced : list product :=
  [ {| prod_id := Some "p1"; prod_title := Some "Starter pack"; prod_price := None |};
    {| prod_id := Some "p2"; prod_title := Some "Mentorship Gold"; prod_price := None |} ].

Definition gateway_quantile : Q := 1 # 4.
Definition mentorship_quantile : Q := 3 # 4.

Definition no_flags : product_flags :=
  {| pf_productId := None; pf_productTitle := None; pf_price := None;
     is_gateway_product := false; is_mentorship_product := false |}.

Definition prod_flags : list product_flags :=
  Eval vm_compute in
    match classify_products products gateway_quantile mentorship_quantile with
    | Ok flags => flags
    | Raise _ => []
    end.

Definition workshop_flags : product_flags := Eval vm_compute in nth 3 prod_flags no_flags.

Definition no_attribution : attribution :=
  {| gateway_touch_attribution := [];
     gateway_conversion_summary := [];
     gateway_conversion_curve := [] |}.

Definition attributed : attribution :=
  Eval vm_compute in
    match build_gateway_attribution live_sessions live_session_attendance
                                    live_session_assigned payments products
                                    product_accesses gateway_quantile
                                    mentorship_quantile with
    | Ok out => out
    | Raise _ => no_attribution
    end.

(** The same run on a platform without any record. *)
Definition attributed_nothing : attribution :=
  Eval vm_compute in
    match build_gateway_attribution [] [] [] [] [] [] gateway_quantile
                                    mentorship_quantile with
    | Ok out => out
    | Raise _ => no_attribution
    end.

Definition no_touch : touch_row :=
  {| tr_userId := None; tr_first_touch_time := None;
     tr_first_touch_type := touch_product; tr_gateway_asset_name := None;
     tr_gateway_session_id := None; tr_gateway_session_title := None;
     tr_gateway_product_id := None; tr_gateway_product_title := None;
     tr_is_newcomer_A := false; tr_is_newcomer_B := false;
     tr_is_newcomer_C := false; tr_is_newcomer_strict := false;
     tr_days_to_any_paid := None; tr_days_to_mentorship_paid := None |}.

Definition ada_touch : touch_row :=
  Eval vm_compute in nth 0 (gateway_touch_attribution attributed) no_touch.
Definition bob_touch : touch_row :=
  Eval vm_compute in nth 1 (gateway_touch_attribution attributed) no_touch.

Definition no_summary : summary_row :=
  {| sr_cohort := ""; cohort_size := 0; sr_windows := [];
     median_days_any_paid := NaN; median_days_mentorship_paid := NaN |}.

Definition no_window : window_stats :=
  {| ws_window := 0; any_paid := 0; any_paid_rate := NaN;
     mentorship_paid := 0; mentorship_paid_rate := NaN |}.

Definition summary_A : summary_row :=
  Eval vm_compute in nth 0 (gateway_conversion_summary attributed) no_summary.
Definition summary_A_3d : window_stats :=
  Eval vm_compute in nth 1 (sr_windows summary_A) no_window.
Definition summary_A_7d : window_stats :=
  Eval vm_compute in nth 2 (sr_windows summary_A) no_window.

Definition empty_summary_A : summary_row :=
  Eval vm_compute in nth 0 (gateway_conversion_summary attributed_nothing) no_summary.
Definition empty_summary_A_7d : window_stats :=
  Eval vm_compute in nth 2 (sr_windows empty_summary_A) no_window.

End Scenario.

From Stdlib Require Import Lqa.

(* ===================================================================== *)
(** * Further notions: conversion after the touch *)
(* ===================================================================== *)

Module ConversionSpec.
Import Gateway GatewaySpec.

(** The user has a row in one of the two candidate frames. *)
Definition touched (live_sessions : list live_session)
    (live_session_attendance : list attendance_event)
    (payments : list payment) (prod_flags : list product_flags) (g : key) : Prop :=
  In g (map fst (session_frame live_sessions live_session_attendance))
  \/ In g (map fst (product_frame payments prod_flags)).

(** The user's earliest succeeded payment strictly after the touch, of
    any product and of a mentorship product: null when there is none. *)
Definition first_paid_after (payments : list payment) (u : key)
    (touch : timestamp) : timestamp :=
  col_min (map paid_time
               (filter (fun p => succeeded p && cell_eqb (pay_userId p) u
                                 && ts_gt (paid_time p) touch)
                       payments)).

Definition first_mentorship_paid_after (payments : list payment)
    (prod_flags : list product_flags) (u : key) (touch : timestamp) : timestamp :=
  col_min (map paid_time
               (filter (fun p => succeeded p && cell_eqb (pay_userId p) u
                                 && buys_mentorship prod_flags p
                                 && ts_gt (paid_time p) touch)
                       payments)).

(** What the final row of a touched user holds. *)
Definition row_facts (live_sessions : list live_session)
    (live_session_attendance : list attendance_event)
    (payments : list payment) (prod_flags : list product_flags)
    (product_accesses : list product_access) (g : key) (r : touch_row) : Prop :=
  let touch :=
    first_touch_time
      (base_of live_sessions live_session_attendance payments prod_flags g) in
  tr_userId r = g
  /\ tr_first_touch_time r = touch
  /\ touch <> None
  /\ tr_is_newcomer_A r
     = null_or_not_before (first_succeeded_payment payments g) touch
  /\ tr_is_newcomer_B r
     = null_or_not_before (first_mentorship_payment payments prod_flags g) touch
  /\ tr_is_newcomer_C r
     = null_or_not_before (first_product_access product_accesses g) touch
  /\ tr_is_newcomer_strict r
     = tr_is_newcomer_A r && tr_is_newcomer_B r && tr_is_newcomer_C r
  /\ tr_days_to_any_paid r = days_between (first_paid_after payments g touch) touch
  /\ tr_days_to_mentorship_paid r
     = days_between (first_mentorship_paid_after payments prod_flags g touch) touch.

End ConversionSpec.

(* ===================================================================== *)
(** * Further notions: classification *)
(* ===================================================================== *)

Module ClassifySpec.
Import Gateway.

(** The quantile is a percentile, as [quantile] demands. *)
Definition is_percentile (q : Q) : bool := Qle_bool 0 q && Qle_bool q 1.

(** Some product has a price. *)
Definition some_price (products : list product) : bool :=
  existsb notna (map prod_price products).

(** The text [_has_keyword] searches. *)
Definition searched_text (value : option string) : string :=
  match value with Some v => lower v | None => EmptyString end.

(** [k] occurs in [text]. *)
Definition occurs_in (k text : string) : Prop :=
  exists pre post, text = (pre ++ k ++ post)%string.

(** The price is the lowest, respectively the highest, of the priced
    products. *)
Definition cheapest (products : list product) (x : Q) : Prop :=
  forall p y, In p products -> prod_price p = Some y -> (x <= y)%Q.

Definition dearest (products : list product) (x : Q) : Prop :=
  forall p y, In p products -> prod_price p = Some y -> (y <= x)%Q.

End ClassifySpec.

(* ===================================================================== *)
(** * Further notions: scoring *)
(* ===================================================================== *)

Module ScoringSpec.
Import Engagement EngagementSpec.

(** No successful login in the 30 days before the as-of date: always so
    for a user who never logged in, never so for a user who did when the
    as-of date is null. *)
Definition inactive_since (last max_date : timestamp) : bool :=
  match last, max_date with
  | None, _ => true
  | Some t, Some m => t <? m - 30 * day_ns
  | Some _, None => false
  end.

(** The four columns the as-of date is taken from. *)
Definition as_of_columns (payments : list payment) (login_history : list login)
    (product_accesses : list product_access)
    (live_session_attendance : list attendance_event) : list timestamp :=
  map pay_createdAt payments ++ map lg_timestamp login_history
  ++ map pa_createdAt product_accesses
  ++ map att_attendedAt live_session_attendance.

(** The number of events of a user in a stream. *)
Definition user_events {R} (uid : R -> key) (u : key) (df : list R) : nat :=
  List.length (filter (fun r => cell_eqb (uid r) u) df).

Definition enrolled_pairs (enrollments : list enrollment) : list (key * key) :=
  map (fun e => (enr_userId e, enr_courseId e)) enrollments.

Definition row_pair (r : completion_row) : key * key := (userId r, courseId r).

Definition ac_pair (r : assignment_completion_row) : key * key :=
  (ac_studentId r, ac_courseId r).

End ScoringSpec.

(* ===================================================================== *)
(** * features/engagement.py: assignment completion *)
(* ===================================================================== *)

Module AssignmentCompletion.
Import Engagement.
Local Open Scope string_scope.

(** The columns of [assignments] and [modules] the function reads; an
    assignment has no course of its own, it gets one from its module. *)
Record assignment := {
  asn_id : key;
  asn_moduleId : key
}.

Record course_module := {
  mod_id : key;
  mod_courseId : key
}.

(** A row of [assignments] after the join with [modules]. *)
Record assignment_with_course := {
  awc_id : key;
  awc_moduleId : key;
  awc_courseId : key
}.

(** A row of [submissions] after the join with the assignments. *)
Record course_submission := {
  cs_studentId : key;
  cs_assignmentId : key;
  cs_courseId : key
}.

Record completion_counts := {
  cc_studentId : key;
  cc_courseId : key;
  submittedAssignments : nat;
  totalAssignments : option nat;
  cc_assignmentCompletionRate : float
}.

(** [col.astype(str)] on an identifier cell: a null becomes the text of
    NaN. *)
Definition astype_str (c : key) : key :=
  Some (match c with Some s => s | None => "nan" end).

(** The order of the group keys of a groupby on two columns. *)
Definition pair_leb (a b : key * key) : bool :=
  if key_eqb (fst a) (fst b) then key_leb (snd a) (snd b)
  else key_leb (fst a) (fst b).

Definition cs_pair (r : course_submission) : key * key :=
  (cs_studentId r, cs_courseId r).

Definition build_assignment_completion (assignments : list assignment)
    (assignment_submissions : list submission) (modules : list course_module)
  : list completion_counts * list assignment_with_course :=
  let assignments :=
    map (fun am =>
           {| awc_id := asn_id (fst am);
              awc_moduleId := asn_moduleId (fst am);
              awc_courseId :=
                match snd am with Some m => mod_courseId m | None => None end |})
        (merge_left (fun a m => key_eqb (asn_moduleId a) (mod_id m))
                    assignments modules) in
  let assignments_per_course :=
    groupby_agg false awc_courseId awc_id nunique assignments in
  let submissions :=
    map (fun sa =>
           {| cs_studentId := astype_str (sub_studentId (fst sa));
              cs_assignmentId := sub_assignmentId (fst sa);
              cs_courseId :=
                match snd sa with Some a => awc_courseId a | None => None end |})
        (merge_left (fun s a => key_eqb (sub_assignmentId s) (awc_id a))
                    assignment_submissions assignments) in
  let submitted_per_user_course :=
    map (fun g =>
           (g, nunique (map cs_assignmentId
                            (filter (fun r => pair_eqb (cs_pair r) g) submissions))))
        (sort pair_leb (distinct pair_eqb (map cs_pair submissions))) in
  let completion :=
    merge_left (fun l r => key_eqb (snd (fst l)) (fst r))
               submitted_per_user_course assignments_per_course in
  (map (fun lr =>
          let '((g, submitted), total) := lr in
          {| cc_studentId := fst g;
             cc_courseId := snd g;
             submittedAssignments := submitted;
             totalAssignments := option_map snd total;
             cc_assignmentCompletionRate :=
               fdiv (of_count submitted)
                    (match total with Some t => of_count (snd t) | None => NaN end) |})
       completion,
   assignments).

(** The columns of the completion frame [build_completion_and_absconded]
    reads. *)
Definition completion_columns (r : completion_counts) : assignment_completion_row :=
  {| ac_studentId := cc_studentId r;
     ac_courseId := cc_courseId r;
     ac_assignmentCompletionRate := cc_assignmentCompletionRate r |}.

Definition cc_pair (r : completion_counts) : key * key :=
  (cc_studentId r, cc_courseId r).

End AssignmentCompletion.

Module AssignmentSpec.
Import Engagement AssignmentCompletion.

Section Frames.
Variable assignments : list assignment.
Variable assignment_submissions : list submission.
Variable modules : list course_module.

(** The frames [build_assignment_completion] goes through. *)
Definition with_course : list assignment_with_course :=
  snd (build_assignment_completion assignments assignment_submissions modules).

Definition per_course : list (key * nat) :=
  groupby_agg false awc_courseId awc_id nunique with_course.

Definition joined_submissions : list course_submission :=
  map (fun sa =>
         {| cs_studentId := astype_str (sub_studentId (fst sa));
            cs_assignmentId := sub_assignmentId (fst sa);
            cs_courseId :=
              match snd sa with Some a => awc_courseId a | None => None end |})
      (merge_left (fun s a => key_eqb (sub_assignmentId s) (awc_id a))
                  assignment_submissions with_course).

Definition student_courses : list (key * key) :=
  sort pair_leb (distinct pair_eqb (map cs_pair joined_submissions)).

(** The row of a (student, course) pair. *)
Definition counts_of (g : key * key) : completion_counts :=
  let submitted :=
    nunique (map cs_assignmentId
                 (filter (fun r => pair_eqb (cs_pair r) g) joined_submissions)) in
  let total := lookup (snd g) per_course in
  {| cc_studentId := fst g;
     cc_courseId := snd g;
     submittedAssignments := submitted;
     totalAssignments := option_map snd total;
     cc_assignmentCompletionRate :=
       fdiv (of_count submitted)
            (match total with Some t => of_count (snd t) | None => NaN end) |}.
End Frames.

(** The row of a (student, course) pair in the frame
    [build_assignment_completion] returns, if there is one. *)
Definition counts_for (rows : list completion_counts) (p : key * key)
  : option completion_counts :=
  find (fun c => pair_eqb p (cc_pair c)) rows.

End AssignmentSpec.

(* ===================================================================== *)
(** * features/engagement.py: the session summary *)
(* ===================================================================== *)

Module SessionSummary.
Import Engagement.

(** Elementwise [==] on timestamps: NaT equals nothing. *)
Definition ts_eqb (a b : timestamp) : bool :=
  match a, b with Some x, Some y => x =? y | _, _ => false end.

(** [col.sum()] on a boolean column of a group. *)
Definition count_true (c : list bool) : nat := List.length (filter (fun b => b) c).

(** A count a left join brings, null without a partner, then
    [fillna(0)]. *)
Definition joined_count (o : option (key * nat)) : float :=
  fillna0 (match o with Some r => of_count (snd r) | None => NaN end).

Record session_row := {
  sn_liveSessionId : key;
  assignedCount : float;
  attendedCount : float;
  joinRate : float;
  newFaces : float;
  newFaceRate : float
}.

(** The attendance rows with their [isNewFace] flag. *)
Definition flagged_attendance (live_session_attendance : list attendance_event)
  : list (attendance_event * bool) :=
  let first_attendance :=
    groupby_agg true att_studentId att_attendedAt col_min live_session_attendance in
  map (fun af =>
         let attendedAt_first :=
           match snd af with Some r => snd r | None => None end in
         (fst af, ts_eqb (att_attendedAt (fst af)) attendedAt_first))
      (merge_left (fun a r => key_eqb (att_studentId a) (fst r))
                  live_session_attendance first_attendance).

(** The second frame [build_attendance] returns. *)
Definition session_new_faces (live_session_assigned : list assigned)
    (live_session_attendance : list attendance_event)
    (live_sessions : list live_session) : list session_row :=
  let session_assigned :=
    groupby_agg true asg_liveSessionId asg_userId nunique live_session_assigned in
  let session_attended :=
    groupby_agg true att_liveSessionId att_studentId nunique live_session_attendance in
  let session_summary :=
    merge_left (fun l r => key_eqb (ls_id (fst l)) (fst r))
               (merge_left (fun l r => key_eqb (ls_id l) (fst r))
                           live_sessions session_assigned)
               session_attended in
  let new_faces :=
    groupby_agg true (fun af => att_liveSessionId (fst af)) snd count_true
                (flagged_attendance live_session_attendance) in
  map (fun sn =>
         let '(s, assigned, attended) := fst sn in
         let assignedCount := joined_count assigned in
         let attendedCount := joined_count attended in
         let newFaces := joined_count (snd sn) in
         {| sn_liveSessionId := ls_id s;
            assignedCount := assignedCount;
            attendedCount := attendedCount;
            joinRate := fdiv attendedCount (replace0_nan assignedCount);
            newFaces := newFaces;
            newFaceRate := fdiv newFaces (replace0_nan attendedCount) |})
      (merge_left (fun l r => key_eqb (ls_id (fst (fst l))) (fst r))
                  session_summary new_faces).

End SessionSummary.

Module SessionSpec.
Import Engagement SessionSummary.

(** The distinct users assigned to, and the distinct students who
    attended, a session. *)
Definition assigned_users (live_session_assigned : list assigned) (s : key) : nat :=
  nunique (map asg_userId (group_of asg_liveSessionId s live_session_assigned)).

Definition attending_students (live_session_attendance : list attendance_event)
    (s : key) : nat :=
  nunique (map att_studentId (group_of att_liveSessionId s live_session_attendance)).

(** The attendance rows of a session at which a student is seen for the
    first time. *)
Definition new_face_rows (live_session_attendance : list attendance_event)
    (s : key) : nat :=
  count_true (map snd (group_of (fun af => att_liveSessionId (fst af)) s
                                (flagged_attendance live_session_attendance))).

(** A count of a session: zero for a session without id. *)
Definition session_count (count : key -> nat) (s : key) : nat :=
  match s with Some _ => count s | None => 0%nat end.

End SessionSpec.

(* ===================================================================== *)
(** * features/ops.py: the gap report *)
(* ===================================================================== *)

Module Ops.
Import Engagement.
Local Open Scope string_scope.

(** The columns of [enrollments] the report reads. *)
Record access_row := {
  ar_userId : key;
  ar_productId : key
}.

Record gap_row := {
  gapType : string;
  userCount : nat
}.

(** [left.merge(right, how="left", indicator=True)] on both columns,
    then the rows marked [left_only]. *)
Definition left_only (left right : list (key * key)) : list (key * key) :=
  map fst (filter (fun lr => isna (snd lr)) (merge_left pair_eqb left right)).

Definition ops_gap_report (enrollments : list access_row) (payments : list payment)
    (login_history : list login) (max_date : timestamp) : list gap_row :=
  let succeeded :=
    distinct pair_eqb
             (map (fun p => (pay_userId p, pay_productId p))
                  (filter (fun p => str_is "succeeded" (pay_status p)) payments)) in
  let enroll_pairs :=
    distinct pair_eqb (map (fun e => (ar_userId e, ar_productId e)) enrollments) in
  let paid_not_assigned := left_only succeeded enroll_pairs in
  let assigned_not_paid := left_only enroll_pairs succeeded in
  let login_success := filter (fun l => str_is "success" (lg_status l)) login_history in
  let last_login := groupby_agg true lg_userId lg_timestamp col_max login_success in
  let cutoff := ts_sub max_date (Timedelta_days 30) in
  let inactive_users := map fst (filter (fun r => ts_lt (snd r) cutoff) last_login) in
  let access_no_login :=
    nunique (map ar_userId
                 (filter (fun e => existsb (key_eqb (ar_userId e)) inactive_users)
                         enrollments)) in
  [ {| gapType := "paid_not_assigned";
       userCount := nunique (map fst paid_not_assigned) |};
    {| gapType := "assigned_not_paid";
       userCount := nunique (map fst assigned_not_paid) |};
    {| gapType := "active_access_no_recent_login";
       userCount := access_no_login |} ].

End Ops.

Module OpsSpec.
Import Engagement EngagementSpec Ops.

Definition paid_pairs (payments : list payment) : list (key * key) :=
  map (fun p => (pay_userId p, pay_productId p))
      (filter (fun p => str_is "succeeded" (pay_status p)) payments).

Definition access_pairs (enrollments : list access_row) : list (key * key) :=
  map (fun e => (ar_userId e, ar_productId e)) enrollments.

(** The distinct users of the pairs of [left] that are no pair of
    [right]. *)
Definition unmatched_users (left right : list (key * key)) : nat :=
  nunique (map fst (filter (fun p => negb (existsb (pair_eqb p) right)) left)).

(** The user logged in successfully, but for the last time more than 30
    days before the as-of date. *)
Definition silent_since (login_history : list login) (max_date : timestamp)
    (u : key) : bool :=
  match latest_success_login login_history u, max_date with
  | Some t, Some m => t <? m - 30 * day_ns
  | _, _ => false
  end.

End OpsSpec.

(* ===================================================================== *)
(** * pipelines/build_tables.py: the payments of students *)
(* ===================================================================== *)

Module StudentFilter.
Local Open Scope string_scope.

Record role := {
  role_id : option Z;
  role_name : option string
}.

Record user := {
  user_id : key;
  user_roleId : option Z
}.

(** Membership of a cell in a collection of numbers ([isin]): null is a
    member when the collection holds a null. *)
Definition num_eqb (a b : option Z) : bool :=
  match a, b with
  | Some x, Some y => Z.eqb x y
  | None, None => true
  | _, _ => false
  end.

Definition student_role_ids (roles : list role) : list (option Z) :=
  let named :=
    map role_id
        (filter (fun r => str_is "student" (option_map Gateway.lower (role_name r)))
                roles) in
  match named with
  | [] => [Some 2]
  | _ :: _ => named
  end.

Definition student_ids (roles : list role) (users : list user) : list key :=
  map user_id
      (filter (fun u => existsb (num_eqb (user_roleId u)) (student_role_ids roles))
              users).

(** The payments [build_tables] goes on with. *)
Definition student_payments (roles : list role) (users : list user)
    (payments : list payment) : list payment :=
  match student_ids roles users with
  | [] => payments
  | ids => filter (fun p => existsb (key_eqb (pay_userId p)) ids) payments
  end.

End StudentFilter.

Module StudentSpec.
Import StudentFilter.
Local Open Scope string_scope.

(** The role is called student, in any case. *)
Definition named_student (r : role) : Prop :=
  exists name, role_name r = Some name /\ Gateway.lower name = "student".

(** The role id is one of a student: the id of a role called student,
    or 2 when no role is called so. *)
Definition student_role (roles : list role) (rid : option Z) : Prop :=
  (exists r, In r roles /\ named_student r /\ role_id r = rid)
  \/ ((forall r, In r roles -> ~ named_student r) /\ rid = Some 2).

Definition is_student (roles : list role) (users : list user) (uid : key) : Prop :=
  exists u, In u users /\ user_id u = uid /\ student_role roles (user_roleId u).

End StudentSpec.

(* ===================================================================== *)
(** * pipelines/build_tables.py: the completion threshold breakdown *)
(* ===================================================================== *)

Module CompletionTables.
Import Engagement.
Local Open Scope string_scope.

Record completion_flags := {
  cf_completion : completion_row;
  meet_attendance_70 : bool;
  meet_assignments_70 : bool;
  meet_both_70 : bool
}.

Record breakdown_row := {
  metric : string;
  users : nat;
  rate : float
}.

(** [int(col.sum())] on a boolean column. *)
Definition bool_sum (c : list bool) : nat := List.length (filter (fun b => b) c).

(** [float(col.mean())] on a boolean column of a frame with rows. *)
Definition bool_mean (c : list bool) : float :=
  Gateway.quotient (bool_sum c) (List.length c).

Definition threshold_breakdown (completion : list completion_row)
  : list breakdown_row :=
  let completion_flags :=
    map (fun r =>
           let attendance := fge (attendanceRate r) threshold_complete in
           let assignments := fge (assignmentCompletionRate r) threshold_complete in
           {| cf_completion := r;
              meet_attendance_70 := attendance;
              meet_assignments_70 := assignments;
              meet_both_70 := attendance && assignments |})
        completion in
  let mean (c : list bool) : float :=
    match completion_flags with [] => NaN | _ :: _ => bool_mean c end in
  [ {| metric := "Meet attendance >=70%";
       users := bool_sum (map meet_attendance_70 completion_flags);
       rate := mean (map meet_attendance_70 completion_flags) |};
    {| metric := "Meet assignments >=70%";
       users := bool_sum (map meet_assignments_70 completion_flags);
       rate := mean (map meet_assignments_70 completion_flags) |};
    {| metric := "Meet both (strict completion)";
       users := bool_sum (map meet_both_70 completion_flags);
       rate := mean (map meet_both_70 completion_flags) |} ].

End CompletionTables.

(* ===================================================================== *)
(** * features/gateway_attribution.py: the asset conversion table *)
(* ===================================================================== *)

Module GatewayAssets.
Import Gateway.

Record asset_row := {
  asset_type : touch_type;
  asset_name : option string;
  asset_touches : nat;
  mentorship_converted_14d : nat;
  conversion_rate_14d : float
}.

(** The title column an asset type is grouped by. *)
Definition name_col (ty : touch_type) (t : touch) : option string :=
  match ty with
  | touch_session => sessionTitle (tn_base (t_newcomer t))
  | touch_product => productTitle (tn_base (t_newcomer t))
  end.

(** One pass of the loop over the asset types, on the strict newcomers. *)
Definition asset_rows_of (strict : list touch) (ty : touch_type) : list asset_row :=
  let subset :=
    filter (fun t => touch_type_eqb (first_touch_type (tn_base (t_newcomer t))) ty)
           strict in
  match subset with
  | [] => []
  | _ :: _ =>
      map (fun name =>
             let grp := group_of (name_col ty) name subset in
             let touches_count := nunique (map touch_user grp) in
             let conv_14 := count_within days_to_mentorship_paid 14 grp in
             {| asset_type := ty;
                asset_name := name;
                asset_touches := touches_count;
                mentorship_converted_14d := conv_14;
                conversion_rate_14d := rate_or_nan conv_14 touches_count |})
          (group_keys false (map (name_col ty) subset))
  end.

Definition asset_conversion (touches : list touch) : list asset_row :=
  let strict := filter (fun t => is_newcomer_strict (t_newcomer t)) touches in
  match strict with
  | [] => []
  | _ :: _ => flat_map (asset_rows_of strict) [touch_session; touch_product]
  end.

(** The [gateway_asset_conversion] table of the result dictionary of
    [build_gateway_attribution]. *)
Definition gateway_asset_conversion
    (live_sessions : list live_session)
    (live_session_attendance : list attendance_event)
    (live_session_assigned : list assigned)
    (payments : list payment)
    (products : list product)
    (product_accesses : list product_access)
    (gateway_quantile mentorship_quantile : Q) : result (list asset_row) :=
  prod_flags <- classify_products products gateway_quantile mentorship_quantile ;;
  Ok (asset_conversion
        (touches live_sessions live_session_attendance payments prod_flags
                 product_accesses)).

End GatewayAssets.

Module AssetSpec.
Import Gateway.

(** Rows with distinct, non-null users. *)
Definition clean (l : list touch) : Prop :=
  NoDup (map touch_user l) /\ forall t, In t l -> touch_user t <> None.

(** The first touch is of the given type. *)
Definition of_type (ty : touch_type) (t : touch) : bool :=
  touch_type_eqb (first_touch_type (tn_base (t_newcomer t))) ty.

(** A mentorship conversion within 14 days of the first touch. *)
Definition within_14 (t : touch) : bool :=
  notna (days_to_mentorship_paid t)
  && match days_to_mentorship_paid t with Some d => d <=? 14 | None => false end.

End AssetSpec.

(* ===================================================================== *)
(** * Further scenarios *)
(* ===================================================================== *)

Module ScenarioExtra.
Import Gateway.

Definition no_curve : curve_row :=
  {| cv_cohort := EmptyString; cv_day := 0; mentorship_conversion_rate := NaN |}.

(** The point of day 7 on the curve of cohort A. *)
Definition curve_A_day7 : curve_row :=
  Eval vm_compute in nth 7 (gateway_conversion_curve Scenario.attributed) no_curve.

Local Open Scope string_scope.

(** Two products at one price, no keyword in their titles. *)
Definition one_price : list product :=
  [ {| prod_id := Some "a"; prod_title := Some "Course A"; prod_price := Some (50 # 1) |};
    {| prod_id := Some "b"; prod_title := Some "Course B"; prod_price := Some (50 # 1) |} ].
Definition course_a : product :=
  {| prod_id := Some "a"; prod_title := Some "Course A"; prod_price := Some (50 # 1) |}.
Definition one_price_flags : list product_flags :=
  Eval vm_compute in
    match classify_products one_price Scenario.gateway_quantile
                            Scenario.mentorship_quantile with
    | Ok flags => flags
    | Raise _ => []
    end.
Definition course_a_flags : product_flags :=
  Eval vm_compute in nth 0 one_price_flags Scenario.no_flags.

Definition session_flags_of_scenario : list session_flags :=
  Eval vm_compute in classify_gateway_sessions Scenario.live_sessions.
Definition intro_webinar : session_flags :=
  Eval vm_compute in
    nth 0 session_flags_of_scenario
        {| sf_liveSessionId := None; sf_sessionTitle := None;
           is_gateway_session := false |}.

(** A payment of an unknown user, among the events of the platform. *)
Definition anonymous_payment : payment :=
  {| pay_userId := None; pay_productId := Some "p1"; pay_status := Some "succeeded";
     pay_paidAt := Scenario.days 0; pay_createdAt := Scenario.days 0 |}.

Definition remorse_table : list Engagement.remorse_row :=
  Eval vm_compute in
    Engagement.buyers_remorse_window
      (Scenario.payments ++ [anonymous_payment]) Scenario.live_session_attendance []
      Scenario.login_history.

Definition no_remorse : Engagement.remorse_row :=
  {| Engagement.rr_userId := None; Engagement.rr_paidAt := 0;
     Engagement.week1_attendance := 0; Engagement.week4_attendance := 0;
     Engagement.week1_submissions := 0; Engagement.week4_submissions := 0;
     Engagement.week1_logins := 0; Engagement.week4_logins := 0 |}.

Definition ada_first_payment : Engagement.remorse_row :=
  Eval vm_compute in nth 0 remorse_table no_remorse.

Definition ada_attendance : Engagement.attendance_row :=
  Eval vm_compute in
    nth 0 Scenario.attendance_table
        {| Engagement.at_userId := None; Engagement.at_assignedSessions := 0;
           Engagement.at_attendedSessions := NaN; Engagement.at_attendanceRate := NaN |}.

Definition breakdown : list CompletionTables.breakdown_row :=
  Eval vm_compute in CompletionTables.threshold_breakdown (fst Scenario.scored).

Definition summary_strict : summary_row :=
  Eval vm_compute in
    nth 3 (gateway_conversion_summary Scenario.attributed) Scenario.no_summary.
Definition summary_strict_14d : window_stats :=
  Eval vm_compute in nth 3 (sr_windows summary_strict) Scenario.no_window.

Definition asset_table : list GatewayAssets.asset_row :=
  Eval vm_compute in
    match GatewayAssets.gateway_asset_conversion
            Scenario.live_sessions Scenario.live_session_attendance
            Scenario.live_session_assigned Scenario.payments Scenario.products
            Scenario.product_accesses Scenario.gateway_quantile
            Scenario.mentorship_quantile with
    | Ok rows => rows
    | Raise _ => []
    end.

Definition starter_pack_asset : GatewayAssets.asset_row :=
  Eval vm_compute in
    nth 1 asset_table
        {| GatewayAssets.asset_type := touch_session;
           GatewayAssets.asset_name := None;
           GatewayAssets.asset_touches := 0;
           GatewayAssets.mentorship_converted_14d := 0;
           GatewayAssets.conversion_rate_14d := NaN |}.

(** Two assignments of course c1, one of a module without course; ada
    submits both assignments of c1 (one of them twice), bob one of them
    and one assignment nobody knows. *)
Definition assignments : list AssignmentCompletion.assignment :=
  [ {| AssignmentCompletion.asn_id := Some "a1";
       AssignmentCompletion.asn_moduleId := Some "m1" |};
    {| AssignmentCompletion.asn_id := Some "a2";
       AssignmentCompletion.asn_moduleId := Some "m1" |};
    {| AssignmentCompletion.asn_id := Some "a3";
       AssignmentCompletion.asn_moduleId := Some "m9" |} ].

Definition modules : list AssignmentCompletion.course_module :=
  [ {| AssignmentCompletion.mod_id := Some "m1";
       AssignmentCompletion.mod_courseId := Some "c1" |} ].

Definition assignment_submissions : list submission :=
  [ {| sub_studentId := Some "ada"; sub_assignmentId := Some "a1";
       sub_submittedAt := Scenario.days 3 |};
    {| sub_studentId := Some "ada"; sub_assignmentId := Some "a1";
       sub_submittedAt := Scenario.days 4 |};
    {| sub_studentId := Some "ada"; sub_assignmentId := Some "a2";
       sub_submittedAt := Scenario.days 5 |};
    {| sub_studentId := Some "bob"; sub_assignmentId := Some "a1";
       sub_submittedAt := Scenario.days 6 |};
    {| sub_studentId := Some "bob"; sub_assignmentId := Some "zz";
       sub_submittedAt := Scenario.days 7 |} ].

Definition assignment_counts : list AssignmentCompletion.completion_counts :=
  Eval vm_compute in
    fst (AssignmentCompletion.build_assignment_completion
           assignments assignment_submissions modules).

Definition no_counts : AssignmentCompletion.completion_counts :=
  {| AssignmentCompletion.cc_studentId := None;
     AssignmentCompletion.cc_courseId := None;
     AssignmentCompletion.submittedAssignments := 0;
     AssignmentCompletion.totalAssignments := None;
     AssignmentCompletion.cc_assignmentCompletionRate := NaN |}.

Definition bob_c1_counts : AssignmentCompletion.completion_counts :=
  Eval vm_compute in nth 1 assignment_counts no_counts.

(** The scoring of the platform on the computed assignment completion. *)
Definition scored_from_submissions
  : list Engagement.completion_row * list Engagement.absconded_row :=
  Engagement.build_completion_and_absconded
    Scenario.enrollments
    (map AssignmentCompletion.completion_columns
         (fst (AssignmentCompletion.build_assignment_completion
                 assignments assignment_submissions modules)))
    Scenario.attendance_table Scenario.login_history Scenario.as_of.

(** The products classified with a higher gateway quantile and a lower
    mentorship quantile. *)
Definition wide_flags : list product_flags :=
  Eval vm_compute in
    match classify_products Scenario.products (1 # 2) (1 # 2) with
    | Ok flags => flags
    | Raise _ => []
    end.
Definition workshop_wide_flags : product_flags :=
  Eval vm_compute in nth 3 wide_flags Scenario.no_flags.

(** Staff and students: no role is called student, bob has role 2. *)
Definition roles : list StudentFilter.role :=
  [ {| StudentFilter.role_id := Some 1; StudentFilter.role_name := Some "Admin" |};
    {| StudentFilter.role_id := Some 2; StudentFilter.role_name := Some "Learner" |} ].

Definition users : list StudentFilter.user :=
  [ {| StudentFilter.user_id := Some "ada"; StudentFilter.user_roleId := Some 1 |};
    {| StudentFilter.user_id := Some "bob"; StudentFilter.user_roleId := Some 2 |} ].

Definition bob_payment : payment :=
  {| pay_userId := Some "bob"; pay_productId := Some "p1";
     pay_status := Some "pending"; pay_paidAt := Scenario.days 5;
     pay_createdAt := Scenario.days 5 |}.

Definition ada_c1_from_submissions : Engagement.completion_row :=
  Eval vm_compute in nth 0 (fst scored_from_submissions) Scenario.no_completion.

Definition session_table : list SessionSummary.session_row :=
  Eval vm_compute in
    SessionSummary.session_new_faces
      Scenario.live_session_assigned Scenario.live_session_attendance
      Scenario.live_sessions.

(** Who has access to what: ada to the two products she paid for, bob
    and cy to one they did not pay. *)
Definition accesses : list Ops.access_row :=
  [ {| Ops.ar_userId := Some "ada"; Ops.ar_productId := Some "p1" |};
    {| Ops.ar_userId := Some "ada"; Ops.ar_productId := Some "p3" |};
    {| Ops.ar_userId := Some "bob"; Ops.ar_productId := Some "p1" |};
    {| Ops.ar_userId := Some "cy"; Ops.ar_productId := Some "p1" |} ].

Definition gap_report : list Ops.gap_row :=
  Eval vm_compute in
    Ops.ops_gap_report accesses Scenario.payments Scenario.login_history
                       Scenario.as_of.

End ScenarioExtra.

(* ===================================================================== *)
(** * Facts about cells and frame operations *)
(* ===================================================================== *)

Lemma key_eqb_eq (a b : key) : key_eqb a b = true <-> a = b.
Proof.
  destruct a as [x|], b as [y|]; simpl; try (split; congruence).
  rewrite String.eqb_eq. split; congruence.
Qed.

Lemma key_eqb_refl (a : key) : key_eqb a a = true.
Proof. now apply key_eqb_eq. Qed.

Lemma key_eqb_neq (a b : key) : key_eqb a b = false <-> a <> b.
Proof.
  rewrite <- key_eqb_eq. destruct (key_eqb a b); split; congruence.
Qed.

Lemma cell_eqb_Some (a : key) (u : string) : cell_eqb a (Some u) = true <-> a = Some u.
Proof.
  destruct a as [x|]; simpl; try (split; congruence).
  rewrite String.eqb_eq. split; congruence.
Qed.

Lemma notna_true {A} (c : option A) : notna c = true <-> c <> None.
Proof. destruct c; simpl; split; congruence. Qed.

Section SortFacts.
Context {A : Type} (leb : A -> A -> bool).

Lemma insert_sorted_perm (x : A) (l : list A) :
  Permutation (insert_sorted leb x l) (x :: l).
Proof.
  induction l as [|y t IH]; simpl.
  - apply Permutation_refl.
  - destruct (leb x y).
    + apply Permutation_refl.
    + eapply perm_trans; [apply perm_skip, IH | apply perm_swap].
Qed.

Lemma sort_perm (l : list A) : Permutation (sort leb l) l.
Proof.
  induction l as [|x t IH]; simpl.
  - apply perm_nil.
  - eapply perm_trans; [apply insert_sorted_perm | now apply perm_skip].
Qed.

Lemma sort_In (x : A) (l : list A) : In x (sort leb l) <-> In x l.
Proof.
  split; apply Permutation_in; [apply sort_perm | apply Permutation_sym, sort_perm].
Qed.

Lemma sort_NoDup (l : list A) : NoDup l -> NoDup (sort leb l).
Proof.
  intro H. eapply Permutation_NoDup; [apply Permutation_sym, sort_perm | exact H].
Qed.

Lemma sort_length (l : list A) : List.length (sort leb l) = List.length l.
Proof. apply Permutation_length, sort_perm. Qed.
End SortFacts.

Section DistinctFacts.
Context {A : Type} (eqb : A -> A -> bool).
Hypothesis eqb_eq : forall x y, eqb x y = true <-> x = y.

Lemma distinct_In (x : A) (l : list A) : In x (distinct eqb l) <-> In x l.
Proof.
  induction l as [|y t IH]; simpl; [tauto|].
  rewrite filter_In, IH. split.
  - intros [H | [H _]]; auto.
  - intros [H | H]; auto.
    destruct (eqb y x) eqn:E.
    + left. now apply eqb_eq.
    + right. split; auto.
Qed.

Lemma distinct_NoDup (l : list A) : NoDup (distinct eqb l).
Proof.
  induction l as [|y t IH]; simpl; constructor.
  - rewrite filter_In. intros [_ H].
    assert (E : eqb y y = true) by now apply eqb_eq.
    rewrite E in H. discriminate.
  - now apply NoDup_filter.
Qed.
End DistinctFacts.

Lemma group_keys_In (dropna : bool) (c : list key) (g : key) :
  In g (group_keys dropna c) <-> In g c /\ (dropna = true -> g <> None).
Proof.
  unfold group_keys. rewrite sort_In, (distinct_In _ key_eqb_eq).
  destruct dropna.
  - rewrite filter_In, notna_true. intuition congruence.
  - intuition congruence.
Qed.

Lemma group_keys_NoDup (dropna : bool) (c : list key) : NoDup (group_keys dropna c).
Proof. apply sort_NoDup, (distinct_NoDup _ key_eqb_eq). Qed.

Lemma filter_absent_key {R} (k : R -> key) (g : key) (rows : list R) :
  ~ In g (map k rows) -> filter (fun r => key_eqb g (k r)) rows = [].
Proof.
  induction rows as [|r t IH]; simpl; intro H; [reflexivity|].
  destruct (key_eqb g (k r)) eqn:E.
  - apply key_eqb_eq in E. exfalso. auto.
  - apply IH. auto.
Qed.

(** In a frame whose key column has no duplicate, at most one row matches
    a key, and it is the one [find] returns. *)
Lemma filter_unique_key {R} (k : R -> key) (g : key) (rows : list R) :
  NoDup (map k rows) ->
  filter (fun r => key_eqb g (k r)) rows
  = match find (fun r => key_eqb g (k r)) rows with
    | Some r => [r]
    | None => []
    end.
Proof.
  induction rows as [|r t IH]; simpl; intro ND; [reflexivity|].
  inversion ND as [|? ? Hnotin ND']; subst.
  destruct (key_eqb g (k r)) eqn:E.
  - f_equal. apply key_eqb_eq in E. subst g.
    now apply filter_absent_key.
  - now apply IH.
Qed.

(** A left join on a right frame with a unique key keeps the left rows one
    for one. *)
Lemma merge_left_unique {L R} (kl : L -> key) (kr : R -> key)
    (left : list L) (right : list R) :
  NoDup (map kr right) ->
  merge_left (fun a b => key_eqb (kl a) (kr b)) left right
  = map (fun a => (a, find (fun b => key_eqb (kl a) (kr b)) right)) left.
Proof.
  intro ND. unfold merge_left.
  induction left as [|a t IH]; [reflexivity|].
  cbn [flat_map]. rewrite map_cons, IH, (filter_unique_key kr (kl a) right ND).
  now destruct (find _ right).
Qed.

Lemma find_keyed (g : key) {V} (f : key -> V) (keys : list key) :
  find (fun r => key_eqb g (fst r)) (map (fun x => (x, f x)) keys)
  = if existsb (key_eqb g) keys then Some (g, f g) else None.
Proof.
  induction keys as [|x t IH]; simpl; [reflexivity|].
  destruct (key_eqb g x) eqn:E; simpl; [|exact IH].
  apply key_eqb_eq in E. now subst.
Qed.

Lemma existsb_key_In (g : key) (keys : list key) :
  existsb (key_eqb g) keys = true <-> In g keys.
Proof.
  rewrite existsb_exists. split.
  - intros [x [Hin E]]. apply key_eqb_eq in E. now subst.
  - intro H. exists g. split; [assumption | apply key_eqb_refl].
Qed.

Lemma existsb_key_notIn (g : key) (keys : list key) :
  existsb (key_eqb g) keys = false <-> ~ In g keys.
Proof.
  rewrite <- existsb_key_In. destruct (existsb (key_eqb g) keys); split; congruence.
Qed.

Section GroupbyFacts.
Context {A V R : Type}.
Variables (dropna : bool) (k : A -> key) (v : A -> V) (agg : list V -> R).

Lemma groupby_agg_keys (rows : list A) :
  map fst (groupby_agg dropna k v agg rows) = group_keys dropna (map k rows).
Proof.
  unfold groupby_agg. rewrite map_map. simpl. apply map_id.
Qed.

Lemma groupby_agg_NoDup (rows : list A) :
  NoDup (map fst (groupby_agg dropna k v agg rows)).
Proof. rewrite groupby_agg_keys. apply group_keys_NoDup. Qed.

Lemma groupby_agg_lookup (g : key) (rows : list A) :
  lookup g (groupby_agg dropna k v agg rows)
  = if existsb (key_eqb g) (group_keys dropna (map k rows))
    then Some (g, agg (map v (group_of k g rows)))
    else None.
Proof.
  unfold lookup, groupby_agg.
  apply (find_keyed g (fun x => agg (map v (group_of k x rows)))).
Qed.

Lemma groupby_agg_key_notnull (rows : list A) (r : key * R) :
  dropna = true -> In r (groupby_agg dropna k v agg rows) -> fst r <> None.
Proof.
  intros Hd Hin.
  assert (H : In (fst r) (map fst (groupby_agg dropna k v agg rows)))
    by now apply in_map.
  rewrite groupby_agg_keys in H. apply group_keys_In in H. tauto.
Qed.
End GroupbyFacts.

(** A group no row belongs to is empty. *)
Lemma group_of_absent {A} (k : A -> key) (g : key) (rows : list A) :
  ~ In g (map k rows) -> group_of k g rows = [].
Proof.
  intro H. unfold group_of.
  induction rows as [|r t IH]; simpl; [reflexivity|].
  destruct (key_eqb (k r) g) eqn:E.
  - apply key_eqb_eq in E. exfalso. apply H. simpl. auto.
  - apply IH. intro H'. apply H. simpl. auto.
Qed.

(** ** Floats against the two thresholds *)

Lemma complete_excludes_absconded (x : float) :
  fge x Engagement.threshold_complete = true ->
  flt x Engagement.threshold_absconded = false.
Proof.
  unfold fge, flt, Engagement.threshold_complete, Engagement.threshold_absconded.
  destruct x as [| |q|]; simpl; try congruence.
  intro H. apply Qle_bool_iff in H.
  assert (L : Qle_bool (1 # 10) q = true).
  { apply Qle_bool_iff. eapply Qle_trans; [|exact H]. discriminate. }
  now rewrite L.
Qed.

Lemma filter_filter {A} (f g : A -> bool) (l : list A) :
  filter f (filter g l) = filter (fun x => g x && f x) l.
Proof.
  induction l as [|x t IH]; simpl; [reflexivity|].
  destruct (g x); simpl; [destruct (f x)|]; now rewrite IH.
Qed.

Lemma existsb_group_keys (g : key) (c : list key) :
  existsb (key_eqb g) (group_keys false c) = existsb (key_eqb g) c.
Proof.
  destruct (existsb (key_eqb g) c) eqn:E.
  - apply existsb_key_In. apply existsb_key_In in E.
    apply group_keys_In. split; [assumption | discriminate].
  - apply existsb_key_notIn. apply existsb_key_notIn in E.
    rewrite group_keys_In. tauto.
Qed.

Lemma existsb_group_keys_dropna (s : string) (c : list key) :
  existsb (key_eqb (Some s)) (group_keys true c) = existsb (key_eqb (Some s)) c.
Proof.
  destruct (existsb (key_eqb (Some s)) c) eqn:E.
  - apply existsb_key_In. apply existsb_key_In in E.
    apply group_keys_In. split; [assumption | discriminate].
  - apply existsb_key_notIn. apply existsb_key_notIn in E.
    rewrite group_keys_In. tauto.
Qed.

Lemma existsb_group_keys_null (c : list key) :
  existsb (key_eqb None) (group_keys true c) = false.
Proof.
  apply existsb_key_notIn. rewrite group_keys_In. intros [_ H]. now apply H.
Qed.

Lemma find_map {A B} (p : B -> bool) (f : A -> B) (l : list A) :
  find p (map f l) = option_map f (find (fun a => p (f a)) l).
Proof.
  induction l as [|x t IH]; simpl; [reflexivity|].
  now destruct (p (f x)).
Qed.

(* ===================================================================== *)
(** * Completion and absconded scoring *)
(* ===================================================================== *)

Module EngagementFacts.
Import Engagement EngagementSpec.

Section Attendance.
Variable live_session_assigned : list assigned.
Variable live_session_attendance : list attendance_event.

Lemma build_attendance_eq :
  build_attendance live_session_assigned live_session_attendance
  = map (attendance_of live_session_assigned live_session_attendance)
        (group_keys false (map asg_userId live_session_assigned)).
Proof.
  unfold build_attendance.
  rewrite (merge_left_unique fst fst) by apply groupby_agg_NoDup.
  set (attended := groupby_agg false att_studentId _ _ live_session_attendance).
  unfold groupby_agg. subst attended. rewrite !map_map.
  apply map_ext. intro g. cbn [fst snd].
  fold (lookup g (groupby_agg false att_studentId att_liveSessionId nunique
                              live_session_attendance)).
  rewrite groupby_agg_lookup, existsb_group_keys.
  unfold attendance_of, assigned_sessions, attended_sessions.
  destruct (existsb (key_eqb g) (map att_studentId live_session_attendance)) eqn:E.
  - reflexivity.
  - apply existsb_key_notIn in E.
    rewrite (group_of_absent att_studentId g _ E). reflexivity.
Qed.

Lemma build_attendance_NoDup :
  NoDup (map at_userId
             (build_attendance live_session_assigned live_session_attendance)).
Proof.
  rewrite build_attendance_eq, map_map. cbn [attendance_of at_userId].
  rewrite map_id. apply group_keys_NoDup.
Qed.

Lemma build_attendance_find (u : key) :
  find (fun r => key_eqb u (at_userId r))
       (build_attendance live_session_assigned live_session_attendance)
  = if is_assigned live_session_assigned u
    then Some (attendance_of live_session_assigned live_session_attendance u)
    else None.
Proof.
  rewrite build_attendance_eq, find_map. cbn [attendance_of at_userId].
  unfold is_assigned. rewrite <- existsb_group_keys.
  induction (group_keys false (map asg_userId live_session_assigned)) as [|x t IH];
    simpl; [reflexivity|].
  destruct (key_eqb u x) eqn:E; simpl; [|exact IH].
  apply key_eqb_eq in E. now subst.
Qed.
End Attendance.

Section Completion.
Variable enrollments : list enrollment.
Variable assignment_completion : list assignment_completion_row.
Variable live_session_assigned : list assigned.
Variable live_session_attendance : list attendance_event.
Variable login_history : list login.
Variable max_date : timestamp.

Let attendance := build_attendance live_session_assigned live_session_attendance.

(** Every completion row takes its attendance columns from the one
    attendance row of its user. *)
Lemma completion_attendance (r : completion_row) :
  In r (build_completion enrollments assignment_completion attendance) ->
  attendanceRate r
  = fillna0 (user_attendance_rate live_session_assigned live_session_attendance
                                  (userId r))
  /\ assignedSessions r
     = if is_assigned live_session_assigned (userId r)
       then of_count (assigned_sessions live_session_assigned (userId r))
       else NaN.
Proof.
  unfold build_completion, attendance.
  rewrite (merge_left_unique (fun l => fst (fst l)) at_userId)
    by apply build_attendance_NoDup.
  rewrite map_map, in_map_iff. intros [[e ac] [<- _]].
  cbn [completion_of userId attendanceRate assignedSessions fst snd].
  rewrite build_attendance_find. unfold user_attendance_rate.
  now destruct (is_assigned live_session_assigned (fst e)).
Qed.

Lemma completion_flag (attn : list attendance_row) (r : completion_row) :
  In r (build_completion enrollments assignment_completion attn) ->
  isComplete r
  = fge (assignmentCompletionRate r) threshold_complete
    && fge (attendanceRate r) threshold_complete.
Proof.
  unfold build_completion. rewrite in_map_iff.
  intros [[[e ac] att] [<- _]]. reflexivity.
Qed.

Lemma absconded_eq (attn : list attendance_row) :
  snd (build_completion_and_absconded enrollments assignment_completion attn
                                      login_history max_date)
  = map (fun c => absconded_of (ts_sub max_date (Timedelta_days 30))
                               (c, lookup (userId c) (last_login login_history)))
        (build_completion enrollments assignment_completion attn).
Proof.
  unfold build_completion_and_absconded. cbn [snd].
  rewrite (merge_left_unique userId fst) by apply groupby_agg_NoDup.
  now rewrite map_map.
Qed.

Lemma absconded_completion (attn : list attendance_row) :
  map ab_completion
      (snd (build_completion_and_absconded enrollments assignment_completion attn
                                           login_history max_date))
  = fst (build_completion_and_absconded enrollments assignment_completion attn
                                        login_history max_date).
Proof.
  rewrite absconded_eq, map_map. cbn [absconded_of ab_completion].
  rewrite map_id. reflexivity.
Qed.

Lemma last_login_lookup (u : key) :
  lookup_ts u (last_login login_history) = latest_success_login login_history u.
Proof.
  unfold lookup_ts, last_login, latest_success_login.
  rewrite groupby_agg_lookup.
  destruct u as [s|].
  - rewrite existsb_group_keys_dropna.
    assert (G : group_of lg_userId (Some s)
                  (filter (fun l => str_is "success" (lg_status l)) login_history)
                = filter (fun l => str_is "success" (lg_status l)
                                   && cell_eqb (lg_userId l) (Some s))
                         login_history).
    { unfold group_of. rewrite filter_filter. apply filter_ext.
      intro l. now destruct (lg_userId l). }
    destruct (existsb _ _) eqn:E; cbn [snd].
    + now rewrite G.
    + rewrite <- G. apply existsb_key_notIn in E.
      now rewrite (group_of_absent lg_userId (Some s) _ E).
  - rewrite existsb_group_keys_null.
    assert (G : filter (fun l => str_is "success" (lg_status l)
                                 && cell_eqb (lg_userId l) None) login_history = []).
    { induction login_history as [|l t IH]; simpl; [reflexivity|].
      replace (cell_eqb (lg_userId l) None) with false
        by now destruct (lg_userId l).
      now rewrite andb_false_r. }
    now rewrite G.
Qed.

(** The flag of an absconded row, in terms of the row's own rates and of
    the user's latest successful login. *)
Lemma absconded_flag (attn : list attendance_row) (r : absconded_row) :
  In r (snd (build_completion_and_absconded enrollments assignment_completion attn
                                            login_history max_date)) ->
  ab_timestamp r = latest_success_login login_history (userId (ab_completion r))
  /\ isAbsconded r
     = flt (assignmentCompletionRate (ab_completion r)) threshold_absconded
       && flt (attendanceRate (ab_completion r)) threshold_absconded
       && (isna (ab_timestamp r)
           || ts_lt (ab_timestamp r) (ts_sub max_date (Timedelta_days 30))).
Proof.
  rewrite absconded_eq, in_map_iff. intros [c [<- _]].
  cbn [absconded_of ab_timestamp ab_completion isAbsconded].
  split; [|reflexivity].
  apply last_login_lookup.
Qed.
End Completion.

End EngagementFacts.

(* ===================================================================== *)
(** * The as-of date *)
(* ===================================================================== *)

Module BuildTablesFacts.
Import EngagementSpec.

Lemma ts_max2_assoc (a b c : timestamp) :
  ts_max2 a (ts_max2 b c) = ts_max2 (ts_max2 a b) c.
Proof.
  destruct a, b, c; simpl; try reflexivity. now rewrite Z.max_assoc.
Qed.

Lemma col_max_app (c1 c2 : list timestamp) :
  col_max (c1 ++ c2) = ts_max2 (col_max c1) (col_max c2).
Proof.
  unfold col_max. induction c1 as [|x t IH]; simpl.
  - reflexivity.
  - rewrite IH. apply ts_max2_assoc.
Qed.

(** One step of Python's [max] from a non-null running maximum. *)
Lemma py_max_step (m : Z) (x : timestamp) :
  (if ts_gt x (Some m) then x else Some m) = ts_max2 (Some m) x.
Proof.
  destruct x as [b|]; simpl; [|reflexivity].
  destruct (Z.ltb_spec m b); f_equal; lia.
Qed.

Lemma ts_max2_Some (m : Z) (x : timestamp) : exists m', ts_max2 (Some m) x = Some m'.
Proof. destruct x; simpl; eexists; reflexivity. Qed.

(** As soon as one payment has a [createdAt], the as-of date is the
    latest timestamp of the four columns. *)
Lemma max_date_latest (payments : list payment) (login_history : list login)
    (product_accesses : list product_access)
    (live_session_attendance : list attendance_event) :
  col_max (map pay_createdAt payments) <> None ->
  BuildTables.max_date payments login_history product_accesses
                       live_session_attendance
  = latest_observed payments login_history product_accesses
                    live_session_attendance.
Proof.
  intro H. unfold BuildTables.max_date, latest_observed, py_max.
  rewrite !col_max_app.
  destruct (col_max (map pay_createdAt payments)) as [m|]; [|congruence].
  cbn [fold_left].
  rewrite py_max_step.
  destruct (ts_max2_Some m (col_max (map lg_timestamp login_history))) as [m1 E1].
  rewrite E1, py_max_step.
  destruct (ts_max2_Some m1 (col_max (map pa_createdAt product_accesses))) as [m2 E2].
  rewrite E2, py_max_step, <- E2, <- E1.
  now rewrite !ts_max2_assoc.
Qed.

(** Without any payment [createdAt] the running maximum starts null and
    stays null. *)
Lemma max_date_null (payments : list payment) (login_history : list login)
    (product_accesses : list product_access)
    (live_session_attendance : list attendance_event) :
  col_max (map pay_createdAt payments) = None ->
  BuildTables.max_date payments login_history product_accesses
                       live_session_attendance = None.
Proof.
  intro H. unfold BuildTables.max_date, py_max. rewrite H. cbn [fold_left].
  now destruct (col_max (map lg_timestamp login_history)),
               (col_max (map pa_createdAt product_accesses)),
               (col_max (map att_attendedAt live_session_attendance)).
Qed.
End BuildTablesFacts.

(* ===================================================================== *)
(** * Buyer's remorse windows *)
(* ===================================================================== *)

Module RemorseFacts.
Import Engagement EngagementSpec.

Lemma count_between_events {R} (user : key) (paid_at : Z)
    (uid : R -> key) (time_col : R -> timestamp) (df : list R) (lo hi : Z) :
  _count_between user paid_at uid time_col df lo hi
  = events_in_window user paid_at lo hi (map (fun r => (uid r, time_col r)) df).
Proof.
  unfold _count_between, Timedelta_days.
  induction df as [|r t IH]; [reflexivity|].
  cbn [filter map events_in_window].
  rewrite <- IH. clear IH.
  destruct (uid r) as [u|], (time_col r) as [x|], user as [v|];
    cbn [cell_eqb ts_ge ts_le andb]; rewrite ?andb_false_r; try reflexivity.
  now destruct (String.eqb u v && (paid_at + lo * day_ns <=? x)
                && (x <=? paid_at + hi * day_ns)).
Qed.

Lemma remorse_rows (live_session_attendance : list attendance_event)
    (assignment_submissions : list submission) (login_history : list login)
    (payments : list payment) :
  Forall2 (remorse_row_of live_session_attendance assignment_submissions login_history)
          (filter is_paid_event payments)
          (buyers_remorse_window payments live_session_attendance
                                 assignment_submissions login_history).
Proof.
  unfold buyers_remorse_window. rewrite filter_filter.
  fold is_paid_event.
  change (fun p => str_is "succeeded" (pay_status p) && notna (pay_paidAt p))
    with is_paid_event.
  induction payments as [|pay t IH]; [constructor|].
  cbn [filter]. destruct (is_paid_event pay) eqn:E; [|exact IH].
  cbn [flat_map].
  unfold is_paid_event in E. apply andb_prop in E. destruct E as [_ E].
  destruct (pay_paidAt pay) as [paid_at|] eqn:P; [|discriminate].
  cbn [app]. constructor; [|exact IH].
  unfold remorse_row_of. cbn.
  rewrite !count_between_events. fold successful.
  change (fun l => str_is "success" (lg_status l)) with successful.
  repeat split; auto.
Qed.
End RemorseFacts.

(* ===================================================================== *)
(** * Conversion summary and curve *)
(* ===================================================================== *)

Module ConversionFacts.
Import Gateway.

Lemma count_within_mono (col : touch -> option Z) (w1 w2 : Z) (cohort : list touch) :
  w1 <= w2 -> (count_within col w1 cohort <= count_within col w2 cohort)%nat.
Proof.
  intro Hw. unfold count_within.
  induction cohort as [|t rest IH]; simpl; [lia|].
  destruct (col t) as [d|]; simpl; [|exact IH].
  destruct (d <=? w1) eqn:E1.
  - assert (E2 : (d <=? w2) = true) by (apply Z.leb_le; apply Z.leb_le in E1; lia).
    rewrite E2. simpl. lia.
  - destruct (d <=? w2); simpl; lia.
Qed.

Lemma quotient_mono (a b size : nat) :
  (a <= b)%nat -> size <> 0%nat -> fle (quotient a size) (quotient b size) = true.
Proof.
  intros Hab Hs. unfold quotient, fle.
  apply Qle_bool_iff. rewrite !Qred_correct.
  unfold Qdiv. apply Qmult_le_compat_r.
  - rewrite <- Zle_Qle. lia.
  - apply Qinv_le_0_compat. replace 0%Q with (inject_Z 0) by reflexivity.
    rewrite <- Zle_Qle. lia.
Qed.

Lemma rate_or_nan_mono (a b size : nat) :
  (a <= b)%nat -> size <> 0%nat -> fle (rate_or_nan a size) (rate_or_nan b size) = true.
Proof.
  intros Hab Hs. unfold rate_or_nan.
  destruct (Nat.eqb_spec size 0); [contradiction|].
  now apply quotient_mono.
Qed.

Section Summary.
Variable touches : list touch.

Lemma summary_row_inv (row : summary_row) :
  In row (conversion_summary touches) ->
  exists def, In def cohort_defs /\ row = summary_of touches def.
Proof.
  unfold conversion_summary. rewrite in_map_iff.
  intros [def [<- H]]. now exists def.
Qed.

Lemma summary_windows (def : string * (touch -> bool)) :
  map ws_window (sr_windows (summary_of touches def)) = windows.
Proof.
  destruct def as [name col]. cbn [summary_of sr_windows].
  rewrite map_map. cbn [ws_window]. apply map_id.
Qed.

(** Within one summary row the rates grow with the window. *)
Lemma summary_rates_mono (def : string * (touch -> bool)) (s1 s2 : window_stats) :
  cohort_size (summary_of touches def) <> 0%nat ->
  In s1 (sr_windows (summary_of touches def)) ->
  In s2 (sr_windows (summary_of touches def)) ->
  ws_window s1 <= ws_window s2 ->
  fle (any_paid_rate s1) (any_paid_rate s2) = true
  /\ fle (mentorship_paid_rate s1) (mentorship_paid_rate s2) = true.
Proof.
  destruct def as [name col]. cbn [summary_of sr_windows cohort_size].
  rewrite !in_map_iff. intros Hs [w1 [<- _]] [w2 [<- _]].
  cbn [ws_window any_paid_rate mentorship_paid_rate]. intro Hw.
  split; apply rate_or_nan_mono; auto using count_within_mono.
Qed.

(** A cohort of size zero has only null rates. *)
Lemma summary_rates_null (def : string * (touch -> bool)) (s : window_stats) :
  cohort_size (summary_of touches def) = 0%nat ->
  In s (sr_windows (summary_of touches def)) ->
  any_paid_rate s = NaN /\ mentorship_paid_rate s = NaN.
Proof.
  destruct def as [name col]. cbn [summary_of sr_windows cohort_size].
  rewrite in_map_iff. intros Hs [w [<- _]].
  cbn [any_paid_rate mentorship_paid_rate]. unfold rate_or_nan.
  now rewrite Hs.
Qed.

Lemma curve_of_filter (name : string) (def : string * (touch -> bool)) :
  filter (fun c => String.eqb (cv_cohort c) name) (curve_of touches def)
  = if String.eqb (fst def) name then curve_of touches def else [].
Proof.
  destruct def as [n col]. cbn [fst]. unfold curve_of.
  destruct (_ =? 0)%nat; [now destruct (String.eqb n name)|].
  induction curve_days as [|d t IH]; simpl.
  - now destruct (String.eqb n name).
  - rewrite IH. now destruct (String.eqb n name).
Qed.

Lemma curve_of_days (def : string * (touch -> bool)) :
  cohort_size (summary_of touches def) <> 0%nat ->
  map cv_day (curve_of touches def) = curve_days.
Proof.
  destruct def as [n col]. cbn [summary_of cohort_size]. unfold curve_of.
  intro Hs. destruct (Nat.eqb_spec (nunique (map touch_user (filter col touches))) 0);
    [contradiction|].
  rewrite map_map. cbn [cv_day]. apply map_id.
Qed.

Lemma curve_of_empty (def : string * (touch -> bool)) :
  cohort_size (summary_of touches def) = 0%nat -> curve_of touches def = [].
Proof.
  destruct def as [n col]. cbn [summary_of cohort_size]. unfold curve_of.
  intro Hs. now rewrite Hs.
Qed.

Lemma curve_of_mono (def : string * (touch -> bool)) (c1 c2 : curve_row) :
  In c1 (curve_of touches def) -> In c2 (curve_of touches def) ->
  cv_day c1 <= cv_day c2 ->
  fle (mentorship_conversion_rate c1) (mentorship_conversion_rate c2) = true.
Proof.
  destruct def as [n col]. unfold curve_of.
  destruct (Nat.eqb_spec (nunique (map touch_user (filter col touches))) 0);
    [contradiction|].
  rewrite !in_map_iff. intros [d1 [<- _]] [d2 [<- _]].
  cbn [cv_day mentorship_conversion_rate]. intro Hd.
  apply quotient_mono; auto using count_within_mono.
Qed.
End Summary.

End ConversionFacts.

(* ===================================================================== *)
(** * Touch attribution *)
(* ===================================================================== *)

Lemma key_eqb_sym (a b : key) : key_eqb a b = key_eqb b a.
Proof.
  destruct (key_eqb b a) eqn:E.
  - apply key_eqb_eq. apply key_eqb_eq in E. congruence.
  - apply key_eqb_neq. apply key_eqb_neq in E. congruence.
Qed.

Lemma lookup_unique {V} (frame : list (key * V)) (a : key * V) :
  NoDup (map fst frame) -> In a frame -> lookup (fst a) frame = Some a.
Proof.
  unfold lookup. induction frame as [|x t IH]; simpl; [tauto|].
  intros ND [-> | Hin].
  - now rewrite key_eqb_refl.
  - inversion ND as [|? ? Hnot ND']; subst.
    destruct (key_eqb (fst a) (fst x)) eqn:E; [|now apply IH].
    apply key_eqb_eq in E. exfalso. apply Hnot. rewrite <- E. now apply in_map.
Qed.

Lemma lookup_In {V} (g : key) (frame : list (key * V)) (a : key * V) :
  lookup g frame = Some a -> In a frame /\ fst a = g.
Proof.
  unfold lookup. intro H. apply find_some in H. destruct H as [Hin E].
  apply key_eqb_eq in E. auto.
Qed.

Lemma lookup_None {V} (g : key) (frame : list (key * V)) :
  lookup g frame = None <-> ~ In g (map fst frame).
Proof.
  unfold lookup. split.
  - intros H Hin. apply in_map_iff in Hin. destruct Hin as [a [<- Hin]].
    apply (find_none _ _ H) in Hin. now rewrite key_eqb_refl in Hin.
  - intro H. destruct (find _ frame) as [a|] eqn:E; [|reflexivity].
    apply find_some in E. destruct E as [Hin E]. apply key_eqb_eq in E.
    exfalso. apply H. rewrite E. now apply in_map.
Qed.

(** The rows of an outer join of two frames with unique keys: one row per
    key of either frame, carrying the row each frame has for that key. *)
Lemma merge_outer_In {V W} (left : list (key * V)) (right : list (key * W))
    (row : key * option (key * V) * option (key * W)) :
  NoDup (map fst left) -> NoDup (map fst right) ->
  In row (merge_outer fst fst left right)
  <-> exists g, (In g (map fst left) \/ In g (map fst right))
                /\ row = (g, lookup g left, lookup g right).
Proof.
  intros NDl NDr. unfold merge_outer.
  rewrite sort_In, in_app_iff, (merge_left_unique fst fst left right NDr).
  rewrite map_map, !in_map_iff. cbn [fst snd]. split.
  - intros [[a [<- Hin]] | [b [<- Hin]]].
    + exists (fst a). split; [left; now apply in_map|].
      now rewrite (lookup_unique left a NDl Hin).
    + unfold right_only in Hin. apply filter_In in Hin. destruct Hin as [Hin Hno].
      exists (fst b). split; [right; now apply in_map|].
      rewrite (lookup_unique right b NDr Hin).
      replace (lookup (fst b) left) with (@None (key * V)); [reflexivity|].
      symmetry. apply lookup_None. intro H.
      apply in_map_iff in H. destruct H as [a [E Ha]].
      apply negb_true_iff in Hno.
      assert (X : existsb (fun a0 => key_eqb (fst a0) (fst b)) left = true).
      { apply existsb_exists. exists a. split; [assumption|]. now apply key_eqb_eq. }
      congruence.
  - intros [g [Hg ->]].
    destruct (lookup g left) as [a|] eqn:El.
    + left. apply lookup_In in El. destruct El as [Hin <-].
      exists a. split; [reflexivity | assumption].
    + right. apply lookup_None in El.
      destruct Hg as [Hg | Hg]; [contradiction|].
      apply in_map_iff in Hg. destruct Hg as [b [<- Hin]].
      exists b. rewrite (lookup_unique right b NDr Hin). split; [reflexivity|].
      unfold right_only. apply filter_In. split; [assumption|].
      apply negb_true_iff. destruct (existsb _ left) eqn:X; [|reflexivity].
      apply existsb_exists in X. destruct X as [a [Ha E]].
      apply key_eqb_eq in E. exfalso. apply El. rewrite <- E. now apply in_map.
Qed.

Lemma first_valid_notna {V} (c : list (option V)) :
  c <> [] -> Forall (fun x => notna x = true) c -> first_valid c <> None.
Proof.
  destruct c as [|[v|] t]; simpl; intros Hne Hall; try congruence.
  inversion Hall; subst. discriminate.
Qed.

Lemma group_of_nonempty {A} (k : A -> key) (g : key) (rows : list A) :
  In g (map k rows) -> group_of k g rows <> [].
Proof.
  intros Hin E. apply in_map_iff in Hin. destruct Hin as [r [<- Hr]].
  assert (X : In r (group_of k (k r) rows)).
  { unfold group_of. apply filter_In. split; [assumption | apply key_eqb_refl]. }
  rewrite E in X. contradiction.
Qed.

(** ** Column minima *)

Lemma col_min_None (c : list timestamp) :
  col_min c = None <-> forall x, In x c -> x = None.
Proof.
  induction c as [|a t IH]; simpl.
  - split; [intros _ x [] | reflexivity].
  - destruct a as [x|]; simpl.
    + split.
      * destruct (col_min t); discriminate.
      * intro H. specialize (H (Some x) (or_introl eq_refl)). discriminate.
    + rewrite IH. split.
      * intros H x [<- | Hx]; auto.
      * intros H x Hx. apply H. auto.
Qed.

Lemma col_min_Some (c : list timestamp) (m : Z) :
  col_min c = Some m <-> In (Some m) c /\ forall t, In (Some t) c -> m <= t.
Proof.
  revert m. induction c as [|a rest IH]; intro m; simpl.
  - split; [discriminate | tauto].
  - destruct a as [x|]; simpl.
    + destruct (col_min rest) as [y|] eqn:E.
      * specialize (IH y). destruct IH as [IH _]. specialize (IH eq_refl).
        destruct IH as [Hy Hmin]. split.
        -- intro H. injection H as <-. split.
           ++ destruct (Z.min_spec x y) as [[_ ->] | [_ ->]]; auto.
           ++ intros t [Ht | Ht]; [injection Ht as <-; lia|].
              specialize (Hmin t Ht). lia.
        -- intros [Hin Hle]. f_equal.
           assert (m <= x) by (apply Hle; auto).
           assert (m <= y) by (apply Hle; auto).
           destruct Hin as [Hin | Hin]; [injection Hin as <-; lia|].
           specialize (Hmin m Hin). lia.
      * pose proof (proj1 (col_min_None rest) E) as N. split.
        -- intro H. injection H as <-. split; [auto|].
           intros t [Ht | Ht]; [injection Ht as <-; lia|].
           apply N in Ht. discriminate.
        -- intros [[Hin | Hin] _]; [assumption|].
           apply N in Hin. discriminate.
    + rewrite IH. split.
      * intros [Hin Hle]. split; [auto|]. intros t [Ht | Ht]; [discriminate | auto].
      * intros [[Hin | Hin] Hle]; [discriminate|]. split; auto.
Qed.

(** The minimum of a column depends on the non-null values it holds
    only, not on their order or multiplicity. *)
Lemma col_min_ext_notna (c c' : list timestamp) :
  (forall t, In (Some t) c <-> In (Some t) c') -> col_min c = col_min c'.
Proof.
  intro H. destruct (col_min c) as [m|] eqn:E.
  - symmetry. apply col_min_Some. apply col_min_Some in E.
    destruct E as [Hin Hle]. split.
    + now apply H.
    + intros t Ht. apply Hle. now apply H.
  - symmetry. apply col_min_None. intros [t|] Hx; [|reflexivity].
    apply H in Hx. apply (proj1 (col_min_None c) E) in Hx. discriminate.
Qed.

Lemma col_min_ext (c c' : list timestamp) :
  (forall x, In x c <-> In x c') -> col_min c = col_min c'.
Proof. intro H. apply col_min_ext_notna. intro t. apply H. Qed.

(** ** Sorted frames *)

Section SortedFacts.
Context {A : Type} (leb : A -> A -> bool).
Hypothesis leb_total : forall a b, leb a b = true \/ leb b a = true.
Hypothesis leb_trans : forall a b c, leb a b = true -> leb b c = true -> leb a c = true.

Let le (a b : A) : Prop := leb a b = true.

Lemma insert_sorted_sorted (x : A) (l : list A) :
  StronglySorted le l -> StronglySorted le (insert_sorted leb x l).
Proof.
  induction l as [|y t IH]; simpl; intro S.
  - constructor; constructor.
  - apply StronglySorted_inv in S. destruct S as [St Hy].
    destruct (leb x y) eqn:E.
    + constructor; [constructor; assumption|].
      constructor; [exact E|].
      eapply Forall_impl; [|exact Hy]. intros z Hz. exact (leb_trans _ _ _ E Hz).
    + constructor; [now apply IH|].
      apply Forall_forall. intros z Hz.
      apply (Permutation_in _ (insert_sorted_perm leb x t)) in Hz.
      destruct Hz as [<- | Hz].
      * destruct (leb_total x y) as [F | F]; [congruence | exact F].
      * rewrite Forall_forall in Hy. now apply Hy.
Qed.

Lemma sort_sorted (l : list A) : StronglySorted le (sort leb l).
Proof.
  induction l as [|x t IH]; simpl; [constructor|].
  now apply insert_sorted_sorted.
Qed.
End SortedFacts.

Lemma StronglySorted_filter {A} (R : A -> A -> Prop) (f : A -> bool) (l : list A) :
  StronglySorted R l -> StronglySorted R (filter f l).
Proof.
  induction l as [|x t IH]; simpl; intro S; [constructor|].
  apply StronglySorted_inv in S. destruct S as [St Hx].
  destruct (f x); [|now apply IH].
  constructor; [now apply IH|].
  apply Forall_forall. intros z Hz. apply filter_In in Hz.
  rewrite Forall_forall in Hx. apply Hx. tauto.
Qed.

Lemma ts_leb_total (a b : timestamp) : ts_leb a b = true \/ ts_leb b a = true.
Proof.
  destruct a as [x|], b as [y|]; simpl; auto.
  destruct (Z.leb_spec x y); [auto|]. right. apply Z.leb_le. lia.
Qed.

Lemma ts_leb_trans (a b c : timestamp) :
  ts_leb a b = true -> ts_leb b c = true -> ts_leb a c = true.
Proof.
  destruct a as [x|], b as [y|], c as [z|]; simpl; try congruence.
  rewrite !Z.leb_le. lia.
Qed.

Lemma sort_values_sorted {A} (t : A -> timestamp) (rows : list A) :
  StronglySorted (fun a b => ts_leb (t a) (t b) = true) (sort_values t rows).
Proof.
  unfold sort_values. apply sort_sorted.
  - intros a b. apply ts_leb_total.
  - intros a b c. apply ts_leb_trans.
Qed.

(** In a frame sorted on a time column, the first non-null time is the
    smallest. *)
Lemma first_valid_sorted {A} (t : A -> timestamp) (rows : list A) :
  StronglySorted (fun a b => ts_leb (t a) (t b) = true) rows ->
  first_valid (map t rows) = col_min (map t rows).
Proof.
  induction rows as [|r rest IH]; simpl; intro S; [reflexivity|].
  apply StronglySorted_inv in S. destruct S as [Srest Hr].
  rewrite Forall_forall in Hr.
  destruct (t r) as [x|] eqn:E.
  - symmetry. change (col_min (Some x :: map t rest) = Some x).
    apply col_min_Some. split; [simpl; auto|].
    intros y [Hy | Hy]; [injection Hy as <-; lia|].
    apply in_map_iff in Hy. destruct Hy as [z [Ez Hz]].
    specialize (Hr z Hz). rewrite Ez in Hr. simpl in Hr. now apply Z.leb_le.
  - rewrite (IH Srest). reflexivity.
Qed.

Lemma merge_left_In {A B} (on : A -> B -> bool) (left : list A) (right : list B)
    (a : A) (ob : option B) :
  In (a, ob) (merge_left on left right)
  <-> In a left
      /\ match ob with
         | Some b => In b right /\ on a b = true
         | None => forall b, In b right -> on a b = false
         end.
Proof.
  unfold merge_left. rewrite in_flat_map. split.
  - intros [x [Hx Hin]].
    destruct (filter (on x) right) as [|m ms] eqn:F.
    + destruct Hin as [E | []]. injection E as <- <-. split; [assumption|].
      intros b Hb. destruct (on x b) eqn:O; [|reflexivity].
      assert (X : In b (filter (on x) right)) by (apply filter_In; auto).
      rewrite F in X. contradiction.
    + apply in_map_iff in Hin. destruct Hin as [b [E Hb]]. injection E as <- <-.
      rewrite <- F in Hb. apply filter_In in Hb. tauto.
  - intros [Ha H]. exists a. split; [assumption|].
    destruct ob as [b|].
    + destruct H as [Hb O].
      assert (X : In b (filter (on a) right)) by (apply filter_In; auto).
      destruct (filter (on a) right) as [|m ms] eqn:F; [contradiction|].
      apply in_map_iff. now exists b.
    + destruct (filter (on a) right) as [|m ms] eqn:F; [simpl; auto|].
      assert (X : In m (filter (on a) right)) by (rewrite F; simpl; auto).
      apply filter_In in X. destruct X as [Hm O]. rewrite (H m Hm) in O. discriminate.
Qed.

(** The per-user minimum a grouped frame holds, read through a left join. *)
Lemma groupby_min_lookup {A} (k : A -> key) (v : A -> timestamp) (rows : list A)
    (u : key) :
  lookup_ts u (groupby_agg true k v col_min rows)
  = col_min (map v (filter (fun r => cell_eqb (k r) u) rows)).
Proof.
  unfold lookup_ts. rewrite groupby_agg_lookup. destruct u as [s|].
  - rewrite existsb_group_keys_dropna.
    assert (G : group_of k (Some s) rows = filter (fun r => cell_eqb (k r) (Some s)) rows).
    { unfold group_of. apply filter_ext. intro r. now destruct (k r). }
    rewrite <- G. destruct (existsb _ _) eqn:E; [reflexivity|].
    apply existsb_key_notIn in E. now rewrite (group_of_absent k (Some s) rows E).
  - rewrite existsb_group_keys_null.
    assert (G : filter (fun r => cell_eqb (k r) None) rows = []).
    { induction rows as [|r t IH]; simpl; [reflexivity|].
      replace (cell_eqb (k r) None) with false by now destruct (k r).
      exact IH. }
    now rewrite G.
Qed.

Module AttributionFacts.
Import Gateway GatewaySpec.

Section Pipeline.
Variable live_sessions : list live_session.
Variable live_session_attendance : list attendance_event.
Variable payments : list payment.
Variable prod_flags : list product_flags.
Variable product_accesses : list product_access.

Abbreviation session_frame :=
  (GatewaySpec.session_frame live_sessions live_session_attendance).
Abbreviation product_frame := (GatewaySpec.product_frame payments prod_flags).
Abbreviation base_of :=
  (GatewaySpec.base_of live_sessions live_session_attendance payments prod_flags).
Abbreviation newcomer_row :=
  (GatewaySpec.newcomer_row payments prod_flags product_accesses).
Abbreviation touch_row_of :=
  (GatewaySpec.touch_row_of live_sessions live_session_attendance payments
                            prod_flags product_accesses).
Abbreviation base :=
  (touches_base live_sessions live_session_attendance payments prod_flags).
Abbreviation newcomers :=
  (touches_newcomer live_sessions live_session_attendance payments prod_flags
                    product_accesses).

Lemma session_frame_NoDup : NoDup (map fst session_frame).
Proof. apply groupby_agg_NoDup. Qed.

Lemma product_frame_NoDup : NoDup (map fst product_frame).
Proof. apply groupby_agg_NoDup. Qed.

Lemma session_time_notna (a : key * session_touch) :
  In a session_frame -> st_time (snd a) <> None.
Proof.
  unfold GatewaySpec.session_frame, first_session_touch, groupby_agg.
  rewrite in_map_iff. intros [g [<- Hg]]. cbn [snd st_time].
  apply group_keys_In in Hg. destruct Hg as [Hg _].
  apply first_valid_notna.
  - intro E. apply map_eq_nil in E. rewrite map_id in E.
    revert E. now apply group_of_nonempty.
  - apply Forall_forall. intros x Hx. apply in_map_iff in Hx.
    destruct Hx as [r [<- Hr]]. rewrite map_id in Hr.
    unfold group_of in Hr. apply filter_In in Hr. destruct Hr as [Hr _].
    unfold gateway_attendance, sort_values in Hr. apply sort_In in Hr.
    apply filter_In in Hr. tauto.
Qed.

Lemma product_time_notna (a : key * product_touch) :
  In a product_frame -> pt_time (snd a) <> None.
Proof.
  unfold GatewaySpec.product_frame, first_product_touch, groupby_agg.
  rewrite in_map_iff. intros [g [<- Hg]]. cbn [snd pt_time].
  apply group_keys_In in Hg. destruct Hg as [Hg _].
  apply first_valid_notna.
  - intro E. apply map_eq_nil in E. rewrite map_id in E.
    revert E. now apply group_of_nonempty.
  - apply Forall_forall. intros x Hx. apply in_map_iff in Hx.
    destruct Hx as [r [<- Hr]]. rewrite map_id in Hr.
    unfold group_of in Hr. apply filter_In in Hr. destruct Hr as [Hr _].
    unfold gateway_payments, sort_values in Hr. apply sort_In in Hr.
    apply filter_In in Hr. tauto.
Qed.

Lemma base_of_touched (g : key) :
  In g (map fst session_frame) \/ In g (map fst product_frame) ->
  notna (first_touch_time (base_of g)) = true.
Proof.
  unfold GatewaySpec.base_of. cbn [touch_of first_touch_time col_min fold_right].
  intros [H | H]; apply in_map_iff in H; destruct H as [a [<- Ha]].
  - rewrite (lookup_unique session_frame a session_frame_NoDup Ha).
    pose proof (session_time_notna a Ha) as N.
    destruct (st_time (snd a)); [|congruence].
    now destruct (lookup (fst a) product_frame) as [[? [[t|] ? ?]]|].
  - rewrite (lookup_unique product_frame a product_frame_NoDup Ha).
    pose proof (product_time_notna a Ha) as N.
    destruct (pt_time (snd a)); [|congruence].
    now destruct (lookup (fst a) session_frame) as [[? [[t|] ? ?]]|].
Qed.

(** The touch frame has one row per user of either candidate frame. *)
Lemma base_In (b : touch_base) :
  In b base
  <-> exists g, (In g (map fst session_frame) \/ In g (map fst product_frame))
                /\ b = base_of g.
Proof.
  unfold touches_base. rewrite filter_In, in_map_iff. split.
  - intros [[row [<- Hrow]] _].
    apply merge_outer_In in Hrow; try apply groupby_agg_NoDup.
    destruct Hrow as [g [Hg ->]]. exists g. split; [exact Hg | reflexivity].
  - intros [g [Hg ->]]. split; [|now apply base_of_touched].
    exists (g, lookup g session_frame, lookup g product_frame).
    split; [reflexivity|].
    apply merge_outer_In; try apply groupby_agg_NoDup. now exists g.
Qed.

Lemma base_of_user (g : key) : userId (base_of g) = g.
Proof. reflexivity. Qed.

Lemma base_user_notnull (b : touch_base) : In b base -> userId b <> None.
Proof.
  intro H. apply base_In in H. destruct H as [g [Hg ->]]. rewrite base_of_user.
  destruct Hg as [Hg | Hg]; apply in_map_iff in Hg; destruct Hg as [a [<- Ha]];
    eapply groupby_agg_key_notnull; try exact Ha; reflexivity.
Qed.

Lemma newcomers_eq : newcomers = map newcomer_row base.
Proof.
  unfold touches_newcomer, on_user.
  rewrite (merge_left_unique (fun r => userId (fst (fst r))) fst)
    by apply groupby_agg_NoDup.
  rewrite (merge_left_unique (fun r => userId (fst r)) fst)
    by apply groupby_agg_NoDup.
  rewrite (merge_left_unique userId fst) by apply groupby_agg_NoDup.
  rewrite !map_map. reflexivity.
Qed.

Lemma touches_eq :
  touches live_sessions live_session_attendance payments prod_flags product_accesses
  = map touch_row_of newcomers.
Proof.
  unfold touches, on_user.
  rewrite (merge_left_unique (fun r => userId (tn_base (fst r))) fst)
    by apply groupby_agg_NoDup.
  rewrite (merge_left_unique (fun t => userId (tn_base t)) fst)
    by apply groupby_agg_NoDup.
  rewrite !map_map. reflexivity.
Qed.

(** Every row of the final table is the row of one touched user. *)
Lemma touches_In (t : touch) :
  In t (touches live_sessions live_session_attendance payments prod_flags
                product_accesses)
  <-> exists g, (In g (map fst session_frame) \/ In g (map fst product_frame))
                /\ t = touch_row_of (newcomer_row (base_of g)).
Proof.
  rewrite touches_eq, newcomers_eq, map_map, in_map_iff. split.
  - intros [b [<- Hb]]. apply base_In in Hb. destruct Hb as [g [Hg ->]].
    now exists g.
  - intros [g [Hg ->]]. exists (base_of g). split; [reflexivity|].
    apply base_In. now exists g.
Qed.

Lemma touches_user_notnull (t : touch) :
  In t (touches live_sessions live_session_attendance payments prod_flags
                product_accesses) ->
  touch_user t <> None.
Proof.
  rewrite touches_eq, newcomers_eq, map_map, in_map_iff.
  intros [b [<- Hb]]. now apply base_user_notnull.
Qed.

Lemma merge_left_total {A B} (on : A -> B -> bool) (left : list A) (right : list B)
    (a : A) :
  In a left -> exists ob, In (a, ob) (merge_left on left right).
Proof.
  intro Ha. unfold merge_left.
  destruct (filter (on a) right) as [|m ms] eqn:F.
  - exists None. apply in_flat_map. exists a. split; [assumption|].
    rewrite F. simpl. auto.
  - exists (Some m). apply in_flat_map. exists a. split; [assumption|].
    rewrite F. simpl. auto.
Qed.

(** The succeeded payments behind the rows of [payments_succ]. *)
Lemma payments_succ_In (r : payment * option product_flags) :
  In r (payments_succ payments prod_flags)
  <-> exists p, In p payments /\ succeeded p = true /\ fst r = fill_paidAt p
                /\ match snd r with
                   | Some f => In f prod_flags
                               /\ key_eqb (pay_productId p) (pf_productId f) = true
                   | None => forall f, In f prod_flags ->
                                       key_eqb (pay_productId p) (pf_productId f) = false
                   end.
Proof.
  destruct r as [a ob]. unfold payments_succ.
  rewrite merge_left_In, in_map_iff. cbn [fst snd]. split.
  - intros [[p [<- Hp]] H]. apply filter_In in Hp. destruct Hp as [Hp S].
    exists p. repeat split; auto.
  - intros [p [Hp [S [-> H]]]]. split; [|exact H].
    exists p. split; [reflexivity|]. apply filter_In. auto.
Qed.

Lemma payment_frame_lookup (u : key) :
  lookup_ts u (payment_frame payments prod_flags)
  = first_succeeded_payment payments u.
Proof.
  unfold payment_frame, first_payment, first_succeeded_payment.
  rewrite groupby_min_lookup. apply col_min_ext. intro x.
  rewrite !in_map_iff. split.
  - intros [r [<- Hr]]. apply filter_In in Hr. destruct Hr as [Hr U].
    apply payments_succ_In in Hr. destruct Hr as [p [Hp [S [E _]]]].
    rewrite E in *. exists p. split; [reflexivity|].
    apply filter_In. split; [assumption|]. cbn in U. now rewrite S, U.
  - intros [p [<- Hp]]. apply filter_In in Hp. destruct Hp as [Hp C].
    apply andb_prop in C. destruct C as [S U].
    assert (Hf : In (fill_paidAt p)
                    (map fill_paidAt
                         (filter (fun p => str_is "succeeded" (pay_status p)) payments))).
    { apply in_map, filter_In. auto. }
    destruct (merge_left_total
                (fun p f => key_eqb (pay_productId p) (pf_productId f))
                _ prod_flags _ Hf) as [ob Hob].
    exists (fill_paidAt p, ob). split; [reflexivity|].
    apply filter_In. split; [exact Hob | exact U].
Qed.

Lemma mentor_frame_lookup (u : key) :
  lookup_ts u (mentor_frame payments prod_flags)
  = first_mentorship_payment payments prod_flags u.
Proof.
  unfold mentor_frame, first_mentor_payment, mentorship_payments,
    first_mentorship_payment.
  rewrite groupby_min_lookup. apply col_min_ext. intro x.
  rewrite !in_map_iff. split.
  - intros [r [<- Hr]]. apply filter_In in Hr. destruct Hr as [Hr U].
    apply filter_In in Hr. destruct Hr as [Hr M].
    apply payments_succ_In in Hr. destruct Hr as [p [Hp [S [E H]]]].
    rewrite E in *. exists p. split; [reflexivity|].
    apply filter_In. split; [assumption|]. cbn in U. rewrite S, U. cbn.
    destruct (snd r) as [f|]; [|discriminate]. destruct H as [Hf K].
    unfold buys_mentorship. apply existsb_exists. exists f.
    split; [assumption|]. cbn in M. now rewrite K, M.
  - intros [p [<- Hp]]. apply filter_In in Hp. destruct Hp as [Hp C].
    apply andb_prop in C. destruct C as [C M].
    apply andb_prop in C. destruct C as [S U].
    unfold buys_mentorship in M. apply existsb_exists in M.
    destruct M as [f [Hf M]]. apply andb_prop in M. destruct M as [K M].
    exists (fill_paidAt p, Some f). split; [reflexivity|].
    apply filter_In. split; [|exact U].
    apply filter_In. split; [|exact M].
    apply payments_succ_In. exists p. cbn. auto.
Qed.

Lemma access_frame_lookup (u : key) :
  lookup_ts u (access_frame product_accesses)
  = first_product_access product_accesses u.
Proof. apply groupby_min_lookup. Qed.

Lemma null_or_not_before_eq (x touch : timestamp) :
  isna x || ts_ge x touch = null_or_not_before x touch.
Proof. now destruct x, touch. Qed.

(** A user has a candidate exactly when the candidate frame has a row. *)
Lemma session_candidate_In (g : key) :
  session_candidate live_sessions live_session_attendance g <> None
  <-> In g (map fst session_frame).
Proof.
  unfold session_candidate.
  destruct (lookup g session_frame) as [a|] eqn:E.
  - apply lookup_In in E. destruct E as [Ha <-]. split.
    + intros _. now apply in_map.
    + intros _. now apply session_time_notna.
  - apply lookup_None in E. split; [congruence | contradiction].
Qed.

Lemma product_candidate_In (g : key) :
  product_candidate payments prod_flags g <> None
  <-> In g (map fst product_frame).
Proof.
  unfold product_candidate.
  destruct (lookup g product_frame) as [a|] eqn:E.
  - apply lookup_In in E. destruct E as [Ha <-]. split.
    + intros _. now apply in_map.
    + intros _. now apply product_time_notna.
  - apply lookup_None in E. split; [congruence | contradiction].
Qed.

Lemma filter_cell_null {R} (k : R -> key) (rows : list R) :
  filter (fun r => cell_eqb (k r) None) rows = [].
Proof.
  induction rows as [|r t IH]; simpl; [reflexivity|].
  replace (cell_eqb (k r) None) with false by now destruct (k r).
  exact IH.
Qed.

(** The time a sorted, grouped frame holds for a user is the smallest
    time of the user's rows. *)
Lemma first_time_lookup {R V} (k : R -> key) (t : R -> timestamp)
    (agg : list R -> V) (time : V -> timestamp) (rows : list R) (u : key) :
  (forall g, time (agg g) = first_valid (map t g)) ->
  match lookup u (groupby_agg true k (fun r => r) agg (sort_values t rows)) with
  | Some a => time (snd a)
  | None => None
  end
  = col_min (map t (filter (fun r => cell_eqb (k r) u) rows)).
Proof.
  intro Hagg. rewrite groupby_agg_lookup. destruct u as [s|].
  - rewrite existsb_group_keys_dropna.
    assert (G : forall l, group_of k (Some s) l
                          = filter (fun r => cell_eqb (k r) (Some s)) l).
    { intro l. unfold group_of. apply filter_ext. intro r. now destruct (k r). }
    assert (K : col_min (map t (group_of k (Some s) (sort_values t rows)))
                = col_min (map t (filter (fun r => cell_eqb (k r) (Some s)) rows))).
    { apply col_min_ext. intro x. rewrite G, !in_map_iff.
      split; intros [r [E Hr]]; exists r; (split; [exact E|]);
        apply filter_In in Hr; apply filter_In; destruct Hr as [Hr C];
        (split; [|exact C]).
      - unfold sort_values in Hr. now apply sort_In in Hr.
      - unfold sort_values. now apply sort_In. }
    destruct (existsb _ _) eqn:E; cbn [snd].
    + rewrite Hagg, map_id, <- K. apply first_valid_sorted.
      unfold group_of. apply StronglySorted_filter, sort_values_sorted.
    + rewrite <- K. apply existsb_key_notIn in E.
      now rewrite (group_of_absent k (Some s) _ E).
  - rewrite existsb_group_keys_null. now rewrite filter_cell_null.
Qed.

(** The candidate session touch is the user's earliest attendance of
    a gateway session. *)
Lemma session_candidate_earliest (u : key) :
  session_candidate live_sessions live_session_attendance u
  = earliest_gateway_attendance live_sessions live_session_attendance u.
Proof.
  unfold session_candidate, GatewaySpec.session_frame, first_session_touch,
    gateway_attendance.
  rewrite (first_time_lookup (fun r => att_studentId (fst r))
                             (fun r => att_attendedAt (fst r)) _ st_time)
    by reflexivity.
  unfold earliest_gateway_attendance. apply col_min_ext_notna. intro x.
  rewrite !in_map_iff. split.
  - intros [[a os] [E Hr]]. cbn [fst] in E.
    apply filter_In in Hr. destruct Hr as [Hr U].
    apply filter_In in Hr. destruct Hr as [Hr _].
    apply filter_In in Hr. destruct Hr as [Hr Gw].
    unfold attendance in Hr. apply merge_left_In in Hr. destruct Hr as [Ha Hs].
    cbn [fst snd] in *. exists a. split; [exact E|].
    apply filter_In. split; [exact Ha|]. rewrite U. cbn [andb].
    destruct os as [sf|]; [|discriminate]. destruct Hs as [Hsf K].
    unfold attends_gateway. apply existsb_exists. exists sf.
    split; [exact Hsf|]. cbn in Gw. now rewrite K, Gw.
  - intros [a [E Ha]]. apply filter_In in Ha. destruct Ha as [Ha C].
    apply andb_prop in C. destruct C as [U Gw].
    unfold attends_gateway in Gw. apply existsb_exists in Gw.
    destruct Gw as [sf [Hsf C]]. apply andb_prop in C. destruct C as [K Gw].
    exists (a, Some sf). split; [exact E|].
    apply filter_In. split; [|exact U].
    apply filter_In. split; [|cbn [fst]; now rewrite E].
    apply filter_In. split; [|exact Gw].
    unfold attendance. apply merge_left_In. auto.
Qed.

(** The candidate product touch is the user's earliest succeeded
    payment of a gateway product. *)
Lemma product_candidate_earliest (u : key) :
  product_candidate payments prod_flags u
  = earliest_gateway_payment payments prod_flags u.
Proof.
  unfold product_candidate, GatewaySpec.product_frame, first_product_touch,
    gateway_payments.
  rewrite (first_time_lookup (fun r => pay_userId (fst r))
                             (fun r => pay_paidAt (fst r)) _ pt_time)
    by reflexivity.
  unfold earliest_gateway_payment. apply col_min_ext_notna. intro x.
  rewrite !in_map_iff. split.
  - intros [r [E Hr]].
    apply filter_In in Hr. destruct Hr as [Hr U].
    apply filter_In in Hr. destruct Hr as [Hr _].
    apply filter_In in Hr. destruct Hr as [Hr Gw].
    apply payments_succ_In in Hr. destruct Hr as [p [Hp [S [F H]]]].
    rewrite F in *. exists p. split; [exact E|].
    apply filter_In. split; [exact Hp|]. cbn in U. rewrite S, U. cbn [andb].
    destruct (snd r) as [f|]; [|discriminate]. destruct H as [Hf K].
    unfold buys_gateway. apply existsb_exists. exists f.
    split; [exact Hf|]. cbn in Gw. now rewrite K, Gw.
  - intros [p [E Hp]]. apply filter_In in Hp. destruct Hp as [Hp C].
    apply andb_prop in C. destruct C as [C Gw].
    apply andb_prop in C. destruct C as [S U].
    unfold buys_gateway in Gw. apply existsb_exists in Gw.
    destruct Gw as [f [Hf C]]. apply andb_prop in C. destruct C as [K Gw].
    exists (fill_paidAt p, Some f). split; [exact E|].
    apply filter_In. split; [|exact U].
    apply filter_In. split; [|cbn [fst]; unfold paid_time in E; cbn; now rewrite E].
    apply filter_In. split; [|exact Gw].
    apply payments_succ_In. exists p. cbn. auto.
Qed.
End Pipeline.

End AttributionFacts.

(* ===================================================================== *)
(** * Classification and the assembled result *)
(* ===================================================================== *)

Module GatewayFacts.
Import Gateway GatewaySpec.

Lemma combine_map_In {A B} (f : A -> B) (l : list A) (a : A) (b : B) :
  In (a, b) (combine l (map f l)) -> In a l /\ b = f a.
Proof.
  induction l as [|x t IH]; simpl; [tauto|].
  intros [E | H].
  - injection E as <- <-. auto.
  - destruct (IH H). auto.
Qed.

Lemma unpriced_no_price (products : list product) :
  (forall p, In p products -> prod_price p = None) ->
  existsb notna (map prod_price products) = false.
Proof.
  intro H. induction products as [|p t IH]; simpl; [reflexivity|].
  rewrite (H p) by (simpl; auto). simpl. apply IH.
  intros q Hq. apply H. simpl. auto.
Qed.

Lemma priced_has_price (products : list product) (p : product) (x : Q) :
  In p products -> prod_price p = Some x ->
  existsb notna (map prod_price products) = true.
Proof.
  intros Hp E. apply existsb_exists. exists (Some x). split; [|reflexivity].
  rewrite <- E. now apply in_map.
Qed.

(** [classify_products] returns as soon as both quantiles are
    percentiles. *)
Lemma classify_products_returns (products : list product) (gq mq : Q) :
  (0 <= gq <= 1)%Q -> (0 <= mq <= 1)%Q ->
  exists flags, classify_products products gq mq = Ok flags.
Proof.
  intros [G0 G1] [M0 M1]. unfold classify_products, quantile.
  apply Qle_bool_iff in G0, G1, M0, M1. rewrite G0, G1, M0, M1. cbn [andb].
  destruct (existsb notna (map prod_price products)); cbn [bind]; eexists; reflexivity.
Qed.

Section Build.
Variable live_sessions : list live_session.
Variable live_session_attendance : list attendance_event.
Variable live_session_assigned : list assigned.
Variable payments : list payment.
Variable products : list product.
Variable product_accesses : list product_access.
Variables gateway_quantile mentorship_quantile : Q.

Lemma build_inv (out : attribution) :
  build_gateway_attribution live_sessions live_session_attendance
                            live_session_assigned payments products
                            product_accesses gateway_quantile mentorship_quantile
  = Ok out ->
  exists flags,
    classify_products products gateway_quantile mentorship_quantile = Ok flags
    /\ let ts := touches live_sessions live_session_attendance payments flags
                          product_accesses in
       gateway_touch_attribution out = map final_columns ts
       /\ gateway_conversion_summary out = conversion_summary ts
       /\ gateway_conversion_curve out = conversion_curve ts.
Proof.
  unfold build_gateway_attribution.
  destruct (classify_products products gateway_quantile mentorship_quantile)
    as [flags|e]; cbn [bind]; [|discriminate].
  intro H. exists flags. split; [reflexivity|].
  assert (E := f_equal (fun r => match r with Ok o => o | Raise _ => out end) H).
  cbv beta iota in E. rewrite <- E.
  cbn [gateway_touch_attribution gateway_conversion_summary
       gateway_conversion_curve].
  repeat split; reflexivity.
Qed.

(** The whole attribution returns as soon as both quantiles are
    percentiles. *)
Lemma build_returns :
  (0 <= gateway_quantile <= 1)%Q -> (0 <= mentorship_quantile <= 1)%Q ->
  exists out,
    build_gateway_attribution live_sessions live_session_attendance
                              live_session_assigned payments products
                              product_accesses gateway_quantile mentorship_quantile
    = Ok out.
Proof.
  intros G M. unfold build_gateway_attribution.
  destruct (classify_products_returns products _ _ G M) as [flags ->].
  cbn [bind]. eexists. reflexivity.
Qed.
End Build.

Lemma nunique_zero (c : list key) :
  (forall x, In x c -> x <> None) -> (nunique c = 0%nat <-> c = []).
Proof.
  intro H. unfold nunique. split.
  - destruct c as [|x t]; [reflexivity|].
    assert (N : x <> None) by (apply H; simpl; auto).
    destruct x as [s|]; [|congruence]. simpl. discriminate.
  - intros ->. reflexivity.
Qed.

Lemma filter_final_columns (flag : touch_row -> bool) (ts : list touch) :
  filter flag (map final_columns ts)
  = map final_columns (filter (fun t => flag (final_columns t)) ts).
Proof.
  induction ts as [|t rest IH]; simpl; [reflexivity|].
  destruct (flag (final_columns t)); simpl; now rewrite IH.
Qed.

(** A cohort flag of the final table and the cohort definition of the
    same name select the same rows. *)
Lemma cohort_flags_defs (name : string) (flag : touch_row -> bool) :
  In (name, flag) cohort_flags ->
  In (name, fun t => flag (final_columns t)) cohort_defs.
Proof.
  unfold cohort_flags, cohort_defs. simpl.
  intros [E | [E | [E | [E | []]]]]; injection E as <- <-; auto.
Qed.

Lemma curve_rows_of (ts : list touch) (name : string) (col : touch -> bool) :
  In (name, col) cohort_defs ->
  filter (fun c => String.eqb (cv_cohort c) name) (conversion_curve ts)
  = curve_of ts (name, col).
Proof.
  unfold conversion_curve, cohort_defs. cbn [flat_map].
  rewrite !filter_app, !ConversionFacts.curve_of_filter. cbn [fst filter].
  intros [E | [E | [E | [E | []]]]]; injection E as <- <-;
    cbn [String.eqb Ascii.eqb Bool.eqb andb]; now rewrite ?app_nil_r.
Qed.
End GatewayFacts.

(* ===================================================================== *)
(** * Properties of the specification *)
(* ===================================================================== *)

Import Engagement EngagementSpec.

(** C4. No row of the completion/absconded scoring is both complete and
    absconded: [isComplete] is the conjunction of both rates being at
    least 0.7, [isAbsconded] requires both rates below 0.1, and the rows
    of the absconded frame are the rows of the completion frame. *)
Theorem complete_and_absconded_exclusive :
  forall (enrollments : list enrollment)
         (assignment_completion : list assignment_completion_row)
         (attendance : list attendance_row) (login_history : list login)
         (max_date : timestamp) (r : absconded_row),
    In r (snd (build_completion_and_absconded enrollments assignment_completion
                                              attendance login_history max_date)) ->
    let c := ab_completion r in
    In c (fst (build_completion_and_absconded enrollments assignment_completion
                                              attendance login_history max_date))
    /\ isComplete c
       = fge (assignmentCompletionRate c) (Fin (7 # 10))
         && fge (attendanceRate c) (Fin (7 # 10))
    /\ (isAbsconded r = true ->
        flt (assignmentCompletionRate c) (Fin (1 # 10)) = true
        /\ flt (attendanceRate c) (Fin (1 # 10)) = true)
    /\ isComplete c && isAbsconded r = false.
Proof.
  intros enrollments assignment_completion attendance login_history max_date r Hr c.
  assert (Hc : In c (fst (build_completion_and_absconded
                            enrollments assignment_completion attendance
                            login_history max_date))).
  { rewrite <- EngagementFacts.absconded_completion. now apply in_map. }
  pose proof (EngagementFacts.completion_flag _ _ _ _ Hc) as Fc.
  destruct (EngagementFacts.absconded_flag _ _ _ _ _ _ Hr) as [_ Fa].
  fold c in Fa. unfold threshold_complete in Fc. unfold threshold_absconded in Fa.
  split; [exact Hc|]. split; [exact Fc|]. split.
  - rewrite Fa. intro H. apply andb_prop in H. destruct H as [H _].
    now apply andb_prop in H.
  - rewrite Fc, Fa.
    destruct (fge (assignmentCompletionRate c) (Fin (7 # 10))) eqn:E; [|reflexivity].
    apply complete_excludes_absconded in E.
    unfold threshold_absconded in E. rewrite E. now rewrite andb_false_r.
Qed.

Lemma complete_and_absconded_exclusive_witness :
  isComplete Scenario.ada_c1 = true
  /\ isAbsconded Scenario.ada_c1_absconded = false
  /\ isComplete (ab_completion Scenario.bob_c1_absconded)
     && isAbsconded Scenario.bob_c1_absconded = false.
Proof.
  split; [reflexivity|]. split; [reflexivity|].
  refine (proj2 (proj2 (proj2
    (complete_and_absconded_exclusive
       Scenario.enrollments Scenario.assignment_completion Scenario.attendance_table
       Scenario.login_history Scenario.as_of Scenario.bob_c1_absconded _)))).
  vm_compute. tauto.
Defined.

(** C8. The buyer's-remorse table has exactly one row per succeeded
    payment with a non-null [paidAt], in order, and each of its six
    counts is the number of the user's events of the stream with a
    timestamp in [paidAt + 0d, paidAt + 7d] (week 1) or
    [paidAt + 22d, paidAt + 28d] (week 4), both ends included; a count
    is a natural number, 0 for a window without event. *)
Theorem buyers_remorse_rows :
  forall (payments : list payment) (live_session_attendance : list attendance_event)
         (assignment_submissions : list submission) (login_history : list login),
    let rows :=
      buyers_remorse_window payments live_session_attendance assignment_submissions
                            login_history in
    List.length rows = List.length (filter is_paid_event payments)
    /\ Forall2 (remorse_row_of live_session_attendance assignment_submissions
                               login_history)
               (filter is_paid_event payments) rows.
Proof.
  intros payments live_session_attendance assignment_submissions login_history rows.
  pose proof (RemorseFacts.remorse_rows live_session_attendance assignment_submissions
                                        login_history payments) as H.
  split; [|exact H].
  symmetry. eapply Forall2_length. exact H.
Qed.

(** Ada has three succeeded payments with a [paidAt] and gets three
    rows; bob's pending payment and cy's payment without [paidAt] get
    none. *)
Example buyers_remorse_per_payment :
  map rr_userId
      (buyers_remorse_window Scenario.payments Scenario.live_session_attendance []
                             Scenario.login_history)
  = [Some "ada"; Some "ada"; Some "ada"]%string.
Proof. vm_compute. reflexivity. Qed.

(** C10. The attendance rate of the completion output is a quantity of
    the user alone: it is the user's platform-wide attended/assigned
    ratio (0 when that is null), so two rows of the same user, whatever
    their courses, carry the same [attendanceRate]. *)
Theorem attendance_rate_per_user :
  forall (enrollments : list enrollment)
         (assignment_completion : list assignment_completion_row)
         (live_session_assigned : list assigned)
         (live_session_attendance : list attendance_event)
         (login_history : list login) (max_date : timestamp)
         (r1 r2 : completion_row),
    let completion :=
      fst (build_completion_and_absconded
             enrollments assignment_completion
             (build_attendance live_session_assigned live_session_attendance)
             login_history max_date) in
    In r1 completion -> In r2 completion -> userId r1 = userId r2 ->
    attendanceRate r1
    = fillna0 (user_attendance_rate live_session_assigned live_session_attendance
                                    (userId r1))
    /\ attendanceRate r1 = attendanceRate r2.
Proof.
  intros enrollments assignment_completion live_session_assigned
         live_session_attendance login_history max_date r1 r2 completion H1 H2 E.
  destruct (EngagementFacts.completion_attendance _ _ _ _ _ H1) as [A1 _].
  destruct (EngagementFacts.completion_attendance _ _ _ _ _ H2) as [A2 _].
  split; [exact A1|]. now rewrite A1, A2, E.
Qed.

Lemma attendance_rate_per_user_witness :
  courseId Scenario.ada_c1 <> courseId Scenario.ada_c2
  /\ attendanceRate Scenario.ada_c1 = attendanceRate Scenario.ada_c2.
Proof.
  split; [discriminate|].
  refine (proj2
    (attendance_rate_per_user
       Scenario.enrollments Scenario.assignment_completion
       Scenario.live_session_assigned Scenario.live_session_attendance
       Scenario.login_history Scenario.as_of
       Scenario.ada_c1 Scenario.ada_c2 _ _ _)).
  - vm_compute. tauto.
  - vm_compute. tauto.
  - reflexivity.
Defined.

Import Gateway GatewaySpec.

(** C9. The gateway price threshold is inclusive: a product whose price
    equals the low quantile of the non-null prices is flagged
    [is_gateway_product], whatever its title; and when no product has a
    price, no quantile is taken and the classification is by keyword
    alone. *)
Theorem gateway_price_threshold :
  forall (products : list product) (gateway_quantile mentorship_quantile : Q),
    (forall (flags : list product_flags) (lo x : Q) (p : product) (f : product_flags),
        classify_products products gateway_quantile mentorship_quantile = Ok flags ->
        price_low products gateway_quantile = Ok (Some lo) ->
        In (p, f) (combine products flags) ->
        prod_price p = Some x -> (x == lo)%Q ->
        is_gateway_product f = true)
    /\ ((forall p, In p products -> prod_price p = None) ->
        classify_products products gateway_quantile mentorship_quantile
        = Ok (map keyword_only products)).
Proof.
  intros products gq mq. split.
  - intros flags lo x p f Hc Hlo Hin Hp Hx.
    unfold price_low in Hlo. unfold classify_products in Hc.
    assert (Hp' : In p products) by (eapply in_combine_l; exact Hin).
    rewrite (GatewayFacts.priced_has_price products p x Hp' Hp), Hlo in Hc.
    cbn [bind] in Hc.
    destruct (quantile (map prod_price products) mq) as [hi|e]; cbn [bind] in Hc;
      [|discriminate].
    injection Hc as <-.
    apply GatewayFacts.combine_map_In in Hin. destruct Hin as [_ ->].
    cbn [is_gateway_product]. rewrite Hp. cbn [price_le].
    assert (L : Qle_bool x lo = true) by (apply Qle_bool_iff; rewrite Hx; apply Qle_refl).
    rewrite L. apply orb_true_r.
  - intro H. unfold classify_products.
    rewrite (GatewayFacts.unpriced_no_price products H). reflexivity.
Qed.

Lemma gateway_price_threshold_witness :
  _has_keyword (prod_title Scenario.workshop) GATEWAY_PRODUCT_KEYWORDS = false
  /\ is_gateway_product Scenario.workshop_flags = true
  /\ classify_products Scenario.unpriced Scenario.gateway_quantile
                       Scenario.mentorship_quantile
     = Ok (map keyword_only Scenario.unpriced).
Proof.
  split; [reflexivity|]. split.
  - refine (proj1 (gateway_price_threshold Scenario.products Scenario.gateway_quantile
                                           Scenario.mentorship_quantile)
                  Scenario.prod_flags (40 # 1) (40 # 1) Scenario.workshop
                  Scenario.workshop_flags _ _ _ _ _).
    + reflexivity.
    + reflexivity.
    + vm_compute. tauto.
    + reflexivity.
    + reflexivity.
  - refine (proj2 (gateway_price_threshold Scenario.unpriced Scenario.gateway_quantile
                                           Scenario.mentorship_quantile) _).
    intros p Hp. vm_compute in Hp.
    destruct Hp as [<- | [<- | []]]; reflexivity.
Defined.

(** C5. In every row of the conversion summary of a cohort of non-zero
    size, the windows are 1, 3, 7, 14 and 30 days and, for two windows
    w1 < w2, the any-paid rate of w1 is at most that of w2, and likewise
    for the mentorship rate. *)
Theorem conversion_rates_monotone :
  forall (live_sessions : list live_session)
         (live_session_attendance : list attendance_event)
         (live_session_assigned : list assigned)
         (payments : list payment) (products : list product)
         (product_accesses : list product_access)
         (gateway_quantile mentorship_quantile : Q)
         (out : attribution) (row : summary_row) (s1 s2 : window_stats),
    build_gateway_attribution live_sessions live_session_attendance
                              live_session_assigned payments products
                              product_accesses gateway_quantile mentorship_quantile
    = Ok out ->
    In row (gateway_conversion_summary out) ->
    cohort_size row <> 0%nat ->
    In s1 (sr_windows row) -> In s2 (sr_windows row) ->
    ws_window s1 < ws_window s2 ->
    map ws_window (sr_windows row) = [1; 3; 7; 14; 30]
    /\ In (sr_cohort row)
          ["newcomer_A"; "newcomer_B"; "newcomer_C"; "newcomer_strict"]%string
    /\ fle (any_paid_rate s1) (any_paid_rate s2) = true
    /\ fle (mentorship_paid_rate s1) (mentorship_paid_rate s2) = true.
Proof.
  intros live_sessions live_session_attendance live_session_assigned payments
         products product_accesses gq mq out row s1 s2 Hb Hrow Hsize H1 H2 Hw.
  apply GatewayFacts.build_inv in Hb. destruct Hb as [flags [_ [_ [Hs _]]]].
  rewrite Hs in Hrow. apply ConversionFacts.summary_row_inv in Hrow.
  destruct Hrow as [def [Hdef ->]].
  split; [apply ConversionFacts.summary_windows|]. split.
  - destruct def as [name col]. cbn [summary_of sr_cohort].
    change ["newcomer_A"; "newcomer_B"; "newcomer_C"; "newcomer_strict"]%string
      with (map fst cohort_defs).
    change name with (fst (name, col)). now apply in_map.
  - eapply ConversionFacts.summary_rates_mono; eauto. lia.
Qed.

Lemma conversion_rates_monotone_witness :
  any_paid_rate Scenario.summary_A_3d = Fin 0
  /\ any_paid_rate Scenario.summary_A_7d = Fin (1 # 3)
  /\ fle (any_paid_rate Scenario.summary_A_3d) (any_paid_rate Scenario.summary_A_7d)
     = true.
Proof.
  split; [reflexivity|]. split; [reflexivity|].
  refine (proj1 (proj2 (proj2
    (conversion_rates_monotone
       Scenario.live_sessions Scenario.live_session_attendance
       Scenario.live_session_assigned Scenario.payments Scenario.products
       Scenario.product_accesses Scenario.gateway_quantile
       Scenario.mentorship_quantile Scenario.attributed Scenario.summary_A
       Scenario.summary_A_3d Scenario.summary_A_7d _ _ _ _ _ _)))).
  - vm_compute. reflexivity.
  - vm_compute. tauto.
  - vm_compute. discriminate.
  - vm_compute. tauto.
  - vm_compute. tauto.
  - vm_compute. reflexivity.
Defined.

(** C6. For each of the four cohorts: when the cohort has a member, the
    conversion curve holds exactly 31 rows for it, one per day from 0 to
    30 in order, with a mentorship conversion rate that does not
    decrease with the day; when it has none, the curve holds no row for
    it; in both cases the summary has a row for the cohort, of size zero
    exactly when the cohort has no member. *)
Theorem conversion_curve_shape :
  forall (live_sessions : list live_session)
         (live_session_attendance : list attendance_event)
         (live_session_assigned : list assigned)
         (payments : list payment) (products : list product)
         (product_accesses : list product_access)
         (gateway_quantile mentorship_quantile : Q)
         (out : attribution) (name : string) (flag : touch_row -> bool),
    build_gateway_attribution live_sessions live_session_attendance
                              live_session_assigned payments products
                              product_accesses gateway_quantile mentorship_quantile
    = Ok out ->
    In (name, flag) cohort_flags ->
    (members flag out <> [] ->
     List.length (curve_rows name out) = 31%nat
     /\ map cv_day (curve_rows name out) = map Z.of_nat (seq 0 31)
     /\ forall c1 c2, In c1 (curve_rows name out) -> In c2 (curve_rows name out) ->
                      cv_day c1 <= cv_day c2 ->
                      fle (mentorship_conversion_rate c1)
                          (mentorship_conversion_rate c2) = true)
    /\ (members flag out = [] -> curve_rows name out = [])
    /\ exists row, In row (gateway_conversion_summary out)
                   /\ sr_cohort row = name
                   /\ (cohort_size row = 0%nat <-> members flag out = []).
Proof.
  intros live_sessions live_session_attendance live_session_assigned payments
         products product_accesses gq mq out name flag Hb Hflag.
  apply GatewayFacts.build_inv in Hb. destruct Hb as [flags [_ [Ht [Hs Hc]]]].
  set (ts := touches live_sessions live_session_attendance payments flags
                     product_accesses) in *.
  set (col := fun t => flag (final_columns t)).
  assert (Hdef : In (name, col) cohort_defs) by now apply GatewayFacts.cohort_flags_defs.
  assert (Hrows : curve_rows name out = curve_of ts (name, col)).
  { unfold curve_rows. rewrite Hc. now apply GatewayFacts.curve_rows_of. }
  assert (Hmem : members flag out = [] <-> cohort_size (summary_of ts (name, col)) = 0%nat).
  { unfold members. rewrite Ht, GatewayFacts.filter_final_columns. fold col.
    cbn [summary_of cohort_size]. rewrite GatewayFacts.nunique_zero.
    - split; intro H.
      + apply map_eq_nil in H. now rewrite H.
      + apply map_eq_nil in H. now rewrite H.
    - intros x Hx. apply in_map_iff in Hx. destruct Hx as [t [<- Hin]].
      apply filter_In in Hin. destruct Hin as [Hin _].
      now apply AttributionFacts.touches_user_notnull in Hin. }
  rewrite Hrows. split; [|split].
  - intro Hne.
    assert (Hsize : cohort_size (summary_of ts (name, col)) <> 0%nat) by tauto.
    pose proof (ConversionFacts.curve_of_days ts (name, col) Hsize) as Hd.
    split; [|split].
    + rewrite <- (length_map cv_day), Hd. reflexivity.
    + exact Hd.
    + intros c1 c2. apply ConversionFacts.curve_of_mono.
  - intro He. apply ConversionFacts.curve_of_empty. tauto.
  - exists (summary_of ts (name, col)). split; [|split].
    + rewrite Hs. unfold conversion_summary. now apply in_map.
    + reflexivity.
    + tauto.
Qed.

Lemma conversion_curve_shape_witness :
  List.length (curve_rows "newcomer_A" Scenario.attributed) = 31%nat
  /\ curve_rows "newcomer_A" Scenario.attributed_nothing = [].
Proof.
  split.
  - refine (proj1 (proj1
      (conversion_curve_shape
         Scenario.live_sessions Scenario.live_session_attendance
         Scenario.live_session_assigned Scenario.payments Scenario.products
         Scenario.product_accesses Scenario.gateway_quantile
         Scenario.mentorship_quantile Scenario.attributed
         "newcomer_A"%string tr_is_newcomer_A _ _) _)).
    + vm_compute. reflexivity.
    + simpl. tauto.
    + vm_compute. discriminate.
  - refine (proj1 (proj2
      (conversion_curve_shape
         [] [] [] [] [] [] Scenario.gateway_quantile
         Scenario.mentorship_quantile Scenario.attributed_nothing
         "newcomer_A"%string tr_is_newcomer_A _ _)) _).
    + vm_compute. reflexivity.
    + simpl. tauto.
    + reflexivity.
Defined.

(** C2. The candidate session touch of a user is their earliest
    attendance of a gateway session, the candidate product touch their
    earliest succeeded payment of a gateway product. In every row of the
    touch table: with both candidates the first touch time is the
    smaller of the two times and the type is "session" exactly when the
    session time is at most the product time; with one candidate its
    time and type are used. A user has a row exactly when they have a
    candidate: users with neither have none. *)
Theorem first_touch_selection :
  forall (live_sessions : list live_session)
         (live_session_attendance : list attendance_event)
         (live_session_assigned : list assigned)
         (payments : list payment) (products : list product)
         (product_accesses : list product_access)
         (gateway_quantile mentorship_quantile : Q)
         (flags : list product_flags) (out : attribution),
    classify_products products gateway_quantile mentorship_quantile = Ok flags ->
    build_gateway_attribution live_sessions live_session_attendance
                              live_session_assigned payments products
                              product_accesses gateway_quantile mentorship_quantile
    = Ok out ->
    (forall r, In r (gateway_touch_attribution out) ->
       match earliest_gateway_attendance live_sessions live_session_attendance
                                         (tr_userId r),
             earliest_gateway_payment payments flags (tr_userId r) with
       | Some s, Some p =>
           tr_first_touch_time r = Some (Z.min s p)
           /\ tr_first_touch_type r = (if s <=? p then touch_session else touch_product)
       | Some s, None =>
           tr_first_touch_time r = Some s /\ tr_first_touch_type r = touch_session
       | None, Some p =>
           tr_first_touch_time r = Some p /\ tr_first_touch_type r = touch_product
       | None, None => False
       end)
    /\ (forall u, In u (map tr_userId (gateway_touch_attribution out))
                  <-> earliest_gateway_attendance live_sessions live_session_attendance u
                      <> None
                      \/ earliest_gateway_payment payments flags u <> None).
Proof.
  intros live_sessions live_session_attendance live_session_assigned payments
         products product_accesses gq mq flags out Hc Hb.
  apply GatewayFacts.build_inv in Hb. destruct Hb as [flags' [Hc' [Ht _]]].
  rewrite Hc in Hc'. injection Hc' as <-. rewrite Ht. split.
  - intros r Hr. apply in_map_iff in Hr. destruct Hr as [t [<- Hin]].
    destruct (proj1 (AttributionFacts.touches_In
                       live_sessions live_session_attendance payments flags
                       product_accesses t) Hin) as [g [Hg E]].
    subst t.
    cbn [final_columns touch_row_of newcomer_row converted_of newcomer_of base_of
         touch_of t_newcomer tn_base tr_userId tr_first_touch_time
         tr_first_touch_type userId first_touch_time first_touch_type].
    fold (session_candidate live_sessions live_session_attendance g).
    fold (product_candidate payments flags g).
    rewrite <- AttributionFacts.session_candidate_In in Hg.
    rewrite <- (AttributionFacts.product_candidate_In payments flags) in Hg.
    rewrite <- AttributionFacts.session_candidate_earliest.
    rewrite <- AttributionFacts.product_candidate_earliest.
    destruct (session_candidate live_sessions live_session_attendance g) as [s|],
             (product_candidate payments flags g) as [p|]; cbn.
    + split; reflexivity.
    + split; reflexivity.
    + split; reflexivity.
    + destruct Hg as [Hg | Hg]; congruence.
  - intro u. rewrite map_map.
    rewrite <- AttributionFacts.session_candidate_earliest.
    rewrite <- AttributionFacts.product_candidate_earliest.
    rewrite AttributionFacts.session_candidate_In.
    rewrite (AttributionFacts.product_candidate_In payments flags).
    rewrite in_map_iff. split.
    + intros [t [<- Hin]].
      destruct (proj1 (AttributionFacts.touches_In
                         live_sessions live_session_attendance payments flags
                         product_accesses t) Hin) as [g [Hg E]].
      subst t. exact Hg.
    + intro Hg. exists (touch_row_of live_sessions live_session_attendance payments
                                      flags product_accesses
                                      (newcomer_row payments flags product_accesses
                                         (base_of live_sessions live_session_attendance
                                                  payments flags u))).
      split; [reflexivity|].
      apply AttributionFacts.touches_In. exists u. split; [exact Hg | reflexivity].
Qed.

Lemma first_touch_selection_witness :
  (tr_first_touch_time Scenario.ada_touch = Some 0
   /\ tr_first_touch_type Scenario.ada_touch = touch_product)
  /\ (tr_first_touch_time Scenario.bob_touch = Some (3 * day_ns)
      /\ tr_first_touch_type Scenario.bob_touch = touch_session).
Proof.
  assert (Hc : classify_products Scenario.products Scenario.gateway_quantile
                                 Scenario.mentorship_quantile
               = Ok Scenario.prod_flags) by (vm_compute; reflexivity).
  assert (Hb : build_gateway_attribution
                 Scenario.live_sessions Scenario.live_session_attendance
                 Scenario.live_session_assigned Scenario.payments Scenario.products
                 Scenario.product_accesses Scenario.gateway_quantile
                 Scenario.mentorship_quantile
               = Ok Scenario.attributed) by (vm_compute; reflexivity).
  pose proof (proj1 (first_touch_selection _ _ _ _ _ _ _ _ _ _ Hc Hb)) as H.
  split.
  - assert (Hin : In Scenario.ada_touch (gateway_touch_attribution Scenario.attributed))
      by (vm_compute; tauto).
    specialize (H _ Hin). vm_compute in H. exact H.
  - assert (Hin : In Scenario.bob_touch (gateway_touch_attribution Scenario.attributed))
      by (vm_compute; tauto).
    specialize (H _ Hin). vm_compute in H. exact H.
Defined.

(** C3. In every row of the touch table, [is_newcomer_A] holds exactly
    when the user's first-ever succeeded payment is null or at/after the
    first touch time, [is_newcomer_B] likewise for the first succeeded
    payment of a mentorship product, [is_newcomer_C] likewise for the
    first product access, and [is_newcomer_strict] is the conjunction of
    the three flags of the row. *)
Theorem newcomer_strict_is_conjunction :
  forall (live_sessions : list live_session)
         (live_session_attendance : list attendance_event)
         (live_session_assigned : list assigned)
         (payments : list payment) (products : list product)
         (product_accesses : list product_access)
         (gateway_quantile mentorship_quantile : Q)
         (flags : list product_flags) (out : attribution) (r : touch_row),
    classify_products products gateway_quantile mentorship_quantile = Ok flags ->
    build_gateway_attribution live_sessions live_session_attendance
                              live_session_assigned payments products
                              product_accesses gateway_quantile mentorship_quantile
    = Ok out ->
    In r (gateway_touch_attribution out) ->
    tr_is_newcomer_A r
    = null_or_not_before (first_succeeded_payment payments (tr_userId r))
                         (tr_first_touch_time r)
    /\ tr_is_newcomer_B r
       = null_or_not_before (first_mentorship_payment payments flags (tr_userId r))
                            (tr_first_touch_time r)
    /\ tr_is_newcomer_C r
       = null_or_not_before (first_product_access product_accesses (tr_userId r))
                            (tr_first_touch_time r)
    /\ tr_is_newcomer_strict r
       = tr_is_newcomer_A r && tr_is_newcomer_B r && tr_is_newcomer_C r.
Proof.
  intros live_sessions live_session_attendance live_session_assigned payments
         products product_accesses gq mq flags out r Hc Hb Hr.
  apply GatewayFacts.build_inv in Hb. destruct Hb as [flags' [Hc' [Ht _]]].
  rewrite Hc in Hc'. injection Hc' as <-. rewrite Ht in Hr.
  apply in_map_iff in Hr. destruct Hr as [t [<- Hin]].
  destruct (proj1 (AttributionFacts.touches_In
                     live_sessions live_session_attendance payments flags
                     product_accesses t) Hin) as [g [_ E]].
  subst t.
  set (b := base_of live_sessions live_session_attendance payments flags g).
  cbn [final_columns touch_row_of newcomer_row converted_of newcomer_of
       t_newcomer tn_base tr_userId tr_first_touch_time
       tr_is_newcomer_A tr_is_newcomer_B tr_is_newcomer_C tr_is_newcomer_strict
       is_newcomer_A is_newcomer_B is_newcomer_C is_newcomer_strict].
  replace (userId b) with g by reflexivity.
  fold (lookup_ts g (payment_frame payments flags)).
  fold (lookup_ts g (mentor_frame payments flags)).
  fold (lookup_ts g (access_frame product_accesses)).
  rewrite AttributionFacts.payment_frame_lookup,
          AttributionFacts.mentor_frame_lookup,
          AttributionFacts.access_frame_lookup.
  rewrite !AttributionFacts.null_or_not_before_eq.
  repeat split; reflexivity.
Qed.

Lemma newcomer_strict_is_conjunction_witness :
  tr_is_newcomer_A Scenario.ada_touch = true
  /\ tr_is_newcomer_strict Scenario.ada_touch
     = tr_is_newcomer_A Scenario.ada_touch && tr_is_newcomer_B Scenario.ada_touch
       && tr_is_newcomer_C Scenario.ada_touch.
Proof.
  assert (Hc : classify_products Scenario.products Scenario.gateway_quantile
                                 Scenario.mentorship_quantile
               = Ok Scenario.prod_flags) by (vm_compute; reflexivity).
  assert (Hb : build_gateway_attribution
                 Scenario.live_sessions Scenario.live_session_attendance
                 Scenario.live_session_assigned Scenario.payments Scenario.products
                 Scenario.product_accesses Scenario.gateway_quantile
                 Scenario.mentorship_quantile
               = Ok Scenario.attributed) by (vm_compute; reflexivity).
  assert (Hin : In Scenario.ada_touch (gateway_touch_attribution Scenario.attributed))
    by (vm_compute; tauto).
  pose proof (newcomer_strict_is_conjunction _ _ _ _ _ _ _ _ _ _ _ Hc Hb Hin)
    as [HA [_ [_ HS]]].
  split; [|exact HS].
  rewrite HA. vm_compute. reflexivity.
Defined.

(** Cy occurs in no session assignment at all: the left join leaves the
    attendance columns of the row null, and [fillna(0)] turns the rate
    into 0. *)
Example unassigned_user_rate_zero :
  assignedSessions Scenario.cy_c1 = NaN /\ attendanceRate Scenario.cy_c1 = Fin 0.
Proof. split; reflexivity. Qed.

(** C1, as stated, fails on the completion output: bob is assigned no
    session (his one assignment row has no session id, so his
    [assignedSessions] is 0), and his row carries the attendance rate 0,
    not null. *)
Lemma completion_rate_zero_not_null :
  ~ (forall (enrollments : list enrollment)
            (assignment_completion : list assignment_completion_row)
            (live_session_assigned : list assigned)
            (live_session_attendance : list attendance_event)
            (login_history : list login) (max_date : timestamp)
            (r : completion_row),
        In r (fst (build_completion_and_absconded
                     enrollments assignment_completion
                     (build_attendance live_session_assigned live_session_attendance)
                     login_history max_date)) ->
        assigned_sessions live_session_assigned (Engagement.userId r) = 0%nat ->
        attendanceRate r = NaN).
Proof.
  intro H.
  specialize (H Scenario.enrollments Scenario.assignment_completion
                Scenario.live_session_assigned Scenario.live_session_attendance
                Scenario.login_history Scenario.as_of Scenario.bob_c1).
  assert (Hin : In Scenario.bob_c1
                   (fst (build_completion_and_absconded
                           Scenario.enrollments Scenario.assignment_completion
                           (build_attendance Scenario.live_session_assigned
                                             Scenario.live_session_attendance)
                           Scenario.login_history Scenario.as_of)))
    by (vm_compute; tauto).
  assert (Hz : assigned_sessions Scenario.live_session_assigned
                                 (Engagement.userId Scenario.bob_c1) = 0%nat)
    by (vm_compute; reflexivity).
  specialize (H Hin Hz). discriminate H.
Qed.

(** C1, amended. A rate over a zero denominator is computed as null,
    without exception: in the attendance frame a user with zero assigned
    sessions has a null [attendanceRate], and in the conversion summary a
    cohort of size zero has null any-paid and mentorship rates at every
    window. The completion output then fills the null attendance rate
    with 0: every row of a user with zero assigned sessions carries the
    [attendanceRate] 0. *)
Theorem zero_denominator_rates :
  (forall (live_session_assigned : list assigned)
          (live_session_attendance : list attendance_event) (a : attendance_row),
      In a (build_attendance live_session_assigned live_session_attendance) ->
      at_assignedSessions a = 0%nat ->
      at_attendanceRate a = NaN)
  /\ (forall (enrollments : list enrollment)
             (assignment_completion : list assignment_completion_row)
             (live_session_assigned : list assigned)
             (live_session_attendance : list attendance_event)
             (login_history : list login) (max_date : timestamp)
             (r : completion_row),
        In r (fst (build_completion_and_absconded
                     enrollments assignment_completion
                     (build_attendance live_session_assigned live_session_attendance)
                     login_history max_date)) ->
        assigned_sessions live_session_assigned (Engagement.userId r) = 0%nat ->
        attendanceRate r = Fin 0)
  /\ (forall (live_sessions : list live_session)
             (live_session_attendance : list attendance_event)
             (live_session_assigned : list assigned)
             (payments : list payment) (products : list product)
             (product_accesses : list product_access)
             (gateway_quantile mentorship_quantile : Q)
             (out : attribution) (row : summary_row) (s : window_stats),
        build_gateway_attribution live_sessions live_session_attendance
                                  live_session_assigned payments products
                                  product_accesses gateway_quantile
                                  mentorship_quantile
        = Ok out ->
        In row (gateway_conversion_summary out) ->
        cohort_size row = 0%nat ->
        In s (sr_windows row) ->
        any_paid_rate s = NaN /\ mentorship_paid_rate s = NaN).
Proof.
  split; [|split].
  - intros live_session_assigned live_session_attendance a Ha Hz.
    rewrite EngagementFacts.build_attendance_eq in Ha.
    apply in_map_iff in Ha. destruct Ha as [g [<- _]].
    cbn [attendance_of at_assignedSessions at_attendanceRate] in *.
    rewrite Hz. reflexivity.
  - intros enrollments assignment_completion live_session_assigned
           live_session_attendance login_history max_date r Hr Hz.
    destruct (EngagementFacts.completion_attendance _ _ _ _ _ Hr) as [-> _].
    unfold user_attendance_rate.
    destruct (is_assigned live_session_assigned (Engagement.userId r));
      [|reflexivity].
    cbn [attendance_of at_attendanceRate]. rewrite Hz. reflexivity.
  - intros live_sessions live_session_attendance live_session_assigned payments
           products product_accesses gq mq out row s Hb Hrow Hz Hs.
    apply GatewayFacts.build_inv in Hb. destruct Hb as [flags [_ [_ [Hsum _]]]].
    rewrite Hsum in Hrow. apply ConversionFacts.summary_row_inv in Hrow.
    destruct Hrow as [def [_ ->]].
    eapply ConversionFacts.summary_rates_null; eauto.
Qed.

Lemma zero_denominator_rates_witness :
  at_attendanceRate Scenario.bob_attendance = NaN
  /\ attendanceRate Scenario.bob_c1 = Fin 0
  /\ any_paid_rate Scenario.empty_summary_A_7d = NaN.
Proof.
  destruct zero_denominator_rates as [H1 [H2 H3]].
  split; [|split].
  - apply (H1 Scenario.live_session_assigned Scenario.live_session_attendance).
    + vm_compute. tauto.
    + reflexivity.
  - apply (H2 Scenario.enrollments Scenario.assignment_completion
              Scenario.live_session_assigned Scenario.live_session_attendance
              Scenario.login_history Scenario.as_of).
    + vm_compute. tauto.
    + vm_compute. reflexivity.
  - refine (proj1 (H3 [] [] [] [] [] [] Scenario.gateway_quantile
                      Scenario.mentorship_quantile Scenario.attributed_nothing
                      Scenario.empty_summary_A Scenario.empty_summary_A_7d _ _ _ _)).
    + vm_compute. reflexivity.
    + vm_compute. tauto.
    + reflexivity.
    + vm_compute. tauto.
Defined.

(** C7, on a platform without any payment [createdAt]. The as-of date
    [build_tables] computes is null although the other three relations
    hold timestamps up to day 95; bob has both rates below 0.1 and a
    latest successful login on day 10, more than 30 days before day 95,
    and yet his row is not flagged absconded. *)
Theorem max_date_lost_without_payments :
  Scenario.max_date_without_payments = None
  /\ latest_observed [] Scenario.login_history Scenario.product_accesses
                     Scenario.live_session_attendance = Some (95 * day_ns)
  /\ In Scenario.bob_c1_without_payments (snd Scenario.scored_without_payments)
  /\ flt (assignmentCompletionRate (ab_completion Scenario.bob_c1_without_payments))
         (Fin (1 # 10)) = true
  /\ flt (attendanceRate (ab_completion Scenario.bob_c1_without_payments))
         (Fin (1 # 10)) = true
  /\ latest_success_login Scenario.login_history
       (Engagement.userId (ab_completion Scenario.bob_c1_without_payments))
     = Some (10 * day_ns)
  /\ 10 * day_ns < 95 * day_ns - Timedelta_days 30
  /\ isAbsconded Scenario.bob_c1_without_payments = false.
Proof.
  repeat split; try (vm_compute; reflexivity).
  vm_compute. tauto.
Qed.

(* ===================================================================== *)
(** * Further properties of the touch table *)
(* ===================================================================== *)

Lemma filter_keys_NoDup {R K} (rows : list R) (key_of : R -> K) (keep : R -> bool)
      (ND : NoDup (map key_of rows)) :
  NoDup (map key_of (filter keep rows)).
Proof.
  induction rows as [|r rest IH]; simpl; [constructor|].
  simpl in ND. inversion ND as [|? ? Hnot ND']; subst.
  destruct (keep r); simpl; [|now apply IH].
  constructor; [|now apply IH].
  intro H. apply Hnot. apply in_map_iff in H. destruct H as [y [E Hy]].
  apply filter_In in Hy. rewrite <- E. apply in_map. tauto.
Qed.

(** An outer join of two frames with unique keys has unique keys. *)
Lemma merge_outer_NoDup {V W} (left : list (key * V)) (right : list (key * W)) :
  NoDup (map fst left) -> NoDup (map fst right) ->
  NoDup (map (fun x => fst (fst x)) (merge_outer fst fst left right)).
Proof.
  intros NDl NDr. unfold merge_outer.
  eapply Permutation_NoDup.
  { apply Permutation_map, Permutation_sym, sort_perm. }
  rewrite (merge_left_unique fst fst left right NDr).
  rewrite map_app, !map_map. cbn [fst snd].
  apply NoDup_app.
  - exact NDl.
  - unfold right_only. now apply filter_keys_NoDup.
  - intros g Hl Hr. apply in_map_iff in Hr. destruct Hr as [b [<- Hb]].
    unfold right_only in Hb. apply filter_In in Hb. destruct Hb as [_ Hno].
    apply negb_true_iff in Hno.
    apply in_map_iff in Hl. destruct Hl as [a [E Ha]].
    assert (X : existsb (fun a0 => key_eqb (fst a0) (fst b)) left = true).
    { apply existsb_exists. exists a. split; [exact Ha|]. now apply key_eqb_eq. }
    congruence.
Qed.

Lemma col_min_incl (c c' : list timestamp) (m' : Z) :
  (forall t, In (Some t) c' -> In (Some t) c) ->
  col_min c' = Some m' ->
  exists m, col_min c = Some m /\ m <= m'.
Proof.
  intros H E. apply col_min_Some in E. destruct E as [Hin _].
  apply H in Hin.
  destruct (col_min c) as [m|] eqn:F.
  - exists m. split; [reflexivity|].
    apply col_min_Some in F. destruct F as [_ Hle]. now apply Hle.
  - apply (proj1 (col_min_None c) F) in Hin. discriminate.
Qed.

Lemma col_min_filter_In {A} (t : A -> timestamp) (p : A -> bool) (l : list A) (m : Z) :
  col_min (map t (filter p l)) = Some m ->
  exists a, In a l /\ p a = true /\ t a = Some m.
Proof.
  intro E. apply col_min_Some in E. destruct E as [Hin _].
  apply in_map_iff in Hin. destruct Hin as [a [Ea Ha]].
  apply filter_In in Ha. exists a. tauto.
Qed.

Module TouchFacts.
Import Gateway GatewaySpec ConversionSpec.

Section Pipeline.
Variable live_sessions : list live_session.
Variable live_session_attendance : list attendance_event.
Variable payments : list payment.
Variable prod_flags : list product_flags.
Variable product_accesses : list product_access.

Abbreviation session_frame :=
  (GatewaySpec.session_frame live_sessions live_session_attendance).
Abbreviation product_frame := (GatewaySpec.product_frame payments prod_flags).
Abbreviation base_of :=
  (GatewaySpec.base_of live_sessions live_session_attendance payments prod_flags).
Abbreviation newcomer_row :=
  (GatewaySpec.newcomer_row payments prod_flags product_accesses).
Abbreviation touch_row_of :=
  (GatewaySpec.touch_row_of live_sessions live_session_attendance payments
                            prod_flags product_accesses).
Abbreviation the_touches :=
  (touches live_sessions live_session_attendance payments prod_flags
           product_accesses).
Abbreviation newcomers :=
  (touches_newcomer live_sessions live_session_attendance payments prod_flags
                    product_accesses).

Abbreviation touched :=
  (ConversionSpec.touched live_sessions live_session_attendance payments prod_flags).

Lemma touches_users_NoDup : NoDup (map touch_user the_touches).
Proof.
  rewrite AttributionFacts.touches_eq, AttributionFacts.newcomers_eq, !map_map.
  unfold touches_base. cbn [touch_user GatewaySpec.touch_row_of converted_of
                            t_newcomer GatewaySpec.newcomer_row newcomer_of tn_base].
  set (rows := merge_outer fst fst (first_session_touch _ _) (first_product_touch _ _)).
  assert (E : forall (p : touch_base -> bool) (l : list _),
             map userId (filter p (map touch_of l))
             = map (fun x => fst (fst x)) (filter (fun x => p (touch_of x)) l)).
  { intros p l. induction l as [|[[g a] b] t IH]; simpl; [reflexivity|].
    destruct (p _); simpl; now rewrite IH. }
  rewrite E. apply filter_keys_NoDup. unfold rows.
  apply merge_outer_NoDup; apply groupby_agg_NoDup.
Qed.

Lemma touched_newcomer_In (g : key) :
  touched g -> In (newcomer_row (base_of g)) newcomers.
Proof.
  intro Hg. rewrite AttributionFacts.newcomers_eq. apply in_map.
  apply AttributionFacts.base_In. exists g. split; [exact Hg | reflexivity].
Qed.

Lemma newcomer_In_inv (n : touch_newcomer) :
  In n newcomers ->
  exists g, touched g /\ n = newcomer_row (base_of g).
Proof.
  rewrite AttributionFacts.newcomers_eq, in_map_iff.
  intros [b [<- Hb]]. apply AttributionFacts.base_In in Hb.
  destruct Hb as [g [Hg ->]]. now exists g.
Qed.

Lemma touched_notnull (g : key) : touched g -> g <> None.
Proof.
  intros [H | H]; apply in_map_iff in H; destruct H as [a [<- Ha]];
    eapply groupby_agg_key_notnull; try exact Ha; reflexivity.
Qed.

Lemma key_cell_eqb (a g : key) : g <> None -> key_eqb g a = cell_eqb a g.
Proof.
  destruct g as [s|]; [|congruence]. intros _.
  destruct a as [x|]; simpl; [apply String.eqb_sym | reflexivity].
Qed.

(** The payments joined to a touched user and kept by the filter
    [paidAt > first_touch_time]. *)
Lemma merged_times (g : key) (x : Z) :
  touched g ->
  In (Some x)
     (map merged_paidAt
          (filter (fun m => cell_eqb (userId (tn_base (fst m))) g)
                  (merged live_sessions live_session_attendance payments
                          prod_flags product_accesses)))
  <-> In (Some x)
         (map paid_time
              (filter (fun p => succeeded p && cell_eqb (pay_userId p) g
                                && ts_gt (paid_time p)
                                         (first_touch_time (base_of g)))
                      payments)).
Proof.
  intro Hg. pose proof (touched_notnull g Hg) as Ng.
  rewrite !in_map_iff. split.
  - intros [m [E Hm]]. destruct m as [n o].
    destruct o as [r|]; [|discriminate E].
    apply filter_In in Hm. destruct Hm as [Hm U].
    unfold merged in Hm. apply filter_In in Hm. destruct Hm as [Hm Gt].
    apply merge_left_In in Hm. destruct Hm as [Hn [Hr K]].
    cbn [fst snd merged_paidAt] in *.
    apply newcomer_In_inv in Hn. destruct Hn as [g' [Hg' ->]].
    cbn [GatewaySpec.newcomer_row newcomer_of tn_base GatewaySpec.base_of
         touch_of userId] in U, K.
    assert (Eg : g' = g).
    { clear - U. destruct g' as [s'|], g as [s|]; simpl in U;
        try discriminate U.
      apply String.eqb_eq in U. congruence. }
    subst g'.
    apply AttributionFacts.payments_succ_In in Hr.
    destruct Hr as [p [Hp [S [F _]]]]. rewrite F in *.
    exists p. split; [exact E|].
    apply filter_In. split; [exact Hp|].
    unfold succeeded in *. rewrite S. cbn [andb].
    rewrite <- (key_cell_eqb _ _ Ng). cbn [fill_paidAt pay_userId] in K.
    rewrite K. cbn [andb]. exact Gt.
  - intros [p [E Hp]]. apply filter_In in Hp. destruct Hp as [Hp C].
    apply andb_prop in C. destruct C as [C Gt].
    apply andb_prop in C. destruct C as [S U].
    assert (Hf : In (fill_paidAt p)
                    (map fill_paidAt
                         (filter (fun p => str_is "succeeded" (pay_status p)) payments))).
    { apply in_map, filter_In. auto. }
    destruct (AttributionFacts.merge_left_total
                (fun p f => key_eqb (pay_productId p) (pf_productId f))
                _ prod_flags _ Hf) as [ob Hob].
    exists (newcomer_row (base_of g), Some (fill_paidAt p, ob)).
    split; [exact E|].
    apply filter_In. split.
    + unfold merged. apply filter_In. split; [|exact Gt].
      apply merge_left_In. split; [apply touched_newcomer_In; exact Hg|].
      split; [exact Hob|].
      cbn [fst GatewaySpec.newcomer_row newcomer_of tn_base GatewaySpec.base_of
           touch_of userId fill_paidAt pay_userId].
      rewrite (key_cell_eqb _ _ Ng). exact U.
    + cbn [fst GatewaySpec.newcomer_row newcomer_of tn_base GatewaySpec.base_of
           touch_of userId].
      destruct g as [s|]; [|congruence]. simpl. apply String.eqb_refl.
Qed.

Lemma merged_mentor_times (g : key) (x : Z) :
  touched g ->
  In (Some x)
     (map merged_paidAt
          (filter (fun m => cell_eqb (userId (tn_base (fst m))) g)
                  (filter merged_is_mentorship
                          (merged live_sessions live_session_attendance payments
                                  prod_flags product_accesses))))
  <-> In (Some x)
         (map paid_time
              (filter (fun p => succeeded p && cell_eqb (pay_userId p) g
                                && buys_mentorship prod_flags p
                                && ts_gt (paid_time p)
                                         (first_touch_time (base_of g)))
                      payments)).
Proof.
  intro Hg. pose proof (touched_notnull g Hg) as Ng.
  rewrite !in_map_iff. split.
  - intros [m [E Hm]]. destruct m as [n o].
    destruct o as [r|]; [|discriminate E].
    apply filter_In in Hm. destruct Hm as [Hm U].
    apply filter_In in Hm. destruct Hm as [Hm M].
    unfold merged in Hm. apply filter_In in Hm. destruct Hm as [Hm Gt].
    apply merge_left_In in Hm. destruct Hm as [Hn [Hr K]].
    cbn [fst snd merged_paidAt merged_is_mentorship] in *.
    apply newcomer_In_inv in Hn. destruct Hn as [g' [Hg' ->]].
    cbn [GatewaySpec.newcomer_row newcomer_of tn_base GatewaySpec.base_of
         touch_of userId] in U, K.
    assert (Eg : g' = g).
    { clear - U. destruct g' as [s'|], g as [s|]; simpl in U;
        try discriminate U.
      apply String.eqb_eq in U. congruence. }
    subst g'.
    apply AttributionFacts.payments_succ_In in Hr.
    destruct Hr as [p [Hp [S [F H]]]]. rewrite F in *.
    exists p. split; [exact E|].
    apply filter_In. split; [exact Hp|].
    unfold succeeded in *. rewrite S. cbn [andb].
    rewrite <- (key_cell_eqb _ _ Ng). cbn [fill_paidAt pay_userId] in K.
    rewrite K. cbn [andb].
    destruct (snd r) as [f|]; [|discriminate M]. destruct H as [Hf Kf].
    assert (B : buys_mentorship prod_flags p = true).
    { unfold buys_mentorship. apply existsb_exists. exists f.
      split; [exact Hf|]. cbn [flag_true] in M. rewrite Kf, M. reflexivity. }
    rewrite B. exact Gt.
  - intros [p [E Hp]]. apply filter_In in Hp. destruct Hp as [Hp C].
    apply andb_prop in C. destruct C as [C Gt].
    apply andb_prop in C. destruct C as [C M].
    apply andb_prop in C. destruct C as [S U].
    unfold buys_mentorship in M. apply existsb_exists in M.
    destruct M as [f [Hf M]]. apply andb_prop in M. destruct M as [Kf M].
    exists (newcomer_row (base_of g), Some (fill_paidAt p, Some f)).
    split; [exact E|].
    apply filter_In. split.
    + apply filter_In. split; [|exact M].
      unfold merged. apply filter_In. split; [|exact Gt].
      apply merge_left_In. split; [apply touched_newcomer_In; exact Hg|].
      split.
      * apply AttributionFacts.payments_succ_In. exists p.
        cbn [fst snd]. repeat split; assumption.
      * cbn [fst GatewaySpec.newcomer_row newcomer_of tn_base GatewaySpec.base_of
             touch_of userId fill_paidAt pay_userId].
        rewrite (key_cell_eqb _ _ Ng). exact U.
    + cbn [fst GatewaySpec.newcomer_row newcomer_of tn_base GatewaySpec.base_of
           touch_of userId].
      clear - Ng. destruct g as [s|]; [|congruence]. simpl. apply String.eqb_refl.
Qed.

Lemma any_after_lookup (g : key) :
  touched g ->
  lookup_ts g (any_after_frame live_sessions live_session_attendance payments
                               prod_flags product_accesses)
  = first_paid_after payments g (first_touch_time (base_of g)).
Proof.
  intro Hg. unfold any_after_frame, first_any_after, first_paid_after.
  rewrite groupby_min_lookup. apply col_min_ext_notna. intro x.
  apply merged_times. exact Hg.
Qed.

Lemma mentor_after_lookup (g : key) :
  touched g ->
  lookup_ts g (mentor_after_frame live_sessions live_session_attendance payments
                                  prod_flags product_accesses)
  = first_mentorship_paid_after payments prod_flags g
                                (first_touch_time (base_of g)).
Proof.
  intro Hg. unfold mentor_after_frame, first_mentor_after,
              first_mentorship_paid_after.
  rewrite groupby_min_lookup. apply col_min_ext_notna. intro x.
  apply merged_mentor_times. exact Hg.
Qed.

Abbreviation row_facts :=
  (ConversionSpec.row_facts live_sessions live_session_attendance payments
                            prod_flags product_accesses).

Lemma final_row_facts (g : key) :
  touched g ->
  row_facts g (final_columns (touch_row_of (newcomer_row (base_of g)))).
Proof.
  intro Hg. unfold ConversionSpec.row_facts.
  set (b := base_of g).
  cbn [final_columns GatewaySpec.touch_row_of GatewaySpec.newcomer_row
       converted_of newcomer_of t_newcomer tn_base tr_userId
       tr_first_touch_time tr_is_newcomer_A tr_is_newcomer_B tr_is_newcomer_C
       tr_is_newcomer_strict tr_days_to_any_paid tr_days_to_mentorship_paid
       is_newcomer_A is_newcomer_B is_newcomer_C is_newcomer_strict
       days_to_any_paid days_to_mentorship_paid].
  replace (userId b) with g by reflexivity.
  fold (lookup_ts g (payment_frame payments prod_flags)).
  fold (lookup_ts g (mentor_frame payments prod_flags)).
  fold (lookup_ts g (access_frame product_accesses)).
  fold (lookup_ts g (any_after_frame live_sessions live_session_attendance
                                     payments prod_flags product_accesses)).
  fold (lookup_ts g (mentor_after_frame live_sessions live_session_attendance
                                        payments prod_flags product_accesses)).
  rewrite AttributionFacts.payment_frame_lookup,
          AttributionFacts.mentor_frame_lookup,
          AttributionFacts.access_frame_lookup,
          (any_after_lookup g Hg), (mentor_after_lookup g Hg).
  rewrite !AttributionFacts.null_or_not_before_eq.
  fold b.
  assert (N : first_touch_time b <> None).
  { apply notna_true.
    exact (AttributionFacts.base_of_touched _ _ _ _ g Hg). }
  repeat split; try reflexivity. exact N.
Qed.

Lemma final_rows_inv (r : touch_row) :
  In r (map final_columns the_touches) -> exists g, touched g /\ row_facts g r.
Proof.
  intro Hr. apply in_map_iff in Hr. destruct Hr as [t [<- Hin]].
  destruct (proj1 (AttributionFacts.touches_In
                     live_sessions live_session_attendance payments prod_flags
                     product_accesses t) Hin) as [g [Hg E]].
  subst t. exists g. split; [exact Hg|]. apply final_row_facts. exact Hg.
Qed.
End Pipeline.
End TouchFacts.

Module ConversionSpecFacts.
Import Gateway GatewaySpec ConversionSpec.

Lemma filter_weaken {A} (t : A -> timestamp) (p q : A -> bool) (l : list A) (x : Z) :
  (forall a, p a = true -> q a = true) ->
  In (Some x) (map t (filter p l)) -> In (Some x) (map t (filter q l)).
Proof.
  intros H Hin. apply in_map_iff in Hin. destruct Hin as [a [E Ha]].
  apply filter_In in Ha. destruct Ha as [Ha P].
  apply in_map_iff. exists a. split; [exact E|].
  apply filter_In. split; [exact Ha | apply H; exact P].
Qed.

Lemma first_paid_after_gt (payments : list payment) (u : key) (touch : timestamp)
    (m : Z) :
  first_paid_after payments u touch = Some m ->
  exists t0, touch = Some t0 /\ t0 < m.
Proof.
  unfold first_paid_after. intro E.
  apply col_min_filter_In in E. destruct E as [p [_ [C E]]].
  apply andb_prop in C. destruct C as [_ G]. rewrite E in G.
  destruct touch as [t0|]; [|discriminate G].
  exists t0. split; [reflexivity|]. simpl in G. apply Z.ltb_lt. exact G.
Qed.

Lemma mentorship_after_any (payments : list payment) (prod_flags : list product_flags)
    (u : key) (touch : timestamp) (m' : Z) :
  first_mentorship_paid_after payments prod_flags u touch = Some m' ->
  exists m, first_paid_after payments u touch = Some m /\ m <= m'.
Proof.
  unfold first_mentorship_paid_after, first_paid_after.
  apply col_min_incl. intro t. apply filter_weaken. intros p C.
  apply andb_prop in C. destruct C as [C G].
  apply andb_prop in C. destruct C as [C _].
  rewrite C, G. reflexivity.
Qed.

Lemma day_ns_pos : 0 < day_ns.
Proof. reflexivity. Qed.

Lemma days_after_nonneg (payments : list payment) (u : key) (touch : timestamp)
    (d : Z) :
  days_between (first_paid_after payments u touch) touch = Some d -> 0 <= d.
Proof.
  destruct (first_paid_after payments u touch) as [m|] eqn:E; [|discriminate].
  apply first_paid_after_gt in E. destruct E as [t0 [-> L]].
  simpl. intro H. injection H as <-.
  apply Z.div_pos; [lia | apply day_ns_pos].
Qed.

Lemma days_mentorship_after_any (payments : list payment)
    (prod_flags : list product_flags) (u : key) (touch : timestamp) (dm : Z) :
  days_between (first_mentorship_paid_after payments prod_flags u touch) touch
  = Some dm ->
  exists da, days_between (first_paid_after payments u touch) touch = Some da
             /\ 0 <= da <= dm.
Proof.
  destruct (first_mentorship_paid_after payments prod_flags u touch) as [m'|] eqn:E;
    [|discriminate].
  apply mentorship_after_any in E. destruct E as [m [E L]].
  rewrite E. pose proof (first_paid_after_gt _ _ _ _ E) as [t0 [-> G]].
  simpl. intro H. injection H as <-.
  exists ((m - t0) / day_ns). split; [reflexivity|]. split.
  - apply Z.div_pos; [lia | apply day_ns_pos].
  - apply Z.div_le_mono; [apply day_ns_pos | lia].
Qed.

(** A user whose first payment is not before the touch has no
    mentorship payment before it either. *)
Lemma newcomer_A_B (payments : list payment) (prod_flags : list product_flags)
    (u : key) (touch : timestamp) :
  null_or_not_before (first_succeeded_payment payments u) touch = true ->
  null_or_not_before (first_mentorship_payment payments prod_flags u) touch = true.
Proof.
  intro A.
  destruct (first_mentorship_payment payments prod_flags u) as [m'|] eqn:E;
    [|reflexivity].
  unfold first_mentorship_payment in E.
  assert (H : exists m, first_succeeded_payment payments u = Some m /\ m <= m').
  { unfold first_succeeded_payment. revert E. apply col_min_incl.
    intro t. apply filter_weaken. intros p C.
    apply andb_prop in C. destruct C as [C _]. exact C. }
  destruct H as [m [F L]]. rewrite F in A.
  destruct touch as [t0|]; simpl in *; [|discriminate A].
  apply Z.leb_le. apply Z.leb_le in A. lia.
Qed.
End ConversionSpecFacts.

Import ConversionSpec.

(** X1. The touch table holds at most one row per user, and every row
    has a user id and a first touch time. *)
Theorem touch_rows_unique :
  forall (live_sessions : list live_session)
         (live_session_attendance : list attendance_event)
         (live_session_assigned : list assigned)
         (payments : list payment) (products : list product)
         (product_accesses : list product_access)
         (gateway_quantile mentorship_quantile : Q) (out : attribution),
    build_gateway_attribution live_sessions live_session_attendance
                              live_session_assigned payments products
                              product_accesses gateway_quantile mentorship_quantile
    = Ok out ->
    NoDup (map tr_userId (gateway_touch_attribution out))
    /\ forall r, In r (gateway_touch_attribution out) ->
                 tr_userId r <> None /\ tr_first_touch_time r <> None.
Proof.
  intros live_sessions live_session_attendance live_session_assigned payments
         products product_accesses gq mq out Hb.
  apply GatewayFacts.build_inv in Hb. destruct Hb as [flags [_ [Ht _]]].
  rewrite Ht. split.
  - rewrite map_map.
    exact (TouchFacts.touches_users_NoDup live_sessions live_session_attendance
                                          payments flags product_accesses).
  - intros r Hr. apply TouchFacts.final_rows_inv in Hr.
    destruct Hr as [g [Hg F]]. destruct F as [Eu [Et [N _]]].
    rewrite Eu, Et. split; [|exact N].
    exact (TouchFacts.touched_notnull _ _ _ _ g Hg).
Qed.

Lemma touch_rows_unique_witness :
  NoDup (map tr_userId (gateway_touch_attribution Scenario.attributed)).
Proof.
  refine (proj1 (touch_rows_unique
                   Scenario.live_sessions Scenario.live_session_attendance
                   Scenario.live_session_assigned Scenario.payments Scenario.products
                   Scenario.product_accesses Scenario.gateway_quantile
                   Scenario.mentorship_quantile Scenario.attributed _)).
  vm_compute. reflexivity.
Defined.

(** X2. In every row of the touch table, [days_to_any_paid] is the whole
    number of days (rounded down) from the first touch to the user's
    earliest succeeded payment strictly after it, null when there is
    none; [days_to_mentorship_paid] likewise for payments of mentorship
    products. A payment at the touch time itself is no conversion. *)
Theorem conversion_days_exact :
  forall (live_sessions : list live_session)
         (live_session_attendance : list attendance_event)
         (live_session_assigned : list assigned)
         (payments : list payment) (products : list product)
         (product_accesses : list product_access)
         (gateway_quantile mentorship_quantile : Q)
         (flags : list product_flags) (out : attribution) (r : touch_row),
    classify_products products gateway_quantile mentorship_quantile = Ok flags ->
    build_gateway_attribution live_sessions live_session_attendance
                              live_session_assigned payments products
                              product_accesses gateway_quantile mentorship_quantile
    = Ok out ->
    In r (gateway_touch_attribution out) ->
    tr_days_to_any_paid r
    = days_between (first_paid_after payments (tr_userId r) (tr_first_touch_time r))
                   (tr_first_touch_time r)
    /\ tr_days_to_mentorship_paid r
       = days_between (first_mentorship_paid_after payments flags (tr_userId r)
                                                   (tr_first_touch_time r))
                      (tr_first_touch_time r).
Proof.
  intros live_sessions live_session_attendance live_session_assigned payments
         products product_accesses gq mq flags out r Hc Hb Hr.
  apply GatewayFacts.build_inv in Hb. destruct Hb as [flags' [Hc' [Ht _]]].
  rewrite Hc in Hc'. injection Hc' as <-. rewrite Ht in Hr.
  apply TouchFacts.final_rows_inv in Hr. destruct Hr as [g [_ F]].
  destruct F as [Eu [Et [_ [_ [_ [_ [_ [Da Dm]]]]]]]].
  rewrite Eu, Et. split; [exact Da | exact Dm].
Qed.

Lemma conversion_days_exact_witness :
  tr_days_to_any_paid Scenario.ada_touch = Some 5
  /\ tr_days_to_mentorship_paid Scenario.ada_touch = Some 68.
Proof.
  assert (Hc : classify_products Scenario.products Scenario.gateway_quantile
                                 Scenario.mentorship_quantile
               = Ok Scenario.prod_flags) by (vm_compute; reflexivity).
  assert (Hb : build_gateway_attribution
                 Scenario.live_sessions Scenario.live_session_attendance
                 Scenario.live_session_assigned Scenario.payments Scenario.products
                 Scenario.product_accesses Scenario.gateway_quantile
                 Scenario.mentorship_quantile
               = Ok Scenario.attributed) by (vm_compute; reflexivity).
  assert (Hin : In Scenario.ada_touch (gateway_touch_attribution Scenario.attributed))
    by (vm_compute; tauto).
  pose proof (conversion_days_exact _ _ _ _ _ _ _ _ _ _ _ Hc Hb Hin) as [Ha Hm].
  split.
  - rewrite Ha. vm_compute. reflexivity.
  - rewrite Hm. vm_compute. reflexivity.
Defined.

(** X3. A conversion delay is never negative, and a row with a
    mentorship conversion has a conversion of any product no later: its
    [days_to_any_paid] is not null and at most its
    [days_to_mentorship_paid]. *)
Theorem conversion_days_order :
  forall (live_sessions : list live_session)
         (live_session_attendance : list attendance_event)
         (live_session_assigned : list assigned)
         (payments : list payment) (products : list product)
         (product_accesses : list product_access)
         (gateway_quantile mentorship_quantile : Q)
         (out : attribution) (r : touch_row),
    build_gateway_attribution live_sessions live_session_attendance
                              live_session_assigned payments products
                              product_accesses gateway_quantile mentorship_quantile
    = Ok out ->
    In r (gateway_touch_attribution out) ->
    (forall d, tr_days_to_any_paid r = Some d -> 0 <= d)
    /\ (forall dm, tr_days_to_mentorship_paid r = Some dm ->
                   exists da, tr_days_to_any_paid r = Some da /\ 0 <= da <= dm).
Proof.
  intros live_sessions live_session_attendance live_session_assigned payments
         products product_accesses gq mq out r Hb Hr.
  apply GatewayFacts.build_inv in Hb. destruct Hb as [flags [_ [Ht _]]].
  rewrite Ht in Hr.
  apply TouchFacts.final_rows_inv in Hr. destruct Hr as [g [_ F]].
  destruct F as [_ [_ [_ [_ [_ [_ [_ [Da Dm]]]]]]]].
  rewrite Da, Dm. split.
  - intro d. apply ConversionSpecFacts.days_after_nonneg.
  - intro dm. apply ConversionSpecFacts.days_mentorship_after_any.
Qed.

Lemma conversion_days_order_witness :
  exists da, tr_days_to_any_paid Scenario.ada_touch = Some da /\ 0 <= da <= 68.
Proof.
  refine (proj2 (conversion_days_order
                   Scenario.live_sessions Scenario.live_session_attendance
                   Scenario.live_session_assigned Scenario.payments Scenario.products
                   Scenario.product_accesses Scenario.gateway_quantile
                   Scenario.mentorship_quantile Scenario.attributed
                   Scenario.ada_touch _ _) 68 _).
  - vm_compute. reflexivity.
  - vm_compute. tauto.
  - reflexivity.
Defined.

(** On the rows of the touch table, cohort A lies within cohort B. *)
Lemma newcomer_B_from_A (live_sessions : list live_session)
      (live_session_attendance : list attendance_event)
      (payments : list payment) (prod_flags : list product_flags)
      (product_accesses : list product_access) (r : touch_row) :
  In r (map final_columns
            (touches live_sessions live_session_attendance payments prod_flags
                     product_accesses)) ->
  (tr_is_newcomer_A r = true -> tr_is_newcomer_B r = true)
  /\ tr_is_newcomer_strict r = tr_is_newcomer_A r && tr_is_newcomer_C r.
Proof.
  intro Hr.
  apply TouchFacts.final_rows_inv in Hr. destruct Hr as [g [_ F]].
  destruct F as [_ [_ [_ [A [B [_ [S _]]]]]]].
  assert (I : tr_is_newcomer_A r = true -> tr_is_newcomer_B r = true).
  { rewrite A, B. apply ConversionSpecFacts.newcomer_A_B. }
  split; [exact I|].
  rewrite S. destruct (tr_is_newcomer_A r); [|reflexivity].
  rewrite (I eq_refl). reflexivity.
Qed.

(** X4. A newcomer by first payment is a newcomer by first mentorship
    payment: [is_newcomer_A] implies [is_newcomer_B] on every row, so the
    strict flag is the conjunction of A and C alone. *)
Theorem newcomer_A_implies_B :
  forall (live_sessions : list live_session)
         (live_session_attendance : list attendance_event)
         (live_session_assigned : list assigned)
         (payments : list payment) (products : list product)
         (product_accesses : list product_access)
         (gateway_quantile mentorship_quantile : Q)
         (out : attribution) (r : touch_row),
    build_gateway_attribution live_sessions live_session_attendance
                              live_session_assigned payments products
                              product_accesses gateway_quantile mentorship_quantile
    = Ok out ->
    In r (gateway_touch_attribution out) ->
    (tr_is_newcomer_A r = true -> tr_is_newcomer_B r = true)
    /\ tr_is_newcomer_strict r = tr_is_newcomer_A r && tr_is_newcomer_C r.
Proof.
  intros live_sessions live_session_attendance live_session_assigned payments
         products product_accesses gq mq out r Hb Hr.
  apply GatewayFacts.build_inv in Hb. destruct Hb as [flags [_ [Ht _]]].
  rewrite Ht in Hr.
  exact (newcomer_B_from_A live_sessions live_session_attendance payments flags
                           product_accesses r Hr).
Qed.

Lemma newcomer_A_implies_B_witness :
  tr_is_newcomer_B Scenario.ada_touch = true.
Proof.
  refine (proj1 (newcomer_A_implies_B
                   Scenario.live_sessions Scenario.live_session_attendance
                   Scenario.live_session_assigned Scenario.payments Scenario.products
                   Scenario.product_accesses Scenario.gateway_quantile
                   Scenario.mentorship_quantile Scenario.attributed
                   Scenario.ada_touch _ _) _).
  - vm_compute. reflexivity.
  - vm_compute. tauto.
  - reflexivity.
Defined.

(* ===================================================================== *)
(** * Further properties of the conversion summary and curve *)
(* ===================================================================== *)

Lemma filter_all {A} (p : A -> bool) (l : list A) :
  (forall x, In x l -> p x = true) -> filter p l = l.
Proof.
  induction l as [|x t IH]; simpl; intro H; [reflexivity|].
  rewrite (H x) by auto. f_equal. apply IH. intros y Hy. apply H. auto.
Qed.

Lemma distinct_NoDup_id (l : list key) : NoDup l -> distinct key_eqb l = l.
Proof.
  induction l as [|x t IH]; simpl; intro ND; [reflexivity|].
  inversion ND as [|? ? Hnot ND']; subst.
  rewrite (IH ND'). f_equal. apply filter_all.
  intros y Hy. apply negb_true_iff. apply key_eqb_neq. congruence.
Qed.

(** On a column without null and without duplicate, [nunique] is the
    number of rows. *)
Lemma nunique_NoDup (c : list key) :
  NoDup c -> (forall x, In x c -> x <> None) -> nunique c = List.length c.
Proof.
  intros ND N. unfold nunique.
  rewrite (filter_all notna c).
  - now rewrite distinct_NoDup_id.
  - intros x Hx. apply notna_true. now apply N.
Qed.

Lemma filter_length_mono {A} (p q : A -> bool) (l : list A) :
  (forall x, In x l -> p x = true -> q x = true) ->
  (List.length (filter p l) <= List.length (filter q l))%nat.
Proof.
  induction l as [|x t IH]; simpl; intro H; [lia|].
  assert (IH' : (List.length (filter p t) <= List.length (filter q t))%nat).
  { apply IH. intros y Hy. apply H. auto. }
  destruct (p x) eqn:P.
  - rewrite (H x (or_introl eq_refl) P). simpl. lia.
  - destruct (q x); simpl; lia.
Qed.

Module SummaryFacts.
Import Gateway GatewaySpec ConversionSpec.

Lemma quotient_unit (a size : nat) :
  (a <= size)%nat -> size <> 0%nat ->
  fle (Fin 0) (quotient a size) = true /\ fle (quotient a size) (Fin 1) = true.
Proof.
  intros Ha Hs. unfold quotient, fle.
  assert (P : (0 < inject_Z (Z.of_nat size))%Q).
  { replace 0%Q with (inject_Z 0) by reflexivity. rewrite <- Zlt_Qlt. lia. }
  split; apply Qle_bool_iff; rewrite Qred_correct.
  - apply Qle_shift_div_l; [exact P|]. rewrite Qmult_0_l.
    replace 0%Q with (inject_Z 0) by reflexivity. rewrite <- Zle_Qle. lia.
  - apply Qle_shift_div_r; [exact P|]. rewrite Qmult_1_l.
    rewrite <- Zle_Qle. lia.
Qed.

Lemma count_within_le (col1 col2 : touch -> option Z) (w : Z) (l : list touch) :
  (forall t d1, In t l -> col1 t = Some d1 -> d1 <= w ->
                exists d2, col2 t = Some d2 /\ d2 <= w) ->
  (count_within col1 w l <= count_within col2 w l)%nat.
Proof.
  intro H. unfold count_within. apply filter_length_mono.
  intros t Ht C. destruct (col1 t) as [d1|] eqn:E1; [|discriminate C].
  simpl in C. apply Z.leb_le in C.
  destruct (H t d1 Ht E1 C) as [d2 [E2 L]]. rewrite E2. simpl.
  apply Z.leb_le. exact L.
Qed.

Lemma cohort_defs_name_inj (d1 d2 : string * (touch -> bool)) :
  In d1 cohort_defs -> In d2 cohort_defs -> fst d1 = fst d2 -> d1 = d2.
Proof.
  unfold cohort_defs. simpl.
  intros [<- | [<- | [<- | [<- | []]]]] [<- | [<- | [<- | [<- | []]]]] E;
    simpl in E; try reflexivity; discriminate E.
Qed.

Section Pipeline.
Variable live_sessions : list live_session.
Variable live_session_attendance : list attendance_event.
Variable payments : list payment.
Variable prod_flags : list product_flags.
Variable product_accesses : list product_access.

Abbreviation the_touches :=
  (touches live_sessions live_session_attendance payments prod_flags
           product_accesses).

(** On the touch table, the size of a cohort is its number of rows. *)
Lemma cohort_size_length (def : string * (touch -> bool)) :
  cohort_size (summary_of the_touches def)
  = List.length (filter (snd def) the_touches).
Proof.
  destruct def as [name col]. cbn [summary_of cohort_size snd].
  rewrite nunique_NoDup.
  - apply length_map.
  - apply filter_keys_NoDup. apply TouchFacts.touches_users_NoDup.
  - intros x Hx. apply in_map_iff in Hx. destruct Hx as [t [<- Ht]].
    apply filter_In in Ht. destruct Ht as [Ht _].
    exact (AttributionFacts.touches_user_notnull _ _ _ _ _ t Ht).
Qed.

Lemma touch_days_order (t : touch) (dm w : Z) :
  In t the_touches -> days_to_mentorship_paid t = Some dm -> dm <= w ->
  exists da, days_to_any_paid t = Some da /\ da <= w.
Proof.
  intros Ht E L.
  assert (Hr : In (final_columns t) (map final_columns the_touches))
    by (apply in_map; exact Ht).
  apply TouchFacts.final_rows_inv in Hr. destruct Hr as [g [_ F]].
  destruct F as [_ [_ [_ [_ [_ [_ [_ [Da Dm]]]]]]]].
  cbn [final_columns tr_days_to_any_paid tr_days_to_mentorship_paid] in Da, Dm.
  rewrite Dm in E.
  apply ConversionSpecFacts.days_mentorship_after_any in E.
  destruct E as [da [E [_ L']]]. exists da. rewrite Da. split; [exact E | lia].
Qed.

Lemma summary_counts (def : string * (touch -> bool)) (s : window_stats) :
  In s (sr_windows (summary_of the_touches def)) ->
  (mentorship_paid s <= any_paid s)%nat
  /\ (any_paid s <= cohort_size (summary_of the_touches def))%nat
  /\ any_paid_rate s = rate_or_nan (any_paid s)
                                   (cohort_size (summary_of the_touches def))
  /\ mentorship_paid_rate s
     = rate_or_nan (mentorship_paid s)
                   (cohort_size (summary_of the_touches def)).
Proof.
  intro Hs. rewrite cohort_size_length.
  destruct def as [name col]. cbn [summary_of sr_windows snd] in *.
  apply in_map_iff in Hs. destruct Hs as [w [<- _]].
  cbn [mentorship_paid any_paid any_paid_rate mentorship_paid_rate].
  pose proof (cohort_size_length (name, col)) as L.
  cbn [summary_of cohort_size snd] in L. rewrite L.
  split; [|split; [|split; reflexivity]].
  - apply count_within_le. intros t d1 Ht E1 Hw.
    apply filter_In in Ht. destruct Ht as [Ht _].
    exact (touch_days_order t d1 w Ht E1 Hw).
  - unfold count_within. apply filter_length_le.
Qed.
End Pipeline.
End SummaryFacts.

(** X5. In every row of the conversion summary and at every window, the
    mentorship count is at most the any-paid count, which is at most the
    cohort size; so for a cohort of non-zero size both rates lie between
    0 and 1, the mentorship rate below the any-paid rate. *)
Theorem summary_counts_bounded :
  forall (live_sessions : list live_session)
         (live_session_attendance : list attendance_event)
         (live_session_assigned : list assigned)
         (payments : list payment) (products : list product)
         (product_accesses : list product_access)
         (gateway_quantile mentorship_quantile : Q)
         (out : attribution) (row : summary_row) (s : window_stats),
    build_gateway_attribution live_sessions live_session_attendance
                              live_session_assigned payments products
                              product_accesses gateway_quantile mentorship_quantile
    = Ok out ->
    In row (gateway_conversion_summary out) ->
    In s (sr_windows row) ->
    (mentorship_paid s <= any_paid s <= cohort_size row)%nat
    /\ (cohort_size row <> 0%nat ->
        fle (Fin 0) (mentorship_paid_rate s) = true
        /\ fle (mentorship_paid_rate s) (any_paid_rate s) = true
        /\ fle (any_paid_rate s) (Fin 1) = true).
Proof.
  intros live_sessions live_session_attendance live_session_assigned payments
         products product_accesses gq mq out row s Hb Hrow Hs.
  apply GatewayFacts.build_inv in Hb. destruct Hb as [flags [_ [_ [Hsum _]]]].
  rewrite Hsum in Hrow. apply ConversionFacts.summary_row_inv in Hrow.
  destruct Hrow as [def [_ ->]].
  destruct (SummaryFacts.summary_counts _ _ _ _ _ def s Hs) as [Hm [Ha [Ra Rm]]].
  split; [split; assumption|].
  intro Hz. rewrite Ra, Rm. unfold rate_or_nan.
  set (size := cohort_size (summary_of _ def)) in *.
  destruct (Nat.eqb_spec size 0) as [E | _]; [contradiction|].
  split; [|split].
  - apply SummaryFacts.quotient_unit; [lia | exact Hz].
  - apply ConversionFacts.quotient_mono; assumption.
  - apply SummaryFacts.quotient_unit; assumption.
Qed.

Lemma summary_counts_bounded_witness :
  (mentorship_paid Scenario.summary_A_7d <= any_paid Scenario.summary_A_7d
   <= cohort_size Scenario.summary_A)%nat
  /\ fle (any_paid_rate Scenario.summary_A_7d) (Fin 1) = true.
Proof.
  pose proof (summary_counts_bounded
                Scenario.live_sessions Scenario.live_session_attendance
                Scenario.live_session_assigned Scenario.payments Scenario.products
                Scenario.product_accesses Scenario.gateway_quantile
                Scenario.mentorship_quantile Scenario.attributed Scenario.summary_A
                Scenario.summary_A_7d) as H.
  assert (Hb : build_gateway_attribution
                 Scenario.live_sessions Scenario.live_session_attendance
                 Scenario.live_session_assigned Scenario.payments Scenario.products
                 Scenario.product_accesses Scenario.gateway_quantile
                 Scenario.mentorship_quantile
               = Ok Scenario.attributed) by (vm_compute; reflexivity).
  assert (Hrow : In Scenario.summary_A (gateway_conversion_summary Scenario.attributed))
    by (vm_compute; tauto).
  assert (Hs : In Scenario.summary_A_7d (sr_windows Scenario.summary_A))
    by (vm_compute; tauto).
  destruct (H Hb Hrow Hs) as [C R]. split; [exact C|].
  apply R. vm_compute. discriminate.
Defined.

(** X6. The size a summary row reports for a cohort is the number of
    rows of the touch table that carry the cohort's flag; and the cohorts
    are nested: the strict cohort is no larger than cohorts A and C, and
    cohort A is no larger than cohort B. *)
Theorem cohort_sizes :
  forall (live_sessions : list live_session)
         (live_session_attendance : list attendance_event)
         (live_session_assigned : list assigned)
         (payments : list payment) (products : list product)
         (product_accesses : list product_access)
         (gateway_quantile mentorship_quantile : Q) (out : attribution),
    build_gateway_attribution live_sessions live_session_attendance
                              live_session_assigned payments products
                              product_accesses gateway_quantile mentorship_quantile
    = Ok out ->
    (forall name flag row,
        In (name, flag) cohort_flags ->
        In row (gateway_conversion_summary out) ->
        sr_cohort row = name ->
        cohort_size row = List.length (members flag out))
    /\ (List.length (members tr_is_newcomer_strict out)
        <= List.length (members tr_is_newcomer_A out))%nat
    /\ (List.length (members tr_is_newcomer_strict out)
        <= List.length (members tr_is_newcomer_C out))%nat
    /\ (List.length (members tr_is_newcomer_A out)
        <= List.length (members tr_is_newcomer_B out))%nat.
Proof.
  intros live_sessions live_session_attendance live_session_assigned payments
         products product_accesses gq mq out Hb.
  pose proof Hb as Hb'.
  apply GatewayFacts.build_inv in Hb. destruct Hb as [flags [_ [Ht [Hsum _]]]].
  split; [|split; [|split]].
  - intros name flag row Hflag Hrow Hname.
    rewrite Hsum in Hrow. apply ConversionFacts.summary_row_inv in Hrow.
    destruct Hrow as [def [Hdef ->]].
    apply GatewayFacts.cohort_flags_defs in Hflag.
    assert (E : def = (name, fun t => flag (final_columns t))).
    { apply SummaryFacts.cohort_defs_name_inj; try assumption.
      destruct def as [n c]. exact Hname. }
    subst def. rewrite SummaryFacts.cohort_size_length. cbn [snd].
    unfold members. rewrite Ht, GatewayFacts.filter_final_columns, length_map.
    reflexivity.
  - unfold members. apply filter_length_mono. intros r Hr S. rewrite Ht in Hr.
    destruct (newcomer_B_from_A _ _ _ _ _ r Hr) as [_ E].
    rewrite E in S. apply andb_prop in S. tauto.
  - unfold members. apply filter_length_mono. intros r Hr S. rewrite Ht in Hr.
    destruct (newcomer_B_from_A _ _ _ _ _ r Hr) as [_ E].
    rewrite E in S. apply andb_prop in S. tauto.
  - unfold members. apply filter_length_mono. intros r Hr A. rewrite Ht in Hr.
    destruct (newcomer_B_from_A _ _ _ _ _ r Hr) as [I _].
    exact (I A).
Qed.

Lemma cohort_sizes_witness :
  cohort_size Scenario.summary_A
  = List.length (members tr_is_newcomer_A Scenario.attributed).
Proof.
  refine (proj1 (cohort_sizes
                   Scenario.live_sessions Scenario.live_session_attendance
                   Scenario.live_session_assigned Scenario.payments Scenario.products
                   Scenario.product_accesses Scenario.gateway_quantile
                   Scenario.mentorship_quantile Scenario.attributed _)
                "newcomer_A"%string tr_is_newcomer_A Scenario.summary_A _ _ _).
  - vm_compute. reflexivity.
  - simpl. tauto.
  - vm_compute. tauto.
  - reflexivity.
Defined.

(** X7. The conversion curve and the conversion summary agree: at each
    summary window (1, 3, 7, 14, 30 days) the curve point of a cohort at
    that day carries the mentorship rate the summary reports for the
    window. *)
Theorem curve_matches_summary :
  forall (live_sessions : list live_session)
         (live_session_attendance : list attendance_event)
         (live_session_assigned : list assigned)
         (payments : list payment) (products : list product)
         (product_accesses : list product_access)
         (gateway_quantile mentorship_quantile : Q)
         (out : attribution) (c : curve_row) (row : summary_row) (s : window_stats),
    build_gateway_attribution live_sessions live_session_attendance
                              live_session_assigned payments products
                              product_accesses gateway_quantile mentorship_quantile
    = Ok out ->
    In c (gateway_conversion_curve out) ->
    In row (gateway_conversion_summary out) ->
    In s (sr_windows row) ->
    cv_cohort c = sr_cohort row ->
    cv_day c = ws_window s ->
    mentorship_conversion_rate c = mentorship_paid_rate s.
Proof.
  intros live_sessions live_session_attendance live_session_assigned payments
         products product_accesses gq mq out c row s Hb Hc Hrow Hs Hname Hday.
  apply GatewayFacts.build_inv in Hb. destruct Hb as [flags [_ [_ [Hsum Hcurve]]]].
  set (ts := touches live_sessions live_session_attendance payments flags
                     product_accesses) in *.
  rewrite Hcurve in Hc. rewrite Hsum in Hrow. clearbody ts.
  unfold conversion_curve in Hc. apply in_flat_map in Hc.
  destruct Hc as [d1 [Hd1 Hc]].
  apply ConversionFacts.summary_row_inv in Hrow. destruct Hrow as [d2 [Hd2 ->]].
  assert (E : d1 = d2).
  { apply SummaryFacts.cohort_defs_name_inj; try assumption.
    destruct d1 as [n1 c1], d2 as [n2 c2]. cbn [fst summary_of sr_cohort] in *.
    rewrite <- Hname. unfold curve_of in Hc.
    destruct (_ =? 0)%nat; [contradiction|].
    apply in_map_iff in Hc. destruct Hc as [d [<- _]]. reflexivity. }
  subst d2. destruct d1 as [n col].
  unfold curve_of in Hc. cbn [summary_of sr_windows] in Hs.
  destruct (Nat.eqb_spec (nunique (map touch_user (filter col ts))) 0) as [Z | NZ];
    [contradiction|].
  apply in_map_iff in Hc. destruct Hc as [d [<- _]].
  apply in_map_iff in Hs. destruct Hs as [w [<- _]].
  cbn [cv_day ws_window mentorship_conversion_rate mentorship_paid_rate] in *.
  subst d. unfold rate_or_nan.
  destruct (Nat.eqb_spec (nunique (map touch_user (filter col ts))) 0) as [Z | _];
    [contradiction | reflexivity].
Qed.

Lemma curve_matches_summary_witness :
  mentorship_conversion_rate ScenarioExtra.curve_A_day7
  = mentorship_paid_rate Scenario.summary_A_7d.
Proof.
  refine (curve_matches_summary
            Scenario.live_sessions Scenario.live_session_attendance
            Scenario.live_session_assigned Scenario.payments Scenario.products
            Scenario.product_accesses Scenario.gateway_quantile
            Scenario.mentorship_quantile Scenario.attributed
            ScenarioExtra.curve_A_day7 Scenario.summary_A Scenario.summary_A_7d
            _ _ _ _ _ _).
  - vm_compute. reflexivity.
  - vm_compute. tauto.
  - vm_compute. tauto.
  - vm_compute. tauto.
  - reflexivity.
  - reflexivity.
Defined.

(* ===================================================================== *)
(** * Further properties of the classifiers *)
(* ===================================================================== *)

Module ClassifyFacts.
Import Gateway GatewaySpec ClassifySpec.

Lemma prefix_app (s1 s2 : string) :
  String.prefix s1 s2 = true <-> exists post, s2 = (s1 ++ post)%string.
Proof.
  revert s2. induction s1 as [|c t IH]; intro s2.
  - split; [intros _; exists s2; reflexivity | intros _; destruct s2; reflexivity].
  - destruct s2 as [|d u]; simpl.
    + split; [discriminate | intros [post E]; discriminate E].
    + destruct (Ascii.ascii_dec c d) as [<- | N].
      * rewrite IH. split; intros [post E]; exists post.
        -- now rewrite E.
        -- now injection E.
      * split; [discriminate|]. intros [post E]. injection E. congruence.
Qed.

(** [contains] decides the occurrence of a substring. *)
Lemma contains_occurs (needle hay : string) :
  contains needle hay = true <-> occurs_in needle hay.
Proof.
  unfold occurs_in. induction hay as [|c t IH].
  - cbn [contains]. rewrite orb_false_r, prefix_app. split.
    + intros [post E]. exists EmptyString, post. exact E.
    + intros [[|? ?] [post E]]; [exists post; exact E | discriminate E].
  - cbn [contains]. rewrite orb_true_iff, prefix_app, IH. split.
    + intros [[post E] | [pre [post E]]].
      * exists EmptyString, post. exact E.
      * exists (String c pre), post. simpl. now rewrite E.
    + intros [[|d pre] [post E]].
      * left. exists post. exact E.
      * right. simpl in E. injection E as -> E. exists pre, post. exact E.
Qed.

Lemma has_keyword_occurs (value : option string) (keywords : list string) :
  _has_keyword value keywords = true
  <-> exists k, In k keywords /\ occurs_in k (searched_text value).
Proof.
  unfold _has_keyword. fold (searched_text value).
  rewrite existsb_exists. split; intros [k [Hk H]]; exists k; (split; [exact Hk|]);
    now apply contains_occurs.
Qed.

Lemma lower_ascii_idem (c : ascii) : lower_ascii (lower_ascii c) = lower_ascii c.
Proof.
  destruct c as [[] [] [] [] [] [] [] []]; reflexivity.
Qed.

Lemma lower_idem (s : string) : lower (lower s) = lower s.
Proof.
  induction s as [|c t IH]; simpl; [reflexivity|].
  now rewrite lower_ascii_idem, IH.
Qed.

Lemma dropna_In {V} (c : list (option V)) (v : V) :
  In v (dropna c) <-> In (Some v) c.
Proof.
  induction c as [|[x|] t IH]; simpl.
  - tauto.
  - rewrite IH. split; intros [H | H]; auto; left; congruence.
  - rewrite IH. split; [auto | intros [H | H]; [discriminate | exact H]].
Qed.

(** An interpolated quantile is a weighted mean of two of the values. *)
Lemma quantile_sorted_convex (vals : list Q) (q r : Q) :
  quantile_sorted vals q = Some r ->
  exists a b f, In a vals /\ In b vals /\ (0 <= f <= 1)%Q
                /\ (r == a + (b - a) * f)%Q.
Proof.
  unfold quantile_sorted.
  destruct vals as [|v0 rest] eqn:V; [discriminate|]. rewrite <- V in *.
  intro E. cbv zeta in E.
  set (n := Z.of_nat (List.length vals)) in *.
  set (h := (q * inject_Z (n - 1))%Q) in *.
  set (a := nth (Z.to_nat (Qfloor h)) vals v0) in *.
  set (b := nth (Z.to_nat (Z.min (Qfloor h + 1) (n - 1))) vals v0) in *.
  set (f := (h - inject_Z (Qfloor h))%Q) in *.
  assert (Hv0 : In v0 vals) by (rewrite V; simpl; auto).
  exists a, b, f. repeat split.
  - unfold a. destruct (nth_in_or_default (Z.to_nat (Qfloor h)) vals v0) as [H | ->];
      assumption.
  - unfold b.
    destruct (nth_in_or_default (Z.to_nat (Z.min (Qfloor h + 1) (n - 1))) vals v0)
      as [H | ->]; assumption.
  - unfold f. pose proof (Qfloor_le h). lra.
  - unfold f. pose proof (Qlt_floor h) as L.
    rewrite inject_Z_plus in L. change (inject_Z 1) with 1%Q in L. lra.
  - assert (E' : Qred (a + (b - a) * f) = r) by congruence.
    rewrite <- E'. apply Qred_correct.
Qed.

Lemma is_percentile_iff (q : Q) : is_percentile q = true <-> (0 <= q <= 1)%Q.
Proof.
  unfold is_percentile. rewrite andb_true_iff, !Qle_bool_iff. tauto.
Qed.

Lemma price_quantile_inv (products : list product) (q r : Q) :
  quantile (map prod_price products) q = Ok (Some r) ->
  exists a b f, (exists p, In p products /\ prod_price p = Some a)
                /\ (exists p, In p products /\ prod_price p = Some b)
                /\ (0 <= f <= 1)%Q /\ (r == a + (b - a) * f)%Q.
Proof.
  unfold quantile. destruct (Qle_bool 0 q && Qle_bool q 1); [|discriminate].
  intro E. injection E as E.
  destruct (quantile_sorted_convex _ q r E) as [a [b [f [Ha [Hb [F R]]]]]].
  assert (P : forall v, In v (sort Qle_bool (dropna (map prod_price products))) ->
                        exists p, In p products /\ prod_price p = Some v).
  { intros v Hv. apply sort_In in Hv. apply dropna_In in Hv.
    apply in_map_iff in Hv. destruct Hv as [p [Ep Hp]]. exists p. auto. }
  exists a, b, f. auto.
Qed.

(** The quantile of the prices is at least the lowest price ... *)
Lemma price_quantile_ge (products : list product) (q x r : Q) :
  cheapest products x ->
  quantile (map prod_price products) q = Ok (Some r) -> (x <= r)%Q.
Proof.
  intros C E.
  destruct (price_quantile_inv products q r E)
    as [a [b [f [[pa [Ha Ea]] [[pb [Hb Eb]] [[F0 F1] R]]]]]].
  pose proof (C pa a Ha Ea) as La. pose proof (C pb b Hb Eb) as Lb.
  assert (P1 : (0 <= (a - x) * (1 - f))%Q) by (apply Qmult_le_0_compat; lra).
  assert (P2 : (0 <= (b - x) * f)%Q) by (apply Qmult_le_0_compat; lra).
  lra.
Qed.

(** ... and at most the highest. *)
Lemma price_quantile_le (products : list product) (q x r : Q) :
  dearest products x ->
  quantile (map prod_price products) q = Ok (Some r) -> (r <= x)%Q.
Proof.
  intros C E.
  destruct (price_quantile_inv products q r E)
    as [a [b [f [[pa [Ha Ea]] [[pb [Hb Eb]] [[F0 F1] R]]]]]].
  pose proof (C pa a Ha Ea) as La. pose proof (C pb b Hb Eb) as Lb.
  assert (P1 : (0 <= (x - a) * (1 - f))%Q) by (apply Qmult_le_0_compat; lra).
  assert (P2 : (0 <= (x - b) * f)%Q) by (apply Qmult_le_0_compat; lra).
  lra.
Qed.

(** With a price in the column, the quantile of a percentile is a number. *)
Lemma price_quantile_defined (products : list product) (q : Q) :
  some_price products = true -> is_percentile q = true ->
  exists r, quantile (map prod_price products) q = Ok (Some r).
Proof.
  intros S P. unfold quantile. fold (is_percentile q). rewrite P.
  unfold some_price in S. apply existsb_exists in S.
  destruct S as [[x|] [Hx N]]; [|discriminate N].
  apply dropna_In in Hx. apply (sort_In Qle_bool) in Hx.
  unfold quantile_sorted.
  destruct (sort Qle_bool (dropna (map prod_price products))) as [|v0 rest];
    [contradiction|].
  eexists. reflexivity.
Qed.

(** What [classify_products] returns, when it returns. *)
Lemma classify_products_inv (products : list product) (gq mq : Q)
      (flags : list product_flags) :
  classify_products products gq mq = Ok flags ->
  (some_price products = false /\ flags = map keyword_only products)
  \/ (some_price products = true
      /\ exists lo hi,
           quantile (map prod_price products) gq = Ok lo
           /\ quantile (map prod_price products) mq = Ok hi
           /\ flags
              = map (fun p =>
                       {| pf_productId := prod_id p;
                          pf_productTitle := prod_title p;
                          pf_price := prod_price p;
                          is_gateway_product :=
                            match lo with
                            | Some l =>
                                _has_keyword (prod_title p) GATEWAY_PRODUCT_KEYWORDS
                                || price_le (prod_price p) l
                            | None =>
                                _has_keyword (prod_title p) GATEWAY_PRODUCT_KEYWORDS
                            end;
                          is_mentorship_product :=
                            match hi with
                            | Some h =>
                                _has_keyword (prod_title p) MENTORSHIP_KEYWORDS
                                || price_ge (prod_price p) h
                            | None => _has_keyword (prod_title p) MENTORSHIP_KEYWORDS
                            end |}) products).
Proof.
  unfold classify_products, some_price.
  destruct (existsb notna (map prod_price products)).
  - destruct (quantile (map prod_price products) gq) as [lo|e]; cbn [bind];
      [|discriminate].
    destruct (quantile (map prod_price products) mq) as [hi|e]; cbn [bind];
      [|discriminate].
    intro E. right. split; [reflexivity|]. exists lo, hi.
    split; [reflexivity|]. split; [reflexivity|]. congruence.
  - cbn [bind]. intro E. left. split; [reflexivity|].
    unfold keyword_only. congruence.
Qed.

Lemma quantile_raises (c : list (option Q)) (q : Q) :
  is_percentile q = false -> quantile c q = Raise ValueError.
Proof.
  unfold quantile, is_percentile. now intros ->.
Qed.

End ClassifyFacts.

Import ClassifySpec.



(** X9. When [classify_products] returns, it returns one row per product,
    in the order of the products and with their id, title and price; a
    product whose title holds a gateway keyword is a gateway product and
    one whose title holds a mentorship keyword is a mentorship product,
    whatever the prices; and a product without a price is classified by
    its title alone, also when other products have prices. *)
Theorem classify_products_rows :
  forall (products : list product) (gateway_quantile mentorship_quantile : Q)
         (flags : list product_flags),
    classify_products products gateway_quantile mentorship_quantile = Ok flags ->
    map pf_productId flags = map prod_id products
    /\ map pf_productTitle flags = map prod_title products
    /\ map pf_price flags = map prod_price products
    /\ forall (p : product) (f : product_flags),
         In (p, f) (combine products flags) ->
         (_has_keyword (prod_title p) GATEWAY_PRODUCT_KEYWORDS = true ->
          is_gateway_product f = true)
         /\ (_has_keyword (prod_title p) MENTORSHIP_KEYWORDS = true ->
             is_mentorship_product f = true)
         /\ (prod_price p = None -> f = keyword_only p).
Proof.
  intros products gq mq flags H.
  destruct (ClassifyFacts.classify_products_inv products gq mq flags H)
    as [[_ ->] | [_ [lo [hi [_ [_ ->]]]]]].
  - rewrite !map_map. cbn [keyword_only pf_productId pf_productTitle pf_price].
    split; [reflexivity|]. split; [reflexivity|]. split; [reflexivity|].
    intros p f Hin. apply GatewayFacts.combine_map_In in Hin. destruct Hin as [_ ->].
    split; [|split]; intro K; [exact K | exact K | reflexivity].
  - rewrite !map_map. cbn [pf_productId pf_productTitle pf_price].
    split; [reflexivity|]. split; [reflexivity|]. split; [reflexivity|].
    intros p f Hin. apply GatewayFacts.combine_map_In in Hin. destruct Hin as [_ ->].
    split; [|split]; intro K.
    + cbn [is_gateway_product]. rewrite K. destruct lo; reflexivity.
    + cbn [is_mentorship_product]. rewrite K. destruct hi; reflexivity.
    + unfold keyword_only. rewrite K. cbn [price_le price_ge].
      destruct lo, hi; rewrite ?orb_false_r; reflexivity.
Qed.

Lemma classify_products_rows_witness :
  map pf_productId Scenario.prod_flags = map prod_id Scenario.products
  /\ map pf_productTitle Scenario.prod_flags = map prod_title Scenario.products
  /\ map pf_price Scenario.prod_flags = map prod_price Scenario.products
  /\ forall (p : product) (f : product_flags),
       In (p, f) (combine Scenario.products Scenario.prod_flags) ->
       (_has_keyword (prod_title p) GATEWAY_PRODUCT_KEYWORDS = true ->
        is_gateway_product f = true)
       /\ (_has_keyword (prod_title p) MENTORSHIP_KEYWORDS = true ->
           is_mentorship_product f = true)
       /\ (prod_price p = None -> f = keyword_only p).
Proof.
  apply (classify_products_rows Scenario.products Scenario.gateway_quantile
                                Scenario.mentorship_quantile Scenario.prod_flags).
  reflexivity.
Defined.

(** X10. When [classify_products] returns, a product at the lowest price of
    the priced products is a gateway product and one at the highest price
    is a mentorship product, whatever the two quantiles and the titles:
    a quantile of the prices never lies below the lowest or above the
    highest of them.  So where every priced product has the same price,
    each of them is both. *)
Theorem price_extremes_flagged :
  forall (products : list product) (gateway_quantile mentorship_quantile : Q)
         (flags : list product_flags) (p : product) (f : product_flags) (x : Q),
    classify_products products gateway_quantile mentorship_quantile = Ok flags ->
    In (p, f) (combine products flags) ->
    prod_price p = Some x ->
    (cheapest products x -> is_gateway_product f = true)
    /\ (dearest products x -> is_mentorship_product f = true).
Proof.
  intros products gq mq flags p f x H Hin Hp.
  assert (Hp' : In p products) by (eapply in_combine_l; exact Hin).
  assert (S : some_price products = true)
    by (exact (GatewayFacts.priced_has_price products p x Hp' Hp)).
  destruct (ClassifyFacts.classify_products_inv products gq mq flags H)
    as [[N _] | [_ [lo [hi [Elo [Ehi ->]]]]]]; [congruence|].
  apply GatewayFacts.combine_map_In in Hin. destruct Hin as [_ ->].
  cbn [is_gateway_product is_mentorship_product]. rewrite Hp. cbn [price_le price_ge].
  assert (Dlo : exists l, lo = Some l).
  { destruct (is_percentile gq) eqn:G.
    - destruct (ClassifyFacts.price_quantile_defined products gq S G) as [r Er].
      exists r. congruence.
    - rewrite (ClassifyFacts.quantile_raises _ gq G) in Elo. discriminate Elo. }
  assert (Dhi : exists h, hi = Some h).
  { destruct (is_percentile mq) eqn:M.
    - destruct (ClassifyFacts.price_quantile_defined products mq S M) as [r Er].
      exists r. congruence.
    - rewrite (ClassifyFacts.quantile_raises _ mq M) in Ehi. discriminate Ehi. }
  destruct Dlo as [l ->]. destruct Dhi as [h ->]. split; intro C.
  - pose proof (ClassifyFacts.price_quantile_ge products gq x l C Elo) as L.
    apply Qle_bool_iff in L. rewrite L. apply orb_true_r.
  - pose proof (ClassifyFacts.price_quantile_le products mq x h C Ehi) as L.
    apply Qle_bool_iff in L. rewrite L. apply orb_true_r.
Qed.

Lemma price_extremes_flagged_witness :
  _has_keyword (prod_title ScenarioExtra.course_a) GATEWAY_PRODUCT_KEYWORDS = false
  /\ _has_keyword (prod_title ScenarioExtra.course_a) MENTORSHIP_KEYWORDS = false
  /\ is_gateway_product ScenarioExtra.course_a_flags = true
  /\ is_mentorship_product ScenarioExtra.course_a_flags = true.
Proof.
  split; [reflexivity|]. split; [reflexivity|].
  assert (B : forall (p : product) (y : Q),
             In p ScenarioExtra.one_price -> prod_price p = Some y -> (y == 50 # 1)%Q).
  { intros p y Hp E. vm_compute in Hp.
    destruct Hp as [<- | [<- | []]]; injection E as <-; reflexivity. }
  destruct (price_extremes_flagged ScenarioExtra.one_price Scenario.gateway_quantile
              Scenario.mentorship_quantile ScenarioExtra.one_price_flags
              ScenarioExtra.course_a ScenarioExtra.course_a_flags (50 # 1))
    as [G M].
  - reflexivity.
  - vm_compute. tauto.
  - reflexivity.
  - split.
    + apply G. intros p y Hp E. rewrite (B p y Hp E). apply Qle_refl.
    + apply M. intros p y Hp E. rewrite (B p y Hp E). apply Qle_refl.
Defined.

(** X11. [classify_gateway_sessions] returns one row per live session, in
    order and with its id and title, and flags a session as a gateway
    session exactly when its title, in lower case, contains one of the
    gateway session keywords; a session without a title is never one. *)
Theorem gateway_session_keyword :
  forall (live_sessions : list live_session),
    map sf_liveSessionId (classify_gateway_sessions live_sessions)
    = map ls_id live_sessions
    /\ map sf_sessionTitle (classify_gateway_sessions live_sessions)
       = map ls_title live_sessions
    /\ forall s : session_flags,
         In s (classify_gateway_sessions live_sessions) ->
         (is_gateway_session s = true
          <-> exists (title k : string),
                sf_sessionTitle s = Some title
                /\ In k GATEWAY_SESSION_KEYWORDS
                /\ occurs_in k (lower title)).
Proof.
  intro live_sessions. unfold classify_gateway_sessions. rewrite !map_map.
  cbn [sf_liveSessionId sf_sessionTitle]. split; [reflexivity|]. split; [reflexivity|].
  intros s Hs. apply in_map_iff in Hs. destruct Hs as [l [<- _]].
  cbn [is_gateway_session sf_sessionTitle].
  rewrite ClassifyFacts.has_keyword_occurs. split.
  - intros [k [Hk O]]. destruct (ls_title l) as [title|].
    + exists title, k. auto.
    + exfalso.
      assert (F : _has_keyword None GATEWAY_SESSION_KEYWORDS = true).
      { apply ClassifyFacts.has_keyword_occurs. exists k. auto. }
      vm_compute in F. discriminate F.
  - intros [title [k [E [Hk O]]]]. exists k. rewrite E. auto.
Qed.


Lemma gateway_session_keyword_witness :
  is_gateway_session ScenarioExtra.intro_webinar = true
  /\ exists (title k : string),
       sf_sessionTitle ScenarioExtra.intro_webinar = Some title
       /\ In k GATEWAY_SESSION_KEYWORDS
       /\ occurs_in k (lower title).
Proof.
  split; [reflexivity|].
  apply (proj1 (proj2 (proj2 (gateway_session_keyword Scenario.live_sessions))
                      ScenarioExtra.intro_webinar
                      ltac:(vm_compute; tauto))).
  reflexivity.
Defined.

(* ===================================================================== *)
(** * Further properties of the engagement scoring *)
(* ===================================================================== *)

Lemma col_max_None (c : list timestamp) :
  col_max c = None <-> forall x, In x c -> x = None.
Proof.
  induction c as [|a rest IH]; simpl.
  - split; [intros _ x [] | reflexivity].
  - destruct a as [x|]; simpl.
    + split.
      * destruct (col_max rest); discriminate.
      * intro H. specialize (H (Some x) (or_introl eq_refl)). discriminate H.
    + rewrite IH. split.
      * intros H x [<- | Hx]; [reflexivity | exact (H x Hx)].
      * intros H x Hx. apply H. right. exact Hx.
Qed.

Lemma col_max_Some (c : list timestamp) (m : Z) :
  col_max c = Some m <-> In (Some m) c /\ forall t, In (Some t) c -> t <= m.
Proof.
  revert m. induction c as [|a rest IH]; intro m; simpl.
  - split; [discriminate | tauto].
  - destruct a as [x|]; simpl.
    + destruct (col_max rest) as [y|] eqn:E.
      * specialize (IH y). destruct IH as [IH _]. specialize (IH eq_refl).
        destruct IH as [Hy Hmax]. split.
        -- intro H. injection H as <-. split.
           ++ destruct (Z.max_spec x y) as [[_ ->] | [_ ->]]; auto.
           ++ intros t [Ht | Ht]; [injection Ht as <-; lia|].
              specialize (Hmax t Ht). lia.
        -- intros [Hin Hle]. f_equal.
           assert (x <= m) by (apply Hle; auto).
           assert (y <= m) by (apply Hle; auto).
           destruct Hin as [Hin | Hin]; [injection Hin as <-; lia|].
           specialize (Hmax m Hin). lia.
      * pose proof (proj1 (col_max_None rest) E) as N. split.
        -- intro H. injection H as <-. split; [auto|].
           intros t [Ht | Ht]; [injection Ht as <-; lia|].
           apply N in Ht. discriminate Ht.
        -- intros [[Hin | Hin] _]; [assumption|].
           apply N in Hin. discriminate Hin.
    + rewrite IH. split.
      * intros [Hin Hle]. split; [auto|]. intros t [Ht | Ht]; [discriminate Ht | auto].
      * intros [[Hin | Hin] Hle]; [discriminate Hin|]. split; auto.
Qed.

(** A left join keeps the rows of its left side, in order, when no row has
    two partners. *)
Lemma merge_left_single {L R} (on : L -> R -> bool) (left : list L) (right : list R) :
  (forall a, In a left -> (List.length (filter (on a) right) <= 1)%nat) ->
  map fst (merge_left on left right) = left.
Proof.
  unfold merge_left. induction left as [|a rest IH]; intro H; [reflexivity|].
  cbn [flat_map]. rewrite map_app, IH by (intros x Hx; apply H; right; exact Hx).
  specialize (H a (or_introl eq_refl)).
  destruct (filter (on a) right) as [|b [|b' ms]]; [reflexivity | reflexivity |].
  simpl in H. lia.
Qed.

(** A left join neither drops nor invents a row of its left side. *)
Lemma merge_left_fst_In {L R} (on : L -> R -> bool) (left : list L) (right : list R)
      (a : L) :
  In a (map fst (merge_left on left right)) <-> In a left.
Proof.
  rewrite in_map_iff. split.
  - intros [[x ob] [E H]]. cbn [fst] in E. subst x.
    apply merge_left_In in H. tauto.
  - intro H. destruct (AttributionFacts.merge_left_total on left right a H) as [ob Hob].
    exists (a, ob). auto.
Qed.

Lemma filter_single {R K} (k : R -> K) (p : R -> bool) (rows : list R) :
  NoDup (map k rows) ->
  (forall x y, In x rows -> In y rows -> p x = true -> p y = true -> k x = k y) ->
  (List.length (filter p rows) <= 1)%nat.
Proof.
  induction rows as [|r rest IH]; intros ND H; [simpl; lia|].
  simpl in ND. inversion ND as [|? ? Hnot ND']; subst.
  assert (IH' : (List.length (filter p rest) <= 1)%nat).
  { apply IH; [exact ND'|]. intros x y Hx Hy. apply H; right; assumption. }
  cbn [filter]. destruct (p r) eqn:Pr; [|exact IH'].
  destruct (filter p rest) as [|y ys] eqn:F; [simpl; lia|].
  exfalso. apply Hnot.
  assert (Hy : In y (filter p rest)) by (rewrite F; left; reflexivity).
  apply filter_In in Hy. destruct Hy as [Hy Py].
  rewrite (H r y (or_introl eq_refl) (or_intror Hy) Pr Py). now apply in_map.
Qed.

Lemma pair_eqb_eq (a b : key * key) : Engagement.pair_eqb a b = true <-> a = b.
Proof.
  destruct a as [a1 a2], b as [b1 b2]. unfold Engagement.pair_eqb. cbn [fst snd].
  rewrite andb_true_iff, !key_eqb_eq. split; [intros [-> ->]; reflexivity|].
  intro E. injection E as -> ->. auto.
Qed.

(** Two windows that do not overlap share no event. *)
Lemma filter_disjoint_length {R} (p w1 w2 : R -> bool) (rows : list R) :
  (forall r, w1 r = true -> w2 r = true -> False) ->
  (List.length (filter (fun r => p r && w1 r) rows)
   + List.length (filter (fun r => p r && w2 r) rows)
   <= List.length (filter p rows))%nat.
Proof.
  intro D. induction rows as [|r rest IH]; [simpl; lia|].
  cbn [filter]. destruct (p r); cbn [andb]; [|exact IH].
  destruct (w1 r) eqn:W1, (w2 r) eqn:W2; cbn [List.length]; try lia.
  exfalso. exact (D r W1 W2).
Qed.

Module ScoringFacts.
Import Engagement EngagementSpec ScoringSpec.

Lemma inactive_since_eq (last max_date : timestamp) :
  isna last || ts_lt last (ts_sub max_date (Timedelta_days 30))
  = inactive_since last max_date.
Proof.
  destruct last as [t|], max_date as [m|]; reflexivity.
Qed.

Lemma count_between_disjoint {R} (user : key) (paid_at : Z)
      (uid : R -> key) (time_col : R -> timestamp) (df : list R)
      (lo1 hi1 lo2 hi2 : Z) :
  hi1 < lo2 ->
  (_count_between user paid_at uid time_col df lo1 hi1
   + _count_between user paid_at uid time_col df lo2 hi2
   <= user_events uid user df)%nat.
Proof.
  intro Lt. unfold _count_between, user_events.
  pose proof (filter_disjoint_length
                (fun r => cell_eqb (uid r) user)
                (fun r => ts_ge (time_col r) (Some (paid_at + Timedelta_days lo1))
                          && ts_le (time_col r) (Some (paid_at + Timedelta_days hi1)))
                (fun r => ts_ge (time_col r) (Some (paid_at + Timedelta_days lo2))
                          && ts_le (time_col r) (Some (paid_at + Timedelta_days hi2)))
                df) as D.
  cbv beta in D.
  assert (X : forall lo hi,
             filter (fun r => cell_eqb (uid r) user
                              && ts_ge (time_col r) (Some (paid_at + Timedelta_days lo))
                              && ts_le (time_col r) (Some (paid_at + Timedelta_days hi)))
                    df
             = filter (fun r => cell_eqb (uid r) user
                                && (ts_ge (time_col r)
                                          (Some (paid_at + Timedelta_days lo))
                                    && ts_le (time_col r)
                                             (Some (paid_at + Timedelta_days hi))))
                      df).
  { intros lo hi. apply filter_ext. intro r. now rewrite andb_assoc. }
  rewrite !X. apply D. intros r W1 W2.
  apply andb_prop in W1, W2. destruct W1 as [_ W1]. destruct W2 as [W2 _].
  unfold ts_ge, ts_le, Timedelta_days in *.
  destruct (time_col r) as [x|]; [|discriminate W1].
  apply Z.leb_le in W1, W2. unfold day_ns in *. lia.
Qed.

Lemma count_between_null {R} (paid_at : Z)
      (uid : R -> key) (time_col : R -> timestamp) (df : list R) (lo hi : Z) :
  _count_between None paid_at uid time_col df lo hi = 0%nat.
Proof.
  unfold _count_between. induction df as [|r rest IH]; [reflexivity|].
  cbn [filter]. replace (cell_eqb (uid r) None) with false by now destruct (uid r).
  exact IH.
Qed.

(** Each row of the buyer's-remorse table is made from one payment. *)
Lemma remorse_row_inv (payments : list payment)
      (live_session_attendance : list attendance_event)
      (assignment_submissions : list submission) (login_history : list login)
      (r : remorse_row) :
  In r (buyers_remorse_window payments live_session_attendance
                              assignment_submissions login_history) ->
  exists pay paid_at,
    In pay payments /\ is_paid_event pay = true /\ pay_paidAt pay = Some paid_at
    /\ r = {| rr_userId := pay_userId pay;
              rr_paidAt := paid_at;
              week1_attendance :=
                _count_between (pay_userId pay) paid_at att_studentId att_attendedAt
                               live_session_attendance 0 7;
              week4_attendance :=
                _count_between (pay_userId pay) paid_at att_studentId att_attendedAt
                               live_session_attendance 22 28;
              week1_submissions :=
                _count_between (pay_userId pay) paid_at sub_studentId sub_submittedAt
                               assignment_submissions 0 7;
              week4_submissions :=
                _count_between (pay_userId pay) paid_at sub_studentId sub_submittedAt
                               assignment_submissions 22 28;
              week1_logins :=
                _count_between (pay_userId pay) paid_at lg_userId lg_timestamp
                               (filter successful login_history) 0 7;
              week4_logins :=
                _count_between (pay_userId pay) paid_at lg_userId lg_timestamp
                               (filter successful login_history) 22 28 |}.
Proof.
  unfold buyers_remorse_window. rewrite in_flat_map. intros [pay [Hpay Hr]].
  apply filter_In in Hpay. destruct Hpay as [Hpay Hpaid].
  apply filter_In in Hpay. destruct Hpay as [Hpay Hstatus].
  destruct (pay_paidAt pay) as [paid_at|] eqn:P; [|destruct Hr].
  destruct Hr as [<- | []].
  exists pay, paid_at. split; [exact Hpay|]. split.
  - unfold is_paid_event. now rewrite Hstatus, P.
  - split; [exact P | reflexivity].
Qed.

Section Completion.
Variable enrollments : list enrollment.
Variable assignment_completion : list assignment_completion_row.
Variable attendance : list attendance_row.

Lemma completion_pairs_In (p : key * key) :
  In p (map row_pair (build_completion enrollments assignment_completion attendance))
  <-> In p (enrolled_pairs enrollments).
Proof.
  unfold build_completion. rewrite map_map.
  set (d := distinct pair_eqb _).
  set (m1 := merge_left _ d assignment_completion).
  set (m2 := merge_left _ m1 attendance).
  assert (E : map (fun x => row_pair (completion_of x)) m2 = map fst (map fst m2)).
  { rewrite map_map. apply map_ext. intros [[[u c] ac] att]. reflexivity. }
  rewrite E. rewrite in_map_iff. split.
  - intros [[e ac] [<- H]]. cbn [fst].
    unfold m2 in H. apply merge_left_fst_In in H.
    apply (in_map fst) in H. cbn [fst] in H.
    unfold m1 in H. apply merge_left_fst_In in H. unfold d in H.
    exact (proj1 (distinct_In pair_eqb pair_eqb_eq e _) H).
  - intro H.
    assert (H1 : In p (map fst m1)).
    { unfold m1. apply (proj2 (merge_left_fst_In _ _ _ _)). unfold d.
      exact (proj2 (distinct_In pair_eqb pair_eqb_eq p _) H). }
    apply in_map_iff in H1. destruct H1 as [x [Ex Hx]].
    exists x. split; [exact Ex|].
    unfold m2. apply (proj2 (merge_left_fst_In _ _ _ _)). exact Hx.
Qed.

Lemma completion_pairs_eq :
  NoDup (map ac_pair assignment_completion) ->
  NoDup (map at_userId attendance) ->
  map row_pair (build_completion enrollments assignment_completion attendance)
  = distinct pair_eqb (enrolled_pairs enrollments).
Proof.
  intros NDac NDat. unfold build_completion. rewrite map_map.
  set (d := distinct pair_eqb _).
  set (m1 := merge_left _ d assignment_completion).
  set (m2 := merge_left _ m1 attendance).
  assert (E : map (fun x => row_pair (completion_of x)) m2 = map fst (map fst m2)).
  { rewrite map_map. apply map_ext. intros [[[u c] ac] att]. reflexivity. }
  rewrite E. unfold m2. rewrite merge_left_single.
  - unfold m1. apply merge_left_single. intros e _.
    apply (filter_single ac_pair); [exact NDac|].
    intros x y _ _ Hx Hy. apply andb_prop in Hx, Hy.
    destruct Hx as [X1 X2]. destruct Hy as [Y1 Y2].
    apply key_eqb_eq in X1, X2, Y1, Y2. unfold ac_pair. congruence.
  - intros l _. apply (filter_single at_userId); [exact NDat|].
    intros x y _ _ Hx Hy. apply key_eqb_eq in Hx, Hy. congruence.
Qed.
End Completion.
End ScoringFacts.

Module AttendanceFacts.
Import Engagement EngagementSpec.

(** The rate over a non-zero count is the exact fraction. *)
Lemma rate_of_counts (a n : nat) :
  n <> 0%nat ->
  fdiv (of_count a) (replace0_nan (of_count n))
  = Fin (Qred (inject_Z (Z.of_nat a) / inject_Z (Z.of_nat n))).
Proof.
  intro N. unfold of_count, replace0_nan.
  assert (P : (0 < inject_Z (Z.of_nat n))%Q).
  { change 0%Q with (inject_Z 0). rewrite <- Zlt_Qlt. lia. }
  assert (E : Qeq_bool (inject_Z (Z.of_nat n)) 0 = false).
  { apply not_true_is_false. intro H. apply Qeq_bool_iff in H. rewrite H in P.
    exact (Qlt_irrefl 0 P). }
  rewrite E. unfold fdiv, Qsign.
  assert (C : (0 ?= inject_Z (Z.of_nat n))%Q = Lt) by (apply Qlt_alt; exact P).
  rewrite C. reflexivity.
Qed.

Lemma rate_of_zero (a : nat) :
  fdiv (of_count a) (replace0_nan (of_count 0)) = NaN.
Proof.
  reflexivity.
Qed.

Lemma fraction_nonneg (a n : nat) :
  (0 <= Qred (inject_Z (Z.of_nat a) / inject_Z (Z.of_nat n)))%Q.
Proof.
  rewrite Qred_correct. unfold Qdiv. apply Qmult_le_0_compat.
  - change 0%Q with (inject_Z 0). rewrite <- Zle_Qle. lia.
  - apply Qinv_le_0_compat. change 0%Q with (inject_Z 0). rewrite <- Zle_Qle. lia.
Qed.
End AttendanceFacts.

Import Engagement EngagementSpec ScoringSpec.

(** X12. In every row of the absconded frame, [timestamp] is the user's
    latest successful login (failed logins do not count), [inactive30]
    holds exactly when the user has no successful login or the latest one
    is more than 30 days before [max_date], so under a null [max_date]
    only for users without any successful login, and [isAbsconded] is the
    conjunction of both rates being below 0.1 and [inactive30]. *)
Theorem absconded_rule :
  forall (enrollments : list enrollment)
         (assignment_completion : list assignment_completion_row)
         (attendance : list attendance_row) (login_history : list login)
         (max_date : timestamp) (r : absconded_row),
    In r (snd (build_completion_and_absconded enrollments assignment_completion
                                              attendance login_history max_date)) ->
    let last := latest_success_login login_history (userId (ab_completion r)) in
    ab_timestamp r = last
    /\ inactive30 r = inactive_since last max_date
    /\ isAbsconded r
       = flt (assignmentCompletionRate (ab_completion r)) (Fin (1 # 10))
         && flt (attendanceRate (ab_completion r)) (Fin (1 # 10))
         && inactive30 r.
Proof.
  intros enrollments ac attendance login_history max_date r.
  rewrite EngagementFacts.absconded_eq, in_map_iff. intros [c [<- _]].
  cbn [absconded_of ab_timestamp ab_completion isAbsconded inactive30].
  fold (lookup_ts (userId c) (last_login login_history)).
  rewrite EngagementFacts.last_login_lookup.
  split; [reflexivity|]. split; [|reflexivity].
  apply ScoringFacts.inactive_since_eq.
Qed.

Lemma absconded_rule_witness :
  ab_timestamp Scenario.bob_c1_absconded = Some (10 * day_ns)
  /\ inactive30 Scenario.bob_c1_absconded = true
  /\ isAbsconded Scenario.bob_c1_absconded = true.
Proof.
  destruct (absconded_rule Scenario.enrollments Scenario.assignment_completion
              Scenario.attendance_table Scenario.login_history Scenario.as_of
              Scenario.bob_c1_absconded)
    as [T [I A]].
  - vm_compute. tauto.
  - split; [exact T|]. split; [exact I|]. rewrite A, I. reflexivity.
Defined.

(** X13. The as-of date of [build_tables]: when some payment has a
    [createdAt], [max_date] is the latest timestamp of the four columns
    it reads (it occurs in one of them and none is later); when no payment
    has one, [max_date] is null whatever the other three columns hold. *)
Theorem max_date_value :
  forall (payments : list payment) (login_history : list login)
         (product_accesses : list product_access)
         (live_session_attendance : list attendance_event),
    let columns :=
      as_of_columns payments login_history product_accesses live_session_attendance in
    let max_date :=
      BuildTables.max_date payments login_history product_accesses
                           live_session_attendance in
    ((exists c, In (Some c) (map pay_createdAt payments)) ->
     exists m, max_date = Some m
               /\ In (Some m) columns
               /\ forall t, In (Some t) columns -> t <= m)
    /\ ((forall c, ~ In (Some c) (map pay_createdAt payments)) -> max_date = None).
Proof.
  intros payments login_history product_accesses live_session_attendance columns
         max_date.
  split.
  - intros [c Hc].
    assert (N : col_max (map pay_createdAt payments) <> None).
    { intro E. pose proof (proj1 (col_max_None _) E (Some c) Hc) as X. discriminate X. }
    unfold max_date.
    rewrite (BuildTablesFacts.max_date_latest payments login_history product_accesses
                                              live_session_attendance N).
    unfold latest_observed.
    change (map pay_createdAt payments ++ map lg_timestamp login_history
            ++ map pa_createdAt product_accesses
            ++ map att_attendedAt live_session_attendance) with columns.
    destruct (col_max columns) as [m|] eqn:E.
    + exists m. split; [reflexivity|]. apply col_max_Some. exact E.
    + exfalso. pose proof (proj1 (col_max_None columns) E (Some c)) as X.
      assert (In (Some c) columns) by (unfold columns, as_of_columns; apply in_or_app; auto).
      specialize (X H). discriminate X.
  - intro H. unfold max_date. apply BuildTablesFacts.max_date_null.
    apply col_max_None. intros [c|] Hx; [|reflexivity].
    exfalso. exact (H c Hx).
Qed.

Lemma max_date_value_witness :
  Scenario.as_of = Some (100 * day_ns)
  /\ BuildTables.max_date [] Scenario.login_history Scenario.product_accesses
                          Scenario.live_session_attendance = None.
Proof.
  split.
  - destruct (proj1 (max_date_value Scenario.payments Scenario.login_history
                                    Scenario.product_accesses
                                    Scenario.live_session_attendance))
      as [m [E _]].
    + exists (0 * day_ns). vm_compute. tauto.
    + reflexivity.
  - apply (proj2 (max_date_value [] Scenario.login_history Scenario.product_accesses
                                 Scenario.live_session_attendance)).
    intros c [].
Defined.

(** X14. In every row of the buyer's-remorse table the two windows of a
    stream are disjoint: the week-1 and week-4 counts together never
    exceed the number of events the paying user has in the stream
    (attendance events, submissions, successful logins).  A payment
    without a user id gets a row whose six counts are all zero. *)
Theorem remorse_windows :
  forall (payments : list payment) (live_session_attendance : list attendance_event)
         (assignment_submissions : list submission) (login_history : list login)
         (r : remorse_row),
    In r (buyers_remorse_window payments live_session_attendance
                                assignment_submissions login_history) ->
    (week1_attendance r + week4_attendance r
     <= user_events att_studentId (rr_userId r) live_session_attendance)%nat
    /\ (week1_submissions r + week4_submissions r
        <= user_events sub_studentId (rr_userId r) assignment_submissions)%nat
    /\ (week1_logins r + week4_logins r
        <= user_events lg_userId (rr_userId r) (filter successful login_history))%nat
    /\ (rr_userId r = None ->
        week1_attendance r = 0%nat /\ week4_attendance r = 0%nat
        /\ week1_submissions r = 0%nat /\ week4_submissions r = 0%nat
        /\ week1_logins r = 0%nat /\ week4_logins r = 0%nat).
Proof.
  intros payments attendance submissions login_history r Hr.
  destruct (ScoringFacts.remorse_row_inv payments attendance submissions login_history
                                         r Hr)
    as [pay [paid_at [_ [_ [_ ->]]]]].
  cbn [rr_userId week1_attendance week4_attendance week1_submissions
       week4_submissions week1_logins week4_logins].
  split; [apply ScoringFacts.count_between_disjoint; lia|].
  split; [apply ScoringFacts.count_between_disjoint; lia|].
  split; [apply ScoringFacts.count_between_disjoint; lia|].
  intros ->. rewrite !ScoringFacts.count_between_null. repeat split.
Qed.

Lemma remorse_windows_witness :
  (week1_attendance ScenarioExtra.ada_first_payment
   + week4_attendance ScenarioExtra.ada_first_payment
   <= user_events att_studentId (Some "ada"%string) Scenario.live_session_attendance)%nat
  /\ week1_attendance ScenarioExtra.ada_first_payment = 2%nat.
Proof.
  split; [|reflexivity].
  apply (remorse_windows (Scenario.payments ++ [ScenarioExtra.anonymous_payment])
                         Scenario.live_session_attendance []
                         Scenario.login_history ScenarioExtra.ada_first_payment).
  vm_compute. tauto.
Defined.

(** X15. The completion frame has a row for an enrollment's (user, course)
    pair, and for no other pair: the left joins neither drop an
    enrollment nor invent one.  When the assignment-completion frame has
    one row per (student, course) and the attendance frame one row per
    user, as the frames [build_attendance] returns have, the completion
    frame holds exactly one row per distinct pair, in the order the pairs
    first occur among the enrollments; the absconded frame has as many
    rows. *)
Theorem completion_rows_per_enrollment :
  forall (enrollments : list enrollment)
         (assignment_completion : list assignment_completion_row)
         (attendance : list attendance_row) (login_history : list login)
         (max_date : timestamp),
    let scored :=
      build_completion_and_absconded enrollments assignment_completion attendance
                                     login_history max_date in
    (forall p, In p (map row_pair (fst scored)) <-> In p (enrolled_pairs enrollments))
    /\ List.length (snd scored) = List.length (fst scored)
    /\ (NoDup (map ac_pair assignment_completion) ->
        NoDup (map at_userId attendance) ->
        map row_pair (fst scored) = distinct pair_eqb (enrolled_pairs enrollments)
        /\ NoDup (map row_pair (fst scored))).
Proof.
  intros enrollments ac attendance login_history max_date scored.
  assert (F : fst scored = build_completion enrollments ac attendance) by reflexivity.
  split; [|split].
  - intro p. rewrite F. apply ScoringFacts.completion_pairs_In.
  - unfold scored. rewrite <- (EngagementFacts.absconded_completion enrollments ac
                                 login_history max_date attendance).
    now rewrite length_map.
  - intros NDac NDat. rewrite F.
    rewrite (ScoringFacts.completion_pairs_eq enrollments ac attendance NDac NDat).
    split; [reflexivity|]. apply (distinct_NoDup pair_eqb pair_eqb_eq).
Qed.

Lemma completion_rows_per_enrollment_witness :
  map row_pair (fst Scenario.scored)
  = [ (Some "ada", Some "c1"); (Some "ada", Some "c2");
      (Some "bob", Some "c1"); (Some "cy", Some "c1") ]%string
  /\ List.length (snd Scenario.scored) = 4%nat.
Proof.
  destruct (completion_rows_per_enrollment Scenario.enrollments Scenario.assignment_completion
              Scenario.attendance_table Scenario.login_history Scenario.as_of)
    as [_ [L U]].
  destruct U as [E _].
  - vm_compute. repeat constructor; simpl; intuition discriminate.
  - apply EngagementFacts.build_attendance_NoDup.
  - split.
    + etransitivity; [exact E | reflexivity].
    + etransitivity; [exact L | reflexivity].
Defined.

(** X16. The attendance frame has exactly one row per user of the
    session-assignment relation (a user who attends without being
    assigned has none).  A row carries the user's numbers of distinct
    assigned and attended sessions; its rate is null exactly when no
    session is assigned, and is otherwise the exact fraction
    attended / assigned, never negative and never infinite. *)
Theorem attendance_rows :
  forall (live_session_assigned : list assigned)
         (live_session_attendance : list attendance_event),
    let table := build_attendance live_session_assigned live_session_attendance in
    NoDup (map at_userId table)
    /\ (forall u, In u (map at_userId table) <-> In u (map asg_userId live_session_assigned))
    /\ forall a, In a table ->
         let assigned := assigned_sessions live_session_assigned (at_userId a) in
         let attended := attended_sessions live_session_attendance (at_userId a) in
         at_assignedSessions a = assigned
         /\ at_attendedSessions a = of_count attended
         /\ (at_attendanceRate a = NaN <-> assigned = 0%nat)
         /\ (assigned <> 0%nat ->
             exists q, at_attendanceRate a = Fin q /\ (0 <= q)%Q
                       /\ (q == inject_Z (Z.of_nat attended)
                                / inject_Z (Z.of_nat assigned))%Q).
Proof.
  intros asg att table.
  split; [apply EngagementFacts.build_attendance_NoDup|].
  unfold table. rewrite EngagementFacts.build_attendance_eq. split.
  - intro u. rewrite map_map. cbn [attendance_of at_userId]. rewrite map_id.
    rewrite group_keys_In. split; [tauto|]. intro H. split; [exact H | discriminate].
  - intros a Ha. apply in_map_iff in Ha. destruct Ha as [u [<- _]].
    cbn [attendance_of at_userId at_assignedSessions at_attendedSessions
         at_attendanceRate].
    split; [reflexivity|]. split; [reflexivity|].
    destruct (Nat.eq_dec (assigned_sessions asg u) 0) as [Z | N].
    + rewrite Z. rewrite AttendanceFacts.rate_of_zero.
      split; [tauto|]. intro H. exfalso. exact (H eq_refl).
    + rewrite (AttendanceFacts.rate_of_counts _ _ N). split.
      * split; [discriminate | intro H; exfalso; exact (N H)].
      * intros _. eexists. split; [reflexivity|]. split.
        -- apply AttendanceFacts.fraction_nonneg.
        -- apply Qred_correct.
Qed.

Lemma attendance_rows_witness :
  at_assignedSessions ScenarioExtra.ada_attendance = 2%nat
  /\ at_attendanceRate ScenarioExtra.ada_attendance = Fin 1
  /\ at_attendanceRate Scenario.bob_attendance = NaN.
Proof.
  destruct (attendance_rows Scenario.live_session_assigned
                            Scenario.live_session_attendance) as [_ [_ R]].
  destruct (R ScenarioExtra.ada_attendance) as [A [_ _]]; [vm_compute; tauto|].
  destruct (R Scenario.bob_attendance) as [_ [_ [B _]]]; [vm_compute; tauto|].
  split; [exact A|]. split; [reflexivity|]. apply B. reflexivity.
Defined.

(* ===================================================================== *)
(** * The completion threshold breakdown *)
(* ===================================================================== *)

Module BreakdownFacts.
Import Engagement CompletionTables.

Lemma bool_sum_map {A} (p : A -> bool) (l : list A) :
  bool_sum (map p l) = List.length (filter p l).
Proof.
  unfold bool_sum. induction l as [|x t IH]; [reflexivity|].
  cbn [map filter]. destruct (p x); cbn [List.length]; now rewrite IH.
Qed.

(** Inclusion and exclusion on two flags of the same rows. *)
Lemma filter_and_length {A} (p q : A -> bool) (l : list A) :
  (List.length (filter p l) + List.length (filter q l)
   = List.length (filter (fun x => p x && q x) l)
     + List.length (filter (fun x => p x || q x) l))%nat.
Proof.
  induction l as [|x t IH]; [reflexivity|].
  cbn [filter]. destruct (p x), (q x); cbn [andb orb List.length]; lia.
Qed.

Lemma filter_length_le {A} (p : A -> bool) (l : list A) :
  (List.length (filter p l) <= List.length l)%nat.
Proof.
  induction l as [|x t IH]; [simpl; lia|].
  cbn [filter]. destruct (p x); cbn [List.length]; lia.
Qed.
End BreakdownFacts.

Import CompletionTables.

(** X17. The completion threshold breakdown of the completion frame has
    three rows, for attendance, assignments and both.  The count of the
    third is the number of rows flagged [isComplete]; it is at most each
    of the other two counts, and the two counts together exceed it by at
    most the number of rows.  On an empty frame the three rates are null;
    otherwise each is the count over the number of rows, within [0, 1],
    and the rate of the third is at most each of the other two. *)
Theorem threshold_breakdown_counts :
  forall (enrollments : list enrollment)
         (assignment_completion : list assignment_completion_row)
         (attendance : list attendance_row) (login_history : list login)
         (max_date : timestamp),
    let completion :=
      fst (build_completion_and_absconded enrollments assignment_completion
                                          attendance login_history max_date) in
    exists att asg both,
      threshold_breakdown completion = [att; asg; both]
      /\ users both = List.length (filter isComplete completion)
      /\ (users both <= users att)%nat
      /\ (users both <= users asg)%nat
      /\ (users att + users asg <= users both + List.length completion)%nat
      /\ (completion = [] -> rate att = NaN /\ rate asg = NaN /\ rate both = NaN)
      /\ (completion <> [] ->
          rate att = Gateway.quotient (users att) (List.length completion)
          /\ rate asg = Gateway.quotient (users asg) (List.length completion)
          /\ rate both = Gateway.quotient (users both) (List.length completion)
          /\ fle (rate both) (rate att) = true
          /\ fle (rate both) (rate asg) = true
          /\ fle (rate att) (Fin 1) = true
          /\ fle (rate asg) (Fin 1) = true).
Proof.
  intros enrollments ac attendance login_history max_date completion.
  assert (C : forall r, In r completion ->
                        isComplete r
                        = fge (assignmentCompletionRate r) threshold_complete
                          && fge (attendanceRate r) threshold_complete).
  { intros r Hr. exact (EngagementFacts.completion_flag enrollments ac attendance r Hr). }
  clearbody completion.
  set (pa := fun r : completion_row => fge (attendanceRate r) threshold_complete).
  set (pb := fun r : completion_row =>
               fge (assignmentCompletionRate r) threshold_complete).
  unfold threshold_breakdown. rewrite !map_map.
  cbn [meet_attendance_70 meet_assignments_70 meet_both_70].
  fold pa pb.
  change (fun x : completion_row => pa x) with pa.
  change (fun x : completion_row => pb x) with pb.
  rewrite !BreakdownFacts.bool_sum_map.
  eexists _, _, _. split; [reflexivity|]. cbn [users rate].
  assert (Lab : (List.length (filter (fun x => pa x && pb x) completion)
                 <= List.length (filter pa completion))%nat).
  { apply filter_length_mono. intros x _ H. apply andb_prop in H. tauto. }
  assert (Lba : (List.length (filter (fun x => pa x && pb x) completion)
                 <= List.length (filter pb completion))%nat).
  { apply filter_length_mono. intros x _ H. apply andb_prop in H. tauto. }
  pose proof (BreakdownFacts.filter_and_length pa pb completion) as IE.
  pose proof (BreakdownFacts.filter_length_le (fun x => pa x || pb x) completion) as LO.
  pose proof (BreakdownFacts.filter_length_le pa completion) as La.
  pose proof (BreakdownFacts.filter_length_le pb completion) as Lb.
  split.
  { apply f_equal. apply filter_ext_in. intros r Hr. rewrite (C r Hr).
    unfold pa, pb. apply andb_comm. }
  split; [exact Lab|]. split; [exact Lba|].
  change (fun x : completion_row =>
            fge (attendanceRate x) threshold_complete
            && fge (assignmentCompletionRate x) threshold_complete)
    with (fun x : completion_row => pa x && pb x).
  split; [lia|].
  destruct completion as [|r0 rest] eqn:E.
  - split; [intros _; repeat split | intro H; exfalso; exact (H eq_refl)].
  - rewrite <- E in *. split; [intro H; rewrite E in H; discriminate H|].
    intros _.
    assert (M : forall B (g : completion_row -> B) (x : float),
               match map g completion with [] => NaN | _ :: _ => x end = x)
      by (intros; rewrite E; reflexivity).
    rewrite !M. unfold bool_mean.
    rewrite !BreakdownFacts.bool_sum_map, !length_map.
    assert (NZ : List.length completion <> 0%nat) by (rewrite E; discriminate).
    split; [reflexivity|]. split; [reflexivity|]. split; [reflexivity|].
    split; [apply ConversionFacts.quotient_mono; assumption|].
    split; [apply ConversionFacts.quotient_mono; assumption|].
    split; apply SummaryFacts.quotient_unit; assumption.
Qed.

Lemma threshold_breakdown_counts_witness :
  map users ScenarioExtra.breakdown = [2; 1; 1]%nat
  /\ List.length (filter isComplete (fst Scenario.scored)) = 1%nat.
Proof.
  destruct (threshold_breakdown_counts Scenario.enrollments
              Scenario.assignment_completion Scenario.attendance_table
              Scenario.login_history Scenario.as_of)
    as [att [asg [both [E [B _]]]]].
  split; [reflexivity|].
  assert (X : nth 2 (threshold_breakdown (fst Scenario.scored)) both = both)
    by (etransitivity; [exact (f_equal (fun l => nth 2 l both) E) | reflexivity]).
  etransitivity; [symmetry; exact B|].
  rewrite <- X. reflexivity.
Defined.

(* ===================================================================== *)
(** * The asset conversion table *)
(* ===================================================================== *)

Lemma list_sum_cons (a : nat) (l : list nat) : list_sum (a :: l) = (a + list_sum l)%nat.
Proof.
  reflexivity.
Qed.

Lemma list_sum_map_add {A} (f g : A -> nat) (l : list A) :
  list_sum (map (fun x => f x + g x)%nat l)
  = (list_sum (map f l) + list_sum (map g l))%nat.
Proof.
  induction l as [|x t IH]; [reflexivity|].
  cbn [map]. rewrite !list_sum_cons, IH. lia.
Qed.

(** Among distinct keys, exactly one is the key of a given row. *)
Lemma indicator_sum (x : key) (ks : list key) :
  NoDup ks -> In x ks ->
  list_sum (map (fun g => if key_eqb x g then 1 else 0)%nat ks) = 1%nat.
Proof.
  induction ks as [|g rest IH]; intros ND H; [destruct H|].
  inversion ND as [|? ? Hnot ND']; subst. cbn [map]. rewrite list_sum_cons.
  destruct (key_eqb x g) eqn:E.
  - apply key_eqb_eq in E. subst g.
    assert (Z : list_sum (map (fun g => if key_eqb x g then 1 else 0)%nat rest) = 0%nat).
    { clear IH ND ND' H. induction rest as [|y t IH]; [reflexivity|].
      cbn [map]. rewrite list_sum_cons.
      destruct (key_eqb x y) eqn:E.
      - apply key_eqb_eq in E. subst y. exfalso. apply Hnot. left. reflexivity.
      - rewrite IH; [reflexivity|]. intro H. apply Hnot. right. exact H. }
    rewrite Z. reflexivity.
  - apply key_eqb_neq in E. destruct H as [H | H]; [congruence|].
    rewrite (IH ND' H). reflexivity.
Qed.

(** The groups of a frame split its rows: their sizes add up to the
    number of rows. *)
Lemma group_partition {A} (k : A -> key) (ks : list key) (rows : list A) :
  NoDup ks -> (forall r, In r rows -> In (k r) ks) ->
  list_sum (map (fun g => List.length (group_of k g rows)) ks) = List.length rows.
Proof.
  intros ND. induction rows as [|r rest IH]; intro H.
  - clear ND H. induction ks as [|g t IH]; [reflexivity|].
    cbn [map]. rewrite list_sum_cons, IH. reflexivity.
  - assert (E : forall g, List.length (group_of k g (r :: rest))
                          = ((if key_eqb (k r) g then 1 else 0)
                             + List.length (group_of k g rest))%nat).
    { intro g. unfold group_of. cbn [filter].
      destruct (key_eqb (k r) g); reflexivity. }
    rewrite (map_ext _ _ E), list_sum_map_add.
    rewrite indicator_sum by (auto; apply H; left; reflexivity).
    rewrite IH by (intros x Hx; apply H; right; exact Hx).
    reflexivity.
Qed.

Lemma filter_comm {A} (p q : A -> bool) (l : list A) :
  filter p (filter q l) = filter q (filter p l).
Proof.
  rewrite !filter_filter. apply filter_ext. intro x. apply andb_comm.
Qed.

Lemma NoDup_tagged {T N} (tag : T) (names : list N) :
  NoDup names -> NoDup (map (fun n => (tag, n)) names).
Proof.
  induction names as [|n rest IH]; intro ND; [constructor|].
  inversion ND as [|? ? Hnot ND']; subst. cbn [map]. constructor; [|exact (IH ND')].
  intro H. apply in_map_iff in H. destruct H as [m [E Hm]].
  injection E as ->. exact (Hnot Hm).
Qed.

Module AssetFacts.
Import Gateway GatewayAssets AssetSpec.

Lemma clean_filter (p : touch -> bool) (l : list touch) :
  clean l -> clean (filter p l).
Proof.
  intros [ND NN]. split.
  - apply filter_keys_NoDup. exact ND.
  - intros t Ht. apply filter_In in Ht. apply NN. tauto.
Qed.

Lemma clean_nunique (l : list touch) :
  clean l -> nunique (map touch_user l) = List.length l.
Proof.
  intros [ND NN]. rewrite nunique_NoDup; [apply length_map | exact ND |].
  intros x Hx. apply in_map_iff in Hx. destruct Hx as [t [<- Ht]]. exact (NN t Ht).
Qed.

(** The rows of one asset type, without the guard on the empty subset. *)
Lemma asset_rows_of_eq (strict : list touch) (ty : touch_type) :
  asset_rows_of strict ty
  = map (fun name =>
           let grp := group_of (name_col ty) name (filter (of_type ty) strict) in
           {| asset_type := ty;
              asset_name := name;
              asset_touches := nunique (map touch_user grp);
              mentorship_converted_14d := count_within days_to_mentorship_paid 14 grp;
              conversion_rate_14d :=
                rate_or_nan (count_within days_to_mentorship_paid 14 grp)
                            (nunique (map touch_user grp)) |})
        (group_keys false (map (name_col ty) (filter (of_type ty) strict))).
Proof.
  unfold asset_rows_of. fold (of_type ty).
  change (fun t => of_type ty t) with (of_type ty).
  destruct (filter (of_type ty) strict) eqn:E; reflexivity.
Qed.

Lemma asset_conversion_eq (touches : list touch) :
  asset_conversion touches
  = flat_map (asset_rows_of (filter (fun t => is_newcomer_strict (t_newcomer t)) touches))
             [touch_session; touch_product].
Proof.
  unfold asset_conversion.
  destruct (filter _ touches) eqn:E; [|reflexivity].
  cbn [flat_map]. rewrite !asset_rows_of_eq. reflexivity.
Qed.

Lemma type_split (l : list touch) (p : touch -> bool) :
  (List.length (filter p (filter (of_type touch_session) l))
   + List.length (filter p (filter (of_type touch_product) l))
   = List.length (filter p l))%nat.
Proof.
  induction l as [|t rest IH]; [reflexivity|].
  unfold of_type in *. cbn [filter].
  destruct (first_touch_type (tn_base (t_newcomer t))); cbn [touch_type_eqb filter];
    destruct (p t); cbn [List.length]; lia.
Qed.

Section Rows.
Variable strict : list touch.
Hypothesis strict_clean : clean strict.

Lemma touches_sum (ty : touch_type) :
  list_sum (map asset_touches (asset_rows_of strict ty))
  = List.length (filter (of_type ty) strict).
Proof.
  rewrite asset_rows_of_eq, map_map. cbn [asset_touches].
  set (subset := filter (of_type ty) strict).
  rewrite <- (group_partition (name_col ty)
                              (group_keys false (map (name_col ty) subset)) subset).
  - f_equal. apply map_ext. intro g. apply clean_nunique.
    unfold group_of. apply clean_filter. apply clean_filter. exact strict_clean.
  - apply group_keys_NoDup.
  - intros r Hr. apply group_keys_In. split; [now apply in_map | discriminate].
Qed.

Lemma converted_sum (ty : touch_type) :
  list_sum (map mentorship_converted_14d (asset_rows_of strict ty))
  = List.length (filter within_14 (filter (of_type ty) strict)).
Proof.
  rewrite asset_rows_of_eq, map_map. cbn [mentorship_converted_14d].
  set (subset := filter (of_type ty) strict).
  rewrite <- (group_partition (name_col ty)
                              (group_keys false (map (name_col ty) subset))
                              (filter within_14 subset)).
  - f_equal. apply map_ext. intro g. unfold count_within, group_of.
    fold within_14. change (fun t => within_14 t) with within_14.
    now rewrite filter_comm.
  - apply group_keys_NoDup.
  - intros r Hr. apply filter_In in Hr. destruct Hr as [Hr _].
    apply group_keys_In. split; [now apply in_map | discriminate].
Qed.

Lemma asset_row_inv (ty : touch_type) (r : asset_row) :
  In r (asset_rows_of strict ty) ->
  asset_type r = ty
  /\ (1 <= asset_touches r)%nat
  /\ (mentorship_converted_14d r <= asset_touches r)%nat
  /\ conversion_rate_14d r
     = quotient (mentorship_converted_14d r) (asset_touches r).
Proof.
  rewrite asset_rows_of_eq, in_map_iff. intros [g [<- Hg]].
  cbn [asset_type asset_touches mentorship_converted_14d conversion_rate_14d].
  set (subset := filter (of_type ty) strict) in *.
  set (grp := group_of (name_col ty) g subset).
  assert (C : clean grp).
  { unfold grp, group_of. apply clean_filter. apply clean_filter.
    exact strict_clean. }
  rewrite (clean_nunique grp C).
  assert (NE : grp <> []).
  { apply group_of_nonempty. apply group_keys_In in Hg. tauto. }
  assert (L1 : (1 <= List.length grp)%nat).
  { destruct grp; [contradiction | simpl; lia]. }
  split; [reflexivity|]. split; [exact L1|]. split.
  - unfold count_within. apply BreakdownFacts.filter_length_le.
  - unfold rate_or_nan. destruct (Nat.eqb_spec (List.length grp) 0); [lia | reflexivity].
Qed.

Lemma asset_names_NoDup (ty : touch_type) :
  NoDup (map asset_name (asset_rows_of strict ty)).
Proof.
  rewrite asset_rows_of_eq, map_map. cbn [asset_name]. rewrite map_id.
  apply group_keys_NoDup.
Qed.
End Rows.

Lemma asset_keys_NoDup (touches : list touch) :
  NoDup (map (fun r => (asset_type r, asset_name r)) (asset_conversion touches)).
Proof.
  rewrite asset_conversion_eq. cbn [flat_map]. rewrite app_nil_r, map_app.
  set (strict := filter _ touches).
  assert (T : forall ty r, In r (asset_rows_of strict ty) -> asset_type r = ty).
  { intros ty r. rewrite asset_rows_of_eq, in_map_iff. intros [g [<- _]]. reflexivity. }
  assert (N : forall ty,
             NoDup (map (fun r => (asset_type r, asset_name r))
                        (asset_rows_of strict ty))).
  { intro ty.
    assert (E : map (fun r => (asset_type r, asset_name r)) (asset_rows_of strict ty)
                = map (fun n => (ty, n)) (map asset_name (asset_rows_of strict ty))).
    { rewrite map_map. apply map_ext_in. intros r Hr. now rewrite (T ty r Hr). }
    rewrite E. apply NoDup_tagged. apply asset_names_NoDup. }
  apply NoDup_app; [apply N | apply N |].
  intros [ty n] H1 H2.
  apply in_map_iff in H1, H2.
  destruct H1 as [r1 [E1 H1]]. destruct H2 as [r2 [E2 H2]].
  apply T in H1, H2. congruence.
Qed.

Lemma asset_totals (touches : list touch) :
  clean touches ->
  let strict := filter (fun t => is_newcomer_strict (t_newcomer t)) touches in
  list_sum (map asset_touches (asset_conversion touches)) = List.length strict
  /\ list_sum (map mentorship_converted_14d (asset_conversion touches))
     = count_within days_to_mentorship_paid 14 strict.
Proof.
  intros C strict.
  assert (Cs : clean strict) by (apply clean_filter; exact C).
  rewrite asset_conversion_eq. fold strict. cbn [flat_map].
  rewrite app_nil_r, !map_app, !list_sum_app.
  rewrite !(touches_sum strict Cs), !(converted_sum strict).
  split.
  - pose proof (type_split strict (fun _ => true)) as S.
    rewrite !(filter_all (fun _ => true)) in S by reflexivity. exact S.
  - unfold count_within. fold within_14.
    change (fun t => within_14 t) with within_14.
    apply type_split.
Qed.
End AssetFacts.

Import GatewayAssets.

(** X18. The asset conversion table has one row per asset type and asset
    title among the strict newcomers' first touches, and none twice.  In
    every row at least one user is counted, the converted users are among
    them, and the 14-day rate is their exact share, between 0 and 1: it
    is never null. *)
Theorem asset_conversion_rows :
  forall (live_sessions : list live_session)
         (live_session_attendance : list attendance_event)
         (live_session_assigned : list assigned)
         (payments : list payment) (products : list product)
         (product_accesses : list product_access)
         (gateway_quantile mentorship_quantile : Q)
         (rows : list asset_row),
    gateway_asset_conversion live_sessions live_session_attendance
                             live_session_assigned payments products
                             product_accesses gateway_quantile mentorship_quantile
    = Ok rows ->
    NoDup (map (fun r => (asset_type r, asset_name r)) rows)
    /\ forall r, In r rows ->
         (1 <= asset_touches r)%nat
         /\ (mentorship_converted_14d r <= asset_touches r)%nat
         /\ conversion_rate_14d r
            = quotient (mentorship_converted_14d r) (asset_touches r)
         /\ fle (Fin 0) (conversion_rate_14d r) = true
         /\ fle (conversion_rate_14d r) (Fin 1) = true.
Proof.
  intros ls lsa lsas payments products accesses gq mq rows.
  unfold gateway_asset_conversion.
  destruct (classify_products products gq mq) as [flags|e]; cbn [bind]; [|discriminate].
  set (ts := touches ls lsa payments flags accesses).
  intro H. assert (E : asset_conversion ts = rows) by congruence. clear H. subst rows.
  split; [apply AssetFacts.asset_keys_NoDup|].
  intros r Hr. rewrite AssetFacts.asset_conversion_eq in Hr.
  apply in_flat_map in Hr. destruct Hr as [ty [_ Hr]].
  assert (C : AssetSpec.clean
                (filter (fun t => is_newcomer_strict (t_newcomer t)) ts)).
  { apply AssetFacts.clean_filter. split.
    - apply TouchFacts.touches_users_NoDup.
    - intros t Ht. exact (AttributionFacts.touches_user_notnull _ _ _ _ _ t Ht). }
  destruct (AssetFacts.asset_row_inv _ C ty r Hr) as [_ [L1 [L2 R]]].
  split; [exact L1|]. split; [exact L2|]. split; [exact R|].
  rewrite R. apply SummaryFacts.quotient_unit; [exact L2 | lia].
Qed.

Lemma asset_conversion_rows_witness :
  asset_touches ScenarioExtra.starter_pack_asset = 2%nat
  /\ fle (conversion_rate_14d ScenarioExtra.starter_pack_asset) (Fin 1) = true.
Proof.
  split; [reflexivity|].
  destruct (asset_conversion_rows
              Scenario.live_sessions Scenario.live_session_attendance
              Scenario.live_session_assigned Scenario.payments Scenario.products
              Scenario.product_accesses Scenario.gateway_quantile
              Scenario.mentorship_quantile ScenarioExtra.asset_table)
    as [_ R]; [reflexivity|].
  destruct (R ScenarioExtra.starter_pack_asset) as [_ [_ [_ [_ U]]]];
    [vm_compute; tauto | exact U].
Defined.

(** X19. The asset conversion table accounts for every strict newcomer
    once: its [touches] add up to the size of the strict cohort in the
    conversion summary, and its 14-day conversions add up to the
    summary's mentorship conversions of that cohort within 14 days. *)
Theorem asset_conversion_totals :
  forall (live_sessions : list live_session)
         (live_session_attendance : list attendance_event)
         (live_session_assigned : list assigned)
         (payments : list payment) (products : list product)
         (product_accesses : list product_access)
         (gateway_quantile mentorship_quantile : Q)
         (out : attribution) (rows : list asset_row) (row : summary_row),
    build_gateway_attribution live_sessions live_session_attendance
                              live_session_assigned payments products
                              product_accesses gateway_quantile mentorship_quantile
    = Ok out ->
    gateway_asset_conversion live_sessions live_session_attendance
                             live_session_assigned payments products
                             product_accesses gateway_quantile mentorship_quantile
    = Ok rows ->
    In row (gateway_conversion_summary out) ->
    sr_cohort row = "newcomer_strict"%string ->
    list_sum (map asset_touches rows) = cohort_size row
    /\ forall s, In s (sr_windows row) -> ws_window s = 14 ->
                 list_sum (map mentorship_converted_14d rows) = mentorship_paid s.
Proof.
  intros ls lsa lsas payments products accesses gq mq out rows row Hb Ha Hrow Hname.
  apply GatewayFacts.build_inv in Hb. destruct Hb as [flags [Hc [_ [Hsum _]]]].
  unfold gateway_asset_conversion in Ha. rewrite Hc in Ha. cbn [bind] in Ha.
  set (ts := touches ls lsa payments flags accesses) in *.
  assert (E : asset_conversion ts = rows) by congruence. clear Ha. subst rows.
  rewrite Hsum in Hrow.
  assert (C : AssetSpec.clean ts).
  { split.
    - apply TouchFacts.touches_users_NoDup.
    - intros t Ht. exact (AttributionFacts.touches_user_notnull _ _ _ _ _ t Ht). }
  destruct (AssetFacts.asset_totals ts C) as [T V].
  pose proof (SummaryFacts.cohort_size_length ls lsa payments flags accesses) as SL.
  fold ts in SL. clearbody ts.
  apply ConversionFacts.summary_row_inv in Hrow. destruct Hrow as [def [Hdef ->]].
  assert (D : def = ("newcomer_strict"%string,
                     fun t => is_newcomer_strict (t_newcomer t))).
  { unfold cohort_defs in Hdef. simpl in Hdef.
    destruct Hdef as [<- | [<- | [<- | [<- | []]]]]; cbn [summary_of sr_cohort] in Hname;
      try discriminate Hname; reflexivity. }
  subst def. split.
  - rewrite T, SL. reflexivity.
  - intros s Hs Hw. cbn [summary_of sr_windows] in Hs.
    apply in_map_iff in Hs. destruct Hs as [w [<- _]].
    cbn [ws_window mentorship_paid] in *. subst w. exact V.
Qed.

Lemma asset_conversion_totals_witness :
  list_sum (map asset_touches ScenarioExtra.asset_table) = 3%nat
  /\ cohort_size ScenarioExtra.summary_strict = 3%nat
  /\ list_sum (map mentorship_converted_14d ScenarioExtra.asset_table)
     = mentorship_paid ScenarioExtra.summary_strict_14d.
Proof.
  destruct (asset_conversion_totals
              Scenario.live_sessions Scenario.live_session_attendance
              Scenario.live_session_assigned Scenario.payments Scenario.products
              Scenario.product_accesses Scenario.gateway_quantile
              Scenario.mentorship_quantile Scenario.attributed
              ScenarioExtra.asset_table ScenarioExtra.summary_strict)
    as [T V].
  - reflexivity.
  - reflexivity.
  - vm_compute. tauto.
  - reflexivity.
  - split; [reflexivity|]. split; [reflexivity|].
    apply V; [vm_compute; tauto | reflexivity].
Defined.

(* ===================================================================== *)
(** * Assignment completion *)
(* ===================================================================== *)

(** Fewer distinct values in a column whose values all occur in another. *)
Lemma nunique_incl (c1 c2 : list key) :
  (forall x, In x c1 -> x <> None -> In x c2) -> (nunique c1 <= nunique c2)%nat.
Proof.
  intro H. unfold nunique. apply NoDup_incl_length.
  - apply (distinct_NoDup key_eqb key_eqb_eq).
  - intros x Hx. apply (proj1 (distinct_In key_eqb key_eqb_eq x _)) in Hx.
    apply (proj2 (distinct_In key_eqb key_eqb_eq x _)).
    apply filter_In in Hx. destruct Hx as [Hx N]. apply filter_In. split; [|exact N].
    apply H; [exact Hx|]. now apply notna_true.
Qed.

Lemma fdiv_counts (a n : nat) :
  n <> 0%nat -> fdiv (of_count a) (of_count n) = Gateway.quotient a n.
Proof.
  intro N. unfold of_count, fdiv, Qsign, Gateway.quotient.
  assert (P : (0 < inject_Z (Z.of_nat n))%Q).
  { change 0%Q with (inject_Z 0). rewrite <- Zlt_Qlt. lia. }
  assert (C : (0 ?= inject_Z (Z.of_nat n))%Q = Lt) by (apply Qlt_alt; exact P).
  rewrite C. reflexivity.
Qed.

Module AssignmentFacts.
Import Engagement AssignmentCompletion AssignmentSpec ScoringSpec.

Section Build.
Variable assignments : list assignment.
Variable assignment_submissions : list submission.
Variable modules : list course_module.

Abbreviation with_course :=
  (AssignmentSpec.with_course assignments assignment_submissions modules).
Abbreviation per_course :=
  (AssignmentSpec.per_course assignments assignment_submissions modules).
Abbreviation submissions :=
  (AssignmentSpec.joined_submissions assignments assignment_submissions modules).
Abbreviation group_pairs :=
  (AssignmentSpec.student_courses assignments assignment_submissions modules).
Abbreviation row_of :=
  (AssignmentSpec.counts_of assignments assignment_submissions modules).

Lemma build_eq :
  fst (build_assignment_completion assignments assignment_submissions modules)
  = map row_of group_pairs.
Proof.
  unfold build_assignment_completion. cbn [fst].
  rewrite (merge_left_unique (fun l : key * key * nat => snd (fst l)) fst)
    by apply groupby_agg_NoDup.
  etransitivity; [apply map_map|]. etransitivity; [apply map_map|].
  apply map_ext. intro g. reflexivity.
Qed.

Lemma group_pairs_NoDup : NoDup group_pairs.
Proof.
  apply sort_NoDup, (distinct_NoDup pair_eqb pair_eqb_eq).
Qed.

Lemma group_pairs_In (g : key * key) :
  In g group_pairs <-> exists r, In r submissions /\ cs_pair r = g.
Proof.
  unfold student_courses.
  rewrite sort_In, (distinct_In pair_eqb pair_eqb_eq), in_map_iff.
  split; intros [r [A B]]; exists r; auto.
Qed.

Lemma pairs_NoDup :
  NoDup (map cc_pair
             (fst (build_assignment_completion assignments assignment_submissions
                                               modules))).
Proof.
  rewrite build_eq, map_map.
  assert (E : map (fun g => cc_pair (row_of g)) group_pairs = group_pairs).
  { rewrite <- (map_id group_pairs) at 2. apply map_ext. intros [s c]. reflexivity. }
  rewrite E. apply group_pairs_NoDup.
Qed.

(** A submission row with a course was joined to an assignment of the
    course, with the id the submission names. *)
Lemma submission_course (r : course_submission) (c : string) :
  In r submissions -> cs_courseId r = Some c ->
  exists a, In a with_course /\ awc_courseId a = Some c
            /\ awc_id a = cs_assignmentId r.
Proof.
  unfold joined_submissions. rewrite in_map_iff. intros [[s oa] [<- H]] E.
  cbn [cs_courseId cs_assignmentId fst snd] in *.
  apply merge_left_In in H. destruct H as [_ H].
  destruct oa as [a|]; [|discriminate E].
  destruct H as [Ha K]. apply key_eqb_eq in K.
  exists a. auto.
Qed.

Lemma student_notnull (r : course_submission) :
  In r submissions -> cs_studentId r <> None.
Proof.
  unfold joined_submissions. rewrite in_map_iff. intros [[s oa] [<- _]]. discriminate.
Qed.

Lemma row_student (r : completion_counts) :
  In r (fst (build_assignment_completion assignments assignment_submissions
                                         modules)) ->
  cc_studentId r <> None.
Proof.
  rewrite build_eq, in_map_iff. intros [g [<- Hg]].
  apply group_pairs_In in Hg. destruct Hg as [r0 [Hr0 <-]].
  exact (student_notnull r0 Hr0).
Qed.

Lemma row_counts (r : completion_counts) :
  In r (fst (build_assignment_completion assignments assignment_submissions
                                         modules)) ->
  cc_courseId r <> None ->
  exists total,
    totalAssignments r = Some total
    /\ (submittedAssignments r <= total)%nat
    /\ cc_assignmentCompletionRate r
       = fdiv (of_count (submittedAssignments r)) (of_count total).
Proof.
  rewrite build_eq, in_map_iff. intros [g [<- Hg]].
  cbn [counts_of cc_courseId]. intro N.
  destruct (snd g) as [c|] eqn:Ec; [clear N | congruence].
  apply group_pairs_In in Hg. destruct Hg as [r0 [Hr0 E0]].
  assert (Ec0 : cs_courseId r0 = Some c) by (rewrite <- Ec, <- E0; reflexivity).
  destruct (submission_course r0 c Hr0 Ec0) as [a0 [Ha0 [Ca0 _]]].
  unfold AssignmentSpec.counts_of.
  cbn [totalAssignments submittedAssignments cc_assignmentCompletionRate].
  rewrite Ec. unfold AssignmentSpec.per_course.
  rewrite groupby_agg_lookup, existsb_group_keys.
  assert (X : existsb (key_eqb (Some c)) (map awc_courseId with_course) = true).
  { apply existsb_exists. exists (Some c). split.
    - rewrite <- Ca0. now apply in_map.
    - apply key_eqb_refl. }
  rewrite X. cbn [option_map snd].
  eexists. split; [reflexivity|]. split; [|reflexivity].
  apply nunique_incl. intros x Hx Nx.
  apply in_map_iff in Hx. destruct Hx as [r [<- Hr]].
  apply filter_In in Hr. destruct Hr as [Hr P].
  apply pair_eqb_eq in P.
  assert (Cr : cs_courseId r = Some c) by (rewrite <- Ec, <- P; reflexivity).
  destruct (submission_course r c Hr Cr) as [a [Ha [Ca Ia]]].
  rewrite <- Ia. apply in_map. unfold group_of. apply filter_In. split; [exact Ha|].
  rewrite Ca. apply key_eqb_refl.
Qed.
End Build.
End AssignmentFacts.

Import AssignmentCompletion.

(** X20. [build_assignment_completion] returns one row per (student,
    course) pair of the joined submissions, no pair twice and no row
    without a student.  In a row of a course, the total is known and the
    submitted assignments are among the course's assignments: the rate is
    their exact share, between 0 and 1, or null when the course's
    assignments and the submissions all lack an id; it never exceeds 1
    and is never infinite. *)
Theorem assignment_completion_rows :
  forall (assignments : list assignment) (assignment_submissions : list submission)
         (modules : list course_module),
    let rows :=
      fst (build_assignment_completion assignments assignment_submissions modules) in
    NoDup (map cc_pair rows)
    /\ forall r, In r rows ->
         cc_studentId r <> None
         /\ (cc_courseId r <> None ->
             exists total,
               totalAssignments r = Some total
               /\ (submittedAssignments r <= total)%nat
               /\ (total = 0%nat -> cc_assignmentCompletionRate r = NaN)
               /\ (total <> 0%nat ->
                   cc_assignmentCompletionRate r
                   = Gateway.quotient (submittedAssignments r) total
                   /\ fle (Fin 0) (cc_assignmentCompletionRate r) = true
                   /\ fle (cc_assignmentCompletionRate r) (Fin 1) = true)).
Proof.
  intros assignments subs modules rows. split.
  - apply AssignmentFacts.pairs_NoDup.
  - intros r Hr. split.
    + exact (AssignmentFacts.row_student assignments subs modules r Hr).
    + intro N.
      destruct (AssignmentFacts.row_counts assignments subs modules r Hr N)
        as [total [T [L R]]].
      exists total. split; [exact T|]. split; [exact L|]. split.
      * intros Z. rewrite R. subst total.
        assert (S0 : submittedAssignments r = 0%nat) by lia.
        rewrite S0. reflexivity.
      * intro NZ. rewrite R, (fdiv_counts _ _ NZ).
        split; [reflexivity|]. apply SummaryFacts.quotient_unit; assumption.
Qed.

Lemma assignment_completion_rows_witness :
  totalAssignments ScenarioExtra.bob_c1_counts = Some 2%nat
  /\ cc_assignmentCompletionRate ScenarioExtra.bob_c1_counts = Fin (1 # 2)
  /\ fle (cc_assignmentCompletionRate ScenarioExtra.bob_c1_counts) (Fin 1) = true.
Proof.
  split; [reflexivity|]. split; [reflexivity|].
  destruct (assignment_completion_rows ScenarioExtra.assignments
              ScenarioExtra.assignment_submissions ScenarioExtra.modules)
    as [_ R].
  destruct (R ScenarioExtra.bob_c1_counts) as [_ C]; [vm_compute; tauto|].
  destruct C as [total [T [_ [_ U]]]]; [discriminate|].
  assert (E : total = 2%nat) by (vm_compute in T; congruence).
  destruct U as [_ [_ U]]; [lia | exact U].
Defined.

(** X21. On the assignment completion [build_assignment_completion]
    computes and the attendance [build_attendance] computes, the
    completion frame holds exactly one row per distinct (user, course)
    pair of the enrollments, in the order the pairs first occur, and the
    absconded frame the same number of rows: no join multiplies an
    enrollment. *)
Theorem scored_rows_unique :
  forall (enrollments : list enrollment)
         (assignments : list assignment) (assignment_submissions : list submission)
         (modules : list course_module)
         (live_session_assigned : list assigned)
         (live_session_attendance : list attendance_event)
         (login_history : list login) (max_date : timestamp),
    let assignment_completion :=
      map completion_columns
          (fst (build_assignment_completion assignments assignment_submissions
                                            modules)) in
    let attendance := build_attendance live_session_assigned live_session_attendance in
    let scored :=
      build_completion_and_absconded enrollments assignment_completion attendance
                                     login_history max_date in
    map row_pair (fst scored) = distinct pair_eqb (enrolled_pairs enrollments)
    /\ NoDup (map row_pair (fst scored))
    /\ List.length (snd scored) = List.length (fst scored).
Proof.
  intros enrollments assignments subs modules asg att login_history max_date
         ac attendance scored.
  assert (F : fst scored = build_completion enrollments ac attendance) by reflexivity.
  assert (E : map row_pair (fst scored) = distinct pair_eqb (enrolled_pairs enrollments)).
  { rewrite F. apply ScoringFacts.completion_pairs_eq.
    - unfold ac. rewrite map_map.
      exact (AssignmentFacts.pairs_NoDup assignments subs modules).
    - apply EngagementFacts.build_attendance_NoDup. }
  split; [exact E|]. split.
  - rewrite E. apply (distinct_NoDup pair_eqb pair_eqb_eq).
  - unfold scored. rewrite <- (EngagementFacts.absconded_completion enrollments ac
                                 login_history max_date attendance).
    now rewrite length_map.
Qed.

Lemma scored_rows_unique_witness :
  map row_pair (fst ScenarioExtra.scored_from_submissions)
  = [ (Some "ada", Some "c1"); (Some "ada", Some "c2");
      (Some "bob", Some "c1"); (Some "cy", Some "c1") ]%string.
Proof.
  etransitivity.
  - exact (proj1 (scored_rows_unique
                    Scenario.enrollments ScenarioExtra.assignments
                    ScenarioExtra.assignment_submissions ScenarioExtra.modules
                    Scenario.live_session_assigned Scenario.live_session_attendance
                    Scenario.login_history Scenario.as_of)).
  - reflexivity.
Defined.

(* ===================================================================== *)
(** * The session summary *)
(* ===================================================================== *)

Lemma nunique_pos (c : list key) (x : string) : In (Some x) c -> (1 <= nunique c)%nat.
Proof.
  intro H. unfold nunique.
  assert (I : In (Some x) (distinct key_eqb (filter notna c))).
  { apply (distinct_In key_eqb key_eqb_eq). apply filter_In. auto. }
  destruct (distinct key_eqb (filter notna c)); [destruct I | simpl; lia].
Qed.

Lemma nunique_nil : nunique [] = 0%nat.
Proof.
  reflexivity.
Qed.

Module SessionFacts.
Import Engagement SessionSummary SessionSpec.

(** The count a left join on a grouped frame brings, once filled. *)
Lemma joined_count_lookup {A V} (k : A -> key) (v : A -> V) (agg : list V -> nat)
      (rows : list A) (g : key) :
  agg [] = 0%nat ->
  joined_count (lookup g (groupby_agg true k v agg rows))
  = of_count (session_count (fun s => agg (map v (group_of k s rows))) g).
Proof.
  intro Z. rewrite groupby_agg_lookup. destruct g as [s|].
  - rewrite existsb_group_keys_dropna. cbn [session_count].
    destruct (existsb (key_eqb (Some s)) (map k rows)) eqn:E; [reflexivity|].
    apply existsb_key_notIn in E. rewrite (group_of_absent k (Some s) rows E).
    cbn [map]. rewrite Z. reflexivity.
  - rewrite existsb_group_keys_null. reflexivity.
Qed.

Section Summary.
Variable live_session_assigned : list assigned.
Variable live_session_attendance : list attendance_event.
Variable live_sessions : list live_session.

(** The row of a live session. *)
Lemma session_new_faces_eq :
  session_new_faces live_session_assigned live_session_attendance live_sessions
  = map (fun s =>
           let assigned :=
             of_count (session_count (assigned_users live_session_assigned)
                                     (ls_id s)) in
           let attended :=
             of_count (session_count (attending_students live_session_attendance)
                                     (ls_id s)) in
           let faces :=
             of_count (session_count (new_face_rows live_session_attendance)
                                     (ls_id s)) in
           {| sn_liveSessionId := ls_id s;
              assignedCount := assigned;
              attendedCount := attended;
              joinRate := fdiv attended (replace0_nan assigned);
              newFaces := faces;
              newFaceRate := fdiv faces (replace0_nan attended) |})
        live_sessions.
Proof.
  unfold session_new_faces.
  rewrite (merge_left_unique ls_id fst) by apply groupby_agg_NoDup.
  rewrite (merge_left_unique
             (fun l : live_session * option (key * nat) => ls_id (fst l)) fst)
    by apply groupby_agg_NoDup.
  rewrite (merge_left_unique
             (fun l : live_session * option (key * nat) * option (key * nat) =>
                ls_id (fst (fst l))) fst)
    by apply groupby_agg_NoDup.
  etransitivity; [apply map_map|]. etransitivity; [apply map_map|].
  etransitivity; [apply map_map|].
  apply map_ext. intro s. cbv beta iota zeta. cbn [fst snd].
  fold (lookup (ls_id s)
               (groupby_agg true asg_liveSessionId asg_userId nunique
                            live_session_assigned)).
  fold (lookup (ls_id s)
               (groupby_agg true att_liveSessionId att_studentId nunique
                            live_session_attendance)).
  fold (lookup (ls_id s)
               (groupby_agg true
                            (fun af : attendance_event * bool =>
                               att_liveSessionId (fst af))
                            snd count_true
                            (flagged_attendance live_session_attendance))).
  rewrite !joined_count_lookup by reflexivity.
  reflexivity.
Qed.

(** A new face is an attendance row of a student. *)
Lemma new_face_student (af : attendance_event * bool) :
  In af (flagged_attendance live_session_attendance) -> snd af = true ->
  In (fst af) live_session_attendance /\ att_studentId (fst af) <> None.
Proof.
  unfold flagged_attendance.
  rewrite (merge_left_unique att_studentId fst) by apply groupby_agg_NoDup.
  rewrite map_map, in_map_iff. intros [a [<- Ha]]. cbn [fst snd]. intro F.
  split; [exact Ha|].
  destruct (find _ _) as [r|] eqn:E.
  - apply find_some in E. destruct E as [Hr K]. apply key_eqb_eq in K.
    rewrite K. exact (groupby_agg_key_notnull _ _ _ _ _ r eq_refl Hr).
  - destruct (att_attendedAt a); discriminate F.
Qed.

Lemma new_faces_attended (s : key) :
  session_count (attending_students live_session_attendance) s = 0%nat ->
  session_count (new_face_rows live_session_attendance) s = 0%nat.
Proof.
  destruct s as [s|]; [|reflexivity]. cbn [session_count].
  unfold attending_students, new_face_rows, count_true. intro Z.
  destruct (filter (fun b : bool => b)
                   (map snd (group_of (fun af : attendance_event * bool =>
                                         att_liveSessionId (fst af))
                                      (Some s)
                                      (flagged_attendance live_session_attendance))))
    as [|b rest] eqn:E; [reflexivity|].
  exfalso.
  assert (Hb : In b (b :: rest)) by (left; reflexivity).
  rewrite <- E in Hb. apply filter_In in Hb. destruct Hb as [Hb Tb].
  apply in_map_iff in Hb. destruct Hb as [af [Eb Haf]].
  unfold group_of in Haf. apply filter_In in Haf. destruct Haf as [Haf K].
  apply key_eqb_eq in K.
  destruct (new_face_student af Haf) as [Ha N]; [congruence|].
  destruct (att_studentId (fst af)) as [u|] eqn:U; [|congruence].
  assert (P : (1 <= nunique (map att_studentId
                                 (group_of att_liveSessionId (Some s)
                                           live_session_attendance)))%nat).
  { apply (nunique_pos _ u). rewrite <- U. apply in_map.
    unfold group_of. apply filter_In. split; [exact Ha|].
    rewrite K. apply key_eqb_refl. }
  lia.
Qed.
End Summary.

Lemma rate_null (a n : nat) :
  fdiv (of_count a) (replace0_nan (of_count n)) = NaN <-> n = 0%nat.
Proof.
  destruct (Nat.eq_dec n 0) as [-> | N].
  - split; reflexivity.
  - rewrite (AttendanceFacts.rate_of_counts a n N). split; [discriminate | contradiction].
Qed.
End SessionFacts.

Import SessionSummary SessionSpec.

(** X22. The session summary [build_attendance] returns has one row per
    live session, in order.  Its counts are the session's distinct
    assigned users, distinct attending students and new-face attendance
    rows, all zero for a session without id.  [joinRate] is null exactly
    when nobody is assigned and [newFaceRate] exactly when nobody
    attended; a session nobody attended has no new face, so neither rate
    is ever infinite. *)
Theorem session_summary_rows :
  forall (live_session_assigned : list assigned)
         (live_session_attendance : list attendance_event)
         (live_sessions : list live_session),
    let rows :=
      session_new_faces live_session_assigned live_session_attendance live_sessions in
    map sn_liveSessionId rows = map ls_id live_sessions
    /\ forall r, In r rows ->
         let assigned :=
           session_count (assigned_users live_session_assigned) (sn_liveSessionId r) in
         let attended :=
           session_count (attending_students live_session_attendance)
                         (sn_liveSessionId r) in
         let faces :=
           session_count (new_face_rows live_session_attendance) (sn_liveSessionId r) in
         assignedCount r = of_count assigned
         /\ attendedCount r = of_count attended
         /\ newFaces r = of_count faces
         /\ joinRate r = fdiv (of_count attended) (replace0_nan (of_count assigned))
         /\ newFaceRate r = fdiv (of_count faces) (replace0_nan (of_count attended))
         /\ (joinRate r = NaN <-> assigned = 0%nat)
         /\ (newFaceRate r = NaN <-> attended = 0%nat)
         /\ (attended = 0%nat -> faces = 0%nat).
Proof.
  intros asg att sessions rows. unfold rows.
  rewrite SessionFacts.session_new_faces_eq. split.
  - rewrite map_map. reflexivity.
  - intros r Hr. apply in_map_iff in Hr. destruct Hr as [s [<- _]].
    cbv zeta.
    cbn [sn_liveSessionId assignedCount attendedCount newFaces joinRate newFaceRate].
    split; [reflexivity|]. split; [reflexivity|]. split; [reflexivity|].
    split; [reflexivity|]. split; [reflexivity|].
    split; [apply SessionFacts.rate_null|].
    split; [apply SessionFacts.rate_null|].
    apply SessionFacts.new_faces_attended.
Qed.

Lemma session_summary_rows_witness :
  map sn_liveSessionId ScenarioExtra.session_table = [Some "s1"; Some "s2"]%string
  /\ map joinRate ScenarioExtra.session_table = [Fin 2; Fin 1].
Proof.
  split; [|reflexivity].
  exact (proj1 (session_summary_rows Scenario.live_session_assigned
                                     Scenario.live_session_attendance
                                     Scenario.live_sessions)).
Defined.

(* ===================================================================== *)
(** * The gap report *)
(* ===================================================================== *)

(** The number of distinct values depends on the values only. *)
Lemma nunique_ext (c1 c2 : list key) :
  (forall x, In x c1 <-> In x c2) -> nunique c1 = nunique c2.
Proof.
  intro H. apply Nat.le_antisymm; apply nunique_incl; intros x Hx _; now apply H.
Qed.

Module OpsFacts.
Import Engagement EngagementSpec Ops OpsSpec.

(** The rows a left join marks [left_only] are those without partner. *)
Lemma left_only_In (left right : list (key * key)) (p : key * key) :
  In p (left_only left right)
  <-> In p left /\ existsb (pair_eqb p) right = false.
Proof.
  unfold left_only. rewrite in_map_iff. split.
  - intros [[a ob] [E H]]. cbn [fst] in E. subst a.
    apply filter_In in H. destruct H as [H N]. cbn [snd] in N.
    destruct ob as [b|]; [discriminate N|].
    apply merge_left_In in H. destruct H as [Hp Hno]. split; [exact Hp|].
    apply not_true_is_false. intro X. apply existsb_exists in X.
    destruct X as [b [Hb Eb]]. rewrite (Hno b Hb) in Eb. discriminate Eb.
  - intros [Hp N]. exists (p, None). split; [reflexivity|].
    apply filter_In. split; [|reflexivity].
    apply merge_left_In. split; [exact Hp|].
    intros b Hb. apply not_true_is_false. intro X.
    assert (Y : existsb (pair_eqb p) right = true)
      by (apply existsb_exists; exists b; auto).
    congruence.
Qed.

Lemma existsb_distinct (p : key * key) (l : list (key * key)) :
  existsb (pair_eqb p) (distinct pair_eqb l) = existsb (pair_eqb p) l.
Proof.
  apply eq_true_iff_eq. rewrite !existsb_exists.
  split; intros [b [Hb E]]; exists b; (split; [|exact E]).
  - exact (proj1 (distinct_In pair_eqb pair_eqb_eq b l) Hb).
  - exact (proj2 (distinct_In pair_eqb pair_eqb_eq b l) Hb).
Qed.

(** The users of a gap, from the pairs as the tables hold them. *)
Lemma gap_users (left right : list (key * key)) :
  nunique (map fst (left_only (distinct pair_eqb left) (distinct pair_eqb right)))
  = unmatched_users left right.
Proof.
  unfold unmatched_users. apply nunique_ext. intro u.
  rewrite !in_map_iff. split; intros [p [E H]]; exists p; (split; [exact E|]).
  - apply left_only_In in H. destruct H as [Hp N].
    rewrite existsb_distinct in N.
    apply filter_In. split.
    + exact (proj1 (distinct_In pair_eqb pair_eqb_eq p left) Hp).
    + now rewrite N.
  - apply filter_In in H. destruct H as [Hp N]. apply negb_true_iff in N.
    apply left_only_In. split.
    + exact (proj2 (distinct_In pair_eqb pair_eqb_eq p left) Hp).
    + now rewrite existsb_distinct.
Qed.

Section Inactive.
Variable login_history : list login.
Variable max_date : timestamp.

Lemma silent_since_eq (u : key) :
  ts_lt (latest_success_login login_history u)
        (ts_sub max_date (Timedelta_days 30))
  = silent_since login_history max_date u.
Proof.
  unfold silent_since.
  destruct (latest_success_login login_history u), max_date; reflexivity.
Qed.

Lemma inactive_user (u : key) :
  existsb (key_eqb u)
          (map fst (filter (fun r => ts_lt (snd r)
                                           (ts_sub max_date (Timedelta_days 30)))
                           (last_login login_history)))
  = silent_since login_history max_date u.
Proof.
  rewrite <- silent_since_eq, <- EngagementFacts.last_login_lookup.
  unfold lookup_ts.
  set (cutoff := ts_sub max_date (Timedelta_days 30)).
  set (frame := last_login login_history).
  assert (ND : NoDup (map fst frame)) by apply groupby_agg_NoDup.
  apply eq_true_iff_eq. rewrite existsb_exists. split.
  - intros [g [Hg K]]. apply key_eqb_eq in K. subst g.
    apply in_map_iff in Hg. destruct Hg as [r [E Hr]].
    apply filter_In in Hr. destruct Hr as [Hr L].
    rewrite <- E, (lookup_unique frame r ND Hr). exact L.
  - intro L. destruct (lookup u frame) as [r|] eqn:E; [|discriminate L].
    apply lookup_In in E. destruct E as [Hr E].
    exists u. split; [|apply key_eqb_refl].
    rewrite <- E. apply in_map. apply filter_In. auto.
Qed.
End Inactive.
End OpsFacts.

Import Ops OpsSpec.

(** X23. The gap report has three rows.  The first counts the distinct
    users with a succeeded payment for a product they have no access to,
    the second the distinct users with access to a product they have no
    succeeded payment for.  The third counts the distinct users with
    access whose latest successful login is more than 30 days before
    [max_date]: a user who never logged in successfully is not counted,
    and under a null [max_date] nobody is. *)
Theorem ops_gap_counts :
  forall (enrollments : list access_row) (payments : list payment)
         (login_history : list login) (max_date : timestamp),
    exists paid assigned silent,
      ops_gap_report enrollments payments login_history max_date
      = [paid; assigned; silent]
      /\ userCount paid
         = unmatched_users (paid_pairs payments) (access_pairs enrollments)
      /\ userCount assigned
         = unmatched_users (access_pairs enrollments) (paid_pairs payments)
      /\ userCount silent
         = nunique (map ar_userId
                        (filter (fun e => silent_since login_history max_date
                                                       (ar_userId e))
                                enrollments))
      /\ (max_date = None -> userCount silent = 0%nat)
      /\ ((forall e, In e enrollments ->
                     latest_success_login login_history (ar_userId e) = None) ->
          userCount silent = 0%nat).
Proof.
  intros enrollments payments login_history max_date.
  unfold ops_gap_report. eexists _, _, _. split; [reflexivity|].
  cbn [userCount].
  fold (paid_pairs payments). fold (access_pairs enrollments).
  rewrite !OpsFacts.gap_users.
  fold (last_login login_history).
  assert (E : filter (fun e => existsb (key_eqb (ar_userId e))
                                       (map fst
                                            (filter (fun r => ts_lt (snd r)
                                                                    (ts_sub max_date
                                                                            (Timedelta_days 30)))
                                                    (last_login login_history))))
                     enrollments
              = filter (fun e => silent_since login_history max_date (ar_userId e))
                       enrollments).
  { apply filter_ext. intro e. apply OpsFacts.inactive_user. }
  rewrite E.
  split; [reflexivity|]. split; [reflexivity|]. split; [reflexivity|].
  assert (Z : (forall e, In e enrollments ->
                         silent_since login_history max_date (ar_userId e) = false) ->
              nunique (map ar_userId
                           (filter (fun e => silent_since login_history max_date
                                                          (ar_userId e))
                                   enrollments)) = 0%nat).
  { intro H.
    assert (F : filter (fun e => silent_since login_history max_date (ar_userId e))
                       enrollments = []).
    { clear E. induction enrollments as [|e rest IH]; [reflexivity|].
      cbn [filter]. rewrite (H e (or_introl eq_refl)).
      apply IH. intros x Hx. apply H. right. exact Hx. }
    rewrite F. reflexivity. }
  split.
  - intros ->. apply Z. intros e _. unfold silent_since.
    destruct (latest_success_login login_history (ar_userId e)); reflexivity.
  - intro H. apply Z. intros e He. unfold silent_since. rewrite (H e He). reflexivity.
Qed.

Lemma ops_gap_counts_witness :
  map userCount ScenarioExtra.gap_report = [1; 1; 1]%nat
  /\ silent_since Scenario.login_history Scenario.as_of (Some "bob"%string) = true
  /\ silent_since Scenario.login_history Scenario.as_of (Some "cy"%string) = false
  /\ map userCount
         (ops_gap_report ScenarioExtra.accesses Scenario.payments
                         Scenario.login_history None)
     = [1; 1; 0]%nat.
Proof.
  split; [reflexivity|]. split; [reflexivity|]. split; [reflexivity|].
  destruct (ops_gap_counts ScenarioExtra.accesses Scenario.payments
                           Scenario.login_history None)
    as [paid [assigned [silent [E [P [A [_ [Z _]]]]]]]].
  rewrite E. cbn [map]. rewrite P, A, (Z eq_refl). reflexivity.
Defined.

(* ===================================================================== *)
(** * Quantiles and the classification *)
(* ===================================================================== *)

Lemma Qle_bool_total (a b : Q) : Qle_bool a b = true \/ Qle_bool b a = true.
Proof.
  rewrite !Qle_bool_iff. destruct (Qlt_le_dec a b) as [H | H]; [left | right].
  - apply Qlt_le_weak. exact H.
  - exact H.
Qed.

Lemma Qle_bool_trans (a b c : Q) :
  Qle_bool a b = true -> Qle_bool b c = true -> Qle_bool a c = true.
Proof.
  rewrite !Qle_bool_iff. apply Qle_trans.
Qed.

(** In a sorted column, a later position holds a value at least as large. *)
Lemma sorted_nth (l : list Q) (d : Q) (i j : nat) :
  StronglySorted (fun a b => Qle_bool a b = true) l ->
  (i <= j)%nat -> (j < List.length l)%nat -> (nth i l d <= nth j l d)%Q.
Proof.
  intro S. revert i j. induction S as [|x rest S IH F]; intros i j Hij Hj.
  - simpl in Hj. lia.
  - destruct i as [|i], j as [|j]; cbn [nth].
    + apply Qle_refl.
    + apply Qle_bool_iff. rewrite Forall_forall in F. apply F.
      apply nth_In. simpl in Hj. lia.
    + lia.
    + apply IH; [lia | simpl in Hj; lia].
Qed.

Module QuantileFacts.
Import Gateway GatewaySpec ClassifySpec.

(** On a sorted column, the interpolated quantile does not decrease with
    the percentile. *)
Lemma quantile_sorted_mono (vals : list Q) (q1 q2 r1 r2 : Q) :
  StronglySorted (fun a b => Qle_bool a b = true) vals ->
  (0 <= q1)%Q -> (q1 <= q2)%Q -> (q2 <= 1)%Q ->
  quantile_sorted vals q1 = Some r1 ->
  quantile_sorted vals q2 = Some r2 ->
  (r1 <= r2)%Q.
Proof.
  intros S Q0 Q12 Q1. unfold quantile_sorted.
  destruct vals as [|v0 rest] eqn:V; [discriminate|]. rewrite <- V in *.
  intros E1 E2. cbv zeta in E1, E2.
  set (n := Z.of_nat (List.length vals)) in *.
  assert (Hn : 1 <= n) by (unfold n; rewrite V; simpl; lia).
  set (h1 := (q1 * inject_Z (n - 1))%Q) in *.
  set (h2 := (q2 * inject_Z (n - 1))%Q) in *.
  set (i1 := Qfloor h1) in *. set (i2 := Qfloor h2) in *.
  set (a1 := nth (Z.to_nat i1) vals v0) in *.
  set (b1 := nth (Z.to_nat (Z.min (i1 + 1) (n - 1))) vals v0) in *.
  set (a2 := nth (Z.to_nat i2) vals v0) in *.
  set (b2 := nth (Z.to_nat (Z.min (i2 + 1) (n - 1))) vals v0) in *.
  set (f1 := (h1 - inject_Z i1)%Q) in *.
  set (f2 := (h2 - inject_Z i2)%Q) in *.
  pose proof (Qred_correct (a1 + (b1 - a1) * f1)) as R1.
  pose proof (Qred_correct (a2 + (b2 - a2) * f2)) as R2.
  assert (E1' : Qred (a1 + (b1 - a1) * f1) = r1) by congruence.
  assert (E2' : Qred (a2 + (b2 - a2) * f2) = r2) by congruence.
  rewrite E1' in R1. rewrite E2' in R2. clear E1 E2 E1' E2'.
  assert (N0 : (0 <= inject_Z (n - 1))%Q).
  { change 0%Q with (inject_Z 0). rewrite <- Zle_Qle. lia. }
  assert (H0 : (0 <= h1)%Q) by (unfold h1; apply Qmult_le_0_compat; assumption).
  assert (H12 : (h1 <= h2)%Q).
  { unfold h1, h2. apply Qmult_le_compat_r; assumption. }
  assert (H2 : (h2 <= inject_Z (n - 1))%Q).
  { unfold h2. setoid_replace (inject_Z (n - 1)) with (1 * inject_Z (n - 1))%Q at 2
      by ring.
    apply Qmult_le_compat_r; assumption. }
  assert (I0 : 0 <= i1).
  { unfold i1. change 0 with (Qfloor (inject_Z 0)). apply Qfloor_resp_le. exact H0. }
  assert (I12 : i1 <= i2) by (unfold i1, i2; apply Qfloor_resp_le; exact H12).
  assert (I2 : i2 <= n - 1).
  { unfold i2. rewrite <- (Qfloor_Z (n - 1)). apply Qfloor_resp_le. exact H2. }
  assert (F1 : (0 <= f1 /\ f1 <= 1)%Q).
  { unfold f1, i1. pose proof (Qfloor_le h1). pose proof (Qlt_floor h1) as L.
    rewrite inject_Z_plus in L. change (inject_Z 1) with 1%Q in L. split; lra. }
  assert (F2 : (0 <= f2 /\ f2 <= 1)%Q).
  { unfold f2, i2. pose proof (Qfloor_le h2). pose proof (Qlt_floor h2) as L.
    rewrite inject_Z_plus in L. change (inject_Z 1) with 1%Q in L. split; lra. }
  assert (Len : Z.of_nat (List.length vals) = n) by reflexivity.
  assert (AB1 : (a1 <= b1)%Q) by (unfold a1, b1; apply sorted_nth; [exact S | lia | lia]).
  assert (AB2 : (a2 <= b2)%Q) by (unfold a2, b2; apply sorted_nth; [exact S | lia | lia]).
  destruct F1 as [F10 F11]. destruct F2 as [F20 F21].
  destruct (Z.eq_dec i1 i2) as [Ei | Ni].
  - assert (Ea : a2 = a1) by (unfold a1, a2; rewrite Ei; reflexivity).
    assert (Eb : b2 = b1) by (unfold b1, b2; rewrite Ei; reflexivity).
    rewrite Ea, Eb in *.
    assert (F12 : (f1 <= f2)%Q).
    { unfold f1, f2. rewrite Ei. lra. }
    assert (P : (0 <= (b1 - a1) * (f2 - f1))%Q) by (apply Qmult_le_0_compat; lra).
    lra.
  - assert (B1A2 : (b1 <= a2)%Q)
      by (unfold b1, a2; apply sorted_nth; [exact S | lia | lia]).
    assert (P1 : (0 <= (b1 - a1) * (1 - f1))%Q) by (apply Qmult_le_0_compat; lra).
    assert (P2 : (0 <= (b2 - a2) * f2)%Q) by (apply Qmult_le_0_compat; lra).
    lra.
Qed.

Lemma quantile_ok_inv (products : list product) (q : Q) (lo : option Q) :
  some_price products = true ->
  quantile (map prod_price products) q = Ok lo ->
  is_percentile q = true /\ exists l, lo = Some l.
Proof.
  intros S E. destruct (is_percentile q) eqn:P.
  - split; [reflexivity|].
    destruct (ClassifyFacts.price_quantile_defined products q S P) as [r Er].
    exists r. congruence.
  - rewrite (ClassifyFacts.quantile_raises _ q P) in E. discriminate E.
Qed.

(** The quantile of the prices does not decrease with the percentile. *)
Lemma price_quantile_mono (products : list product) (q1 q2 r1 r2 : Q) :
  (q1 <= q2)%Q ->
  quantile (map prod_price products) q1 = Ok (Some r1) ->
  quantile (map prod_price products) q2 = Ok (Some r2) ->
  (r1 <= r2)%Q.
Proof.
  intros L. unfold quantile. fold (is_percentile q1). fold (is_percentile q2).
  destruct (is_percentile q1) eqn:P1; [|discriminate].
  destruct (is_percentile q2) eqn:P2; [|discriminate].
  apply ClassifyFacts.is_percentile_iff in P1, P2.
  intros E1 E2. injection E1 as E1. injection E2 as E2.
  refine (quantile_sorted_mono _ q1 q2 r1 r2 _ _ L _ E1 E2); [|tauto|tauto].
  apply (sort_sorted Qle_bool Qle_bool_total Qle_bool_trans).
Qed.

Lemma combine_maps_In {A B C} (f : A -> B) (g : A -> C) (l : list A)
      (a : A) (b : B) (c : C) :
  In (a, (b, c)) (combine l (combine (map f l) (map g l))) -> b = f a /\ c = g a.
Proof.
  induction l as [|x t IH]; simpl; [tauto|].
  intros [E | H]; [injection E as <- <- <-; auto | exact (IH H)].
Qed.
End QuantileFacts.

(** X25. Widening the price thresholds only adds products: when the
    products are classified twice, the second time with a gateway quantile
    at least as high and a mentorship quantile at most as high, every
    gateway product of the first classification is one of the second, and
    so is every mentorship product.  The low and high price thresholds
    do not decrease with their quantile. *)
Theorem wider_quantiles_keep_flags :
  forall (products : list product)
         (gateway_quantile mentorship_quantile gateway_quantile' mentorship_quantile' : Q)
         (flags flags' : list product_flags)
         (p : product) (f f' : product_flags),
    classify_products products gateway_quantile mentorship_quantile = Ok flags ->
    classify_products products gateway_quantile' mentorship_quantile' = Ok flags' ->
    (gateway_quantile <= gateway_quantile')%Q ->
    (mentorship_quantile' <= mentorship_quantile)%Q ->
    In (p, (f, f')) (combine products (combine flags flags')) ->
    (is_gateway_product f = true -> is_gateway_product f' = true)
    /\ (is_mentorship_product f = true -> is_mentorship_product f' = true).
Proof.
  intros products gq mq gq' mq' flags flags' p f f' H H' Lg Lm Hin.
  destruct (ClassifyFacts.classify_products_inv products gq mq flags H)
    as [[N ->] | [S [lo [hi [Elo [Ehi ->]]]]]];
    destruct (ClassifyFacts.classify_products_inv products gq' mq' flags' H')
      as [[N' ->] | [S' [lo' [hi' [Elo' [Ehi' ->]]]]]]; try congruence.
  - apply QuantileFacts.combine_maps_In in Hin. destruct Hin as [-> ->]. tauto.
  - apply QuantileFacts.combine_maps_In in Hin. destruct Hin as [-> ->].
    cbn [is_gateway_product is_mentorship_product].
    destruct (QuantileFacts.quantile_ok_inv products gq lo S Elo) as [_ [l ->]].
    destruct (QuantileFacts.quantile_ok_inv products gq' lo' S Elo') as [_ [l' ->]].
    destruct (QuantileFacts.quantile_ok_inv products mq hi S Ehi) as [_ [h ->]].
    destruct (QuantileFacts.quantile_ok_inv products mq' hi' S Ehi') as [_ [h' ->]].
    pose proof (QuantileFacts.price_quantile_mono products gq gq' l l' Lg Elo Elo') as Ll.
    pose proof (QuantileFacts.price_quantile_mono products mq' mq h' h Lm Ehi' Ehi) as Lh.
    split; intro K; apply orb_true_iff in K; apply orb_true_iff;
      (destruct K as [K | K]; [left; exact K | right]).
    + destruct (prod_price p) as [x|]; [|discriminate K]. cbn [price_le] in *.
      apply Qle_bool_iff in K. apply Qle_bool_iff. apply (Qle_trans _ l); assumption.
    + destruct (prod_price p) as [x|]; [|discriminate K]. cbn [price_ge] in *.
      apply Qle_bool_iff in K. apply Qle_bool_iff. apply (Qle_trans _ h); assumption.
Qed.

Lemma wider_quantiles_keep_flags_witness :
  is_gateway_product Scenario.workshop_flags = true
  /\ is_gateway_product ScenarioExtra.workshop_wide_flags = true.
Proof.
  split; [reflexivity|].
  destruct (wider_quantiles_keep_flags
              Scenario.products Scenario.gateway_quantile Scenario.mentorship_quantile
              (1 # 2) (1 # 2) Scenario.prod_flags ScenarioExtra.wide_flags
              Scenario.workshop Scenario.workshop_flags
              ScenarioExtra.workshop_wide_flags) as [G _].
  - reflexivity.
  - reflexivity.
  - vm_compute. discriminate.
  - vm_compute. discriminate.
  - vm_compute. tauto.
  - apply G. reflexivity.
Defined.

(* ===================================================================== *)
(** * The payments of students *)
(* ===================================================================== *)

Module StudentFacts.
Import StudentFilter StudentSpec.

Lemma num_eqb_eq (a b : option Z) : num_eqb a b = true <-> a = b.
Proof.
  destruct a as [x|], b as [y|]; simpl; try (split; congruence).
  rewrite Z.eqb_eq. split; congruence.
Qed.

Lemma named_student_iff (r : role) :
  str_is "student" (option_map Gateway.lower (role_name r)) = true
  <-> named_student r.
Proof.
  unfold named_student. destruct (role_name r) as [name|]; cbn [option_map str_is].
  - rewrite String.eqb_eq. split.
    + intro E. exists name. auto.
    + intros [n [E L]]. injection E as <-. exact L.
  - split; [discriminate | intros [n [E _]]; discriminate E].
Qed.

Lemma student_role_ids_In (roles : list role) (rid : option Z) :
  In rid (student_role_ids roles) <-> student_role roles rid.
Proof.
  unfold student_role_ids, student_role.
  remember (filter (fun r => str_is "student" (option_map Gateway.lower (role_name r)))
                   roles) as named eqn:D.
  assert (N : forall r, In r named <-> In r roles /\ named_student r).
  { intro r. rewrite D, filter_In, named_student_iff. tauto. }
  clear D. destruct named as [|r0 rest].
  - cbn [map]. split.
    + intros [<- | []]. right. split; [|reflexivity].
      intros r Hr S. exact (proj2 (N r) (conj Hr S)).
    + intros [[r [Hr [S _]]] | [_ ->]]; [|left; reflexivity].
      exfalso. exact (proj2 (N r) (conj Hr S)).
  - change (In rid (map role_id (r0 :: rest))
            <-> (exists r, In r roles /\ named_student r /\ role_id r = rid)
                \/ ((forall r, In r roles -> ~ named_student r) /\ rid = Some 2)).
    rewrite in_map_iff. split.
    + intros [r [Er Hr]]. left. exists r. apply N in Hr. tauto.
    + intros [[r [Hr [S Er]]] | [No _]].
      * exists r. split; [exact Er|]. apply N. auto.
      * exfalso. assert (H0 : In r0 (r0 :: rest)) by (left; reflexivity).
        apply N in H0. exact (No r0 (proj1 H0) (proj2 H0)).
Qed.

Lemma student_ids_In (roles : list role) (users : list user) (uid : key) :
  In uid (student_ids roles users) <-> is_student roles users uid.
Proof.
  unfold student_ids, is_student. rewrite in_map_iff.
  split; intros [u H]; exists u.
  - destruct H as [E Hu]. apply filter_In in Hu. destruct Hu as [Hu X].
    apply existsb_exists in X. destruct X as [rid [Hrid K]].
    apply num_eqb_eq in K. subst rid.
    split; [exact Hu|]. split; [exact E|]. now apply student_role_ids_In.
  - destruct H as [Hu [E S]]. split; [exact E|]. apply filter_In. split; [exact Hu|].
    apply existsb_exists. exists (user_roleId u).
    split; [now apply student_role_ids_In | now apply num_eqb_eq].
Qed.
End StudentFacts.

Import StudentFilter StudentSpec.

(** X24. The payments [build_tables] goes on with: when some user has a
    student role (the id of a role called student in any case, or role 2
    when no role is called so), exactly the payments of such users are
    kept, in order; when no user has one, the filter is skipped and every
    payment is kept. *)
Theorem student_payments_kept :
  forall (roles : list role) (users : list user) (payments : list payment),
    ((forall uid, ~ is_student roles users uid) ->
     student_payments roles users payments = payments)
    /\ ((exists uid, is_student roles users uid) ->
        student_payments roles users payments
        = filter (fun p => existsb (key_eqb (pay_userId p)) (student_ids roles users))
                 payments
        /\ forall p, In p (student_payments roles users payments)
                     <-> In p payments /\ is_student roles users (pay_userId p)).
Proof.
  intros roles users payments. unfold student_payments.
  pose proof (StudentFacts.student_ids_In roles users) as I.
  destruct (student_ids roles users) as [|id0 ids] eqn:E.
  - split; [reflexivity|]. intros [uid S]. apply I in S. destruct S.
  - rewrite <- E in *. split.
    + intro No. exfalso. apply (No id0). apply I. rewrite E. left. reflexivity.
    + intros _. split; [reflexivity|]. intro p. rewrite filter_In, existsb_exists.
      split; intros [Hp H]; (split; [exact Hp|]).
      * destruct H as [uid [Hu K]]. apply key_eqb_eq in K. rewrite K. now apply I.
      * exists (pay_userId p). split; [now apply I | apply key_eqb_refl].
Qed.

Lemma student_payments_kept_witness :
  student_payments ScenarioExtra.roles ScenarioExtra.users Scenario.payments
  = [ScenarioExtra.bob_payment]
  /\ student_payments ScenarioExtra.roles [] Scenario.payments = Scenario.payments.
Proof.
  split.
  - etransitivity.
    + refine (proj1 (proj2 (student_payments_kept ScenarioExtra.roles
                                                  ScenarioExtra.users
                                                  Scenario.payments) _)).
      exists (Some "bob"%string).
      apply StudentFacts.student_ids_In. vm_compute. tauto.
    + reflexivity.
  - apply (proj1 (student_payments_kept ScenarioExtra.roles [] Scenario.payments)).
    intros uid [u [[] _]].
Defined.

(* ===================================================================== *)
(** * The thresholds, in counts *)
(* ===================================================================== *)

(** A fraction of two counts against a fraction [num / den]. *)
Lemma ratio_ge (a n : nat) (num den : positive) :
  n <> 0%nat ->
  ((Z.pos num # den <= inject_Z (Z.of_nat a) / inject_Z (Z.of_nat n))%Q
   <-> Z.pos num * Z.of_nat n <= Z.pos den * Z.of_nat a).
Proof.
  intro N.
  assert (P : (0 < inject_Z (Z.of_nat n))%Q).
  { change 0%Q with (inject_Z 0). rewrite <- Zlt_Qlt. lia. }
  assert (NZ : ~ (inject_Z (Z.of_nat n) == 0)%Q).
  { intro E. rewrite E in P. exact (Qlt_irrefl 0 P). }
  rewrite <- (Qmult_le_r _ _ (inject_Z (Z.of_nat n)) P).
  setoid_replace (inject_Z (Z.of_nat a) / inject_Z (Z.of_nat n) * inject_Z (Z.of_nat n))%Q
    with (inject_Z (Z.of_nat a)) by (field; exact NZ).
  unfold Qle, Qmult, inject_Z. cbn [Qnum Qden]. lia.
Qed.

Module ThresholdFacts.
Import Engagement EngagementSpec.

Lemma unassigned_zero (live_session_assigned : list assigned) (u : key) :
  is_assigned live_session_assigned u = false ->
  assigned_sessions live_session_assigned u = 0%nat.
Proof.
  unfold is_assigned, assigned_sessions. intro E.
  apply existsb_key_notIn in E.
  rewrite (group_of_absent asg_userId u live_session_assigned E). reflexivity.
Qed.

(** The filled attendance rate of a user, from the two counts. *)
Lemma filled_rate (live_session_assigned : list assigned)
      (live_session_attendance : list attendance_event) (u : key) :
  let assigned := assigned_sessions live_session_assigned u in
  let attended := attended_sessions live_session_attendance u in
  fillna0 (user_attendance_rate live_session_assigned live_session_attendance u)
  = if (assigned =? 0)%nat then Fin 0
    else Fin (Qred (inject_Z (Z.of_nat attended) / inject_Z (Z.of_nat assigned))).
Proof.
  intros assigned attended. unfold user_attendance_rate.
  destruct (is_assigned live_session_assigned u) eqn:A.
  - cbn [attendance_of at_attendanceRate]. fold assigned attended.
    destruct (Nat.eqb_spec assigned 0) as [Z | N].
    + rewrite Z. reflexivity.
    + rewrite (AttendanceFacts.rate_of_counts attended assigned N). reflexivity.
  - pose proof (unassigned_zero live_session_assigned u A) as Z.
    fold assigned in Z. rewrite Z. reflexivity.
Qed.
End ThresholdFacts.

(** X26. The attendance thresholds of the scoring, in counts.  In a row
    of the completion frame, the attendance rate is at least 0.7 exactly
    when the user is assigned a session and has attended at least seven
    tenths as many distinct sessions as are assigned; it is below 0.1
    exactly when no session is assigned or fewer than a tenth as many
    are attended.  So a complete row always has an assigned session, and
    a user who is assigned none passes the attendance test of
    [isAbsconded]. *)
Theorem attendance_thresholds :
  forall (enrollments : list enrollment)
         (assignment_completion : list assignment_completion_row)
         (live_session_assigned : list assigned)
         (live_session_attendance : list attendance_event)
         (login_history : list login) (max_date : timestamp)
         (r : completion_row),
    In r (fst (build_completion_and_absconded
                 enrollments assignment_completion
                 (build_attendance live_session_assigned live_session_attendance)
                 login_history max_date)) ->
    let assigned := assigned_sessions live_session_assigned (Engagement.userId r) in
    let attended := attended_sessions live_session_attendance (Engagement.userId r) in
    (fge (attendanceRate r) (Fin (7 # 10)) = true
     <-> assigned <> 0%nat /\ (7 * assigned <= 10 * attended)%nat)
    /\ (flt (attendanceRate r) (Fin (1 # 10)) = true
        <-> assigned = 0%nat \/ (10 * attended < assigned)%nat)
    /\ (isComplete r = true -> assigned <> 0%nat).
Proof.
  intros enrollments ac asg att login_history max_date r Hr assigned attended.
  assert (Hr' : In r (build_completion enrollments ac (build_attendance asg att)))
    by exact Hr.
  destruct (EngagementFacts.completion_attendance enrollments ac asg att r Hr')
    as [R _].
  pose proof (EngagementFacts.completion_flag enrollments ac (build_attendance asg att)
                                              r Hr') as C.
  rewrite (ThresholdFacts.filled_rate asg att (Engagement.userId r)) in R.
  fold assigned attended in R. clear Hr Hr'.
  assert (T : (fge (attendanceRate r) (Fin (7 # 10)) = true
               <-> assigned <> 0%nat /\ (7 * assigned <= 10 * attended)%nat)
              /\ (flt (attendanceRate r) (Fin (1 # 10)) = true
                  <-> assigned = 0%nat \/ (10 * attended < assigned)%nat)).
  { rewrite R. destruct (Nat.eqb_spec assigned 0) as [Z | N].
    - split.
      + split; [discriminate | intros [H _]; contradiction].
      + split; [intros _; left; exact Z | reflexivity].
    - unfold fge, flt, fle. split.
      + rewrite Qle_bool_iff, Qred_correct, (ratio_ge attended assigned 7 10 N).
        split; [intro H; split; [exact N | lia] | intros [_ H]; lia].
      + rewrite negb_true_iff, <- not_true_iff_false.
        rewrite Qle_bool_iff, Qred_correct, (ratio_ge attended assigned 1 10 N).
        split; [intro H; right; lia | intros [H | H]; [contradiction | lia]]. }
  destruct T as [T7 T1]. split; [exact T7|]. split; [exact T1|].
  intro K. rewrite C in K. apply andb_prop in K. destruct K as [_ K].
  exact (proj1 (proj1 T7 K)).
Qed.

Lemma attendance_thresholds_witness :
  fge (attendanceRate Scenario.ada_c1) (Fin (7 # 10)) = true
  /\ assigned_sessions Scenario.live_session_assigned (Some "bob"%string) = 0%nat
  /\ flt (attendanceRate Scenario.bob_c1) (Fin (1 # 10)) = true.
Proof.
  destruct (attendance_thresholds Scenario.enrollments Scenario.assignment_completion
              Scenario.live_session_assigned Scenario.live_session_attendance
              Scenario.login_history Scenario.as_of Scenario.ada_c1)
    as [A _]; [vm_compute; tauto|].
  destruct (attendance_thresholds Scenario.enrollments Scenario.assignment_completion
              Scenario.live_session_assigned Scenario.live_session_attendance
              Scenario.login_history Scenario.as_of Scenario.bob_c1)
    as [_ [B _]]; [vm_compute; tauto|].
  split; [|split].
  - apply A. split; [vm_compute; discriminate | vm_compute; lia].
  - reflexivity.
  - apply B. left. reflexivity.
Defined.

(* ===================================================================== *)
(** * The medians of the conversion summary *)
(* ===================================================================== *)

Module MedianFacts.
Import Gateway GatewaySpec ConversionSpec.

Lemma dropna_nil {V} (c : list (option V)) :
  dropna c = [] <-> forall x, In x c -> x = None.
Proof.
  induction c as [|[v|] t IH]; simpl.
  - split; [intros _ x [] | reflexivity].
  - split; [discriminate|]. intro H. specialize (H (Some v) (or_introl eq_refl)).
    discriminate H.
  - rewrite IH. split.
    + intros H x [<- | Hx]; [reflexivity | exact (H x Hx)].
    + intros H x Hx. apply H. right. exact Hx.
Qed.

(** The median is null exactly on a column without a value. *)
Lemma median_nan (c : list (option Z)) :
  median c = NaN <-> forall x, In x c -> x = None.
Proof.
  rewrite <- dropna_nil. unfold median.
  destruct (sort Z.leb (dropna c)) as [|v0 rest] eqn:E.
  - split; [|reflexivity]. intros _.
    assert (L : List.length (dropna c) = 0%nat)
      by (rewrite <- (sort_length Z.leb), E; reflexivity).
    destruct (dropna c); [reflexivity | discriminate L].
  - split.
    + destruct (Nat.even _); discriminate.
    + intro N. rewrite N in E. discriminate E.
Qed.

(** The median of non-negative values is a non-negative number. *)
Lemma median_nonneg (c : list (option Z)) (q : Q) :
  (forall d, In (Some d) c -> 0 <= d) -> median c = Fin q -> (0 <= q)%Q.
Proof.
  intro H. unfold median.
  destruct (sort Z.leb (dropna c)) as [|v0 rest] eqn:E; [discriminate|].
  rewrite <- E.
  assert (P : forall i, 0 <= nth i (sort Z.leb (dropna c)) v0).
  { intro i.
    assert (X : In (nth i (sort Z.leb (dropna c)) v0) (sort Z.leb (dropna c))).
    { destruct (nth_in_or_default i (sort Z.leb (dropna c)) v0) as [I | ->];
        [exact I | rewrite E; left; reflexivity]. }
    apply sort_In in X. apply ClassifyFacts.dropna_In in X. exact (H _ X). }
  assert (I : forall z, 0 <= z -> (0 <= inject_Z z)%Q).
  { intros z Hz. change 0%Q with (inject_Z 0). now rewrite <- Zle_Qle. }
  destruct (Nat.even _); intro F; injection F as <-.
  - apply Qle_shift_div_l; [reflexivity|].
    match goal with
    | |- (_ <= inject_Z (nth ?i _ _) + inject_Z (nth ?j _ _))%Q =>
        pose proof (I _ (P i)); pose proof (I _ (P j))
    end.
    lra.
  - apply I, P.
Qed.

Section Pipeline.
Variable live_sessions : list live_session.
Variable live_session_attendance : list attendance_event.
Variable payments : list payment.
Variable prod_flags : list product_flags.
Variable product_accesses : list product_access.

Abbreviation the_touches :=
  (touches live_sessions live_session_attendance payments prod_flags
           product_accesses).

Lemma touch_days_nonneg (t : touch) :
  In t the_touches ->
  (forall d, days_to_any_paid t = Some d -> 0 <= d)
  /\ (forall d, days_to_mentorship_paid t = Some d -> 0 <= d).
Proof.
  intros Ht.
  assert (Hr : In (final_columns t) (map final_columns the_touches))
    by (apply in_map; exact Ht).
  apply TouchFacts.final_rows_inv in Hr. destruct Hr as [g [_ F]].
  destruct F as [_ [_ [_ [_ [_ [_ [_ [Da Dm]]]]]]]].
  cbn [final_columns tr_days_to_any_paid tr_days_to_mentorship_paid] in Da, Dm.
  split; intros d E.
  - rewrite Da in E. exact (ConversionSpecFacts.days_after_nonneg _ _ _ _ E).
  - rewrite Dm in E.
    apply ConversionSpecFacts.days_mentorship_after_any in E.
    destruct E as [da [_ L]]. lia.
Qed.

Lemma summary_medians (def : string * (touch -> bool)) :
  let cohort := filter (snd def) the_touches in
  let row := summary_of the_touches def in
  (median_days_any_paid row = NaN
   <-> forall t, In t cohort -> days_to_any_paid t = None)
  /\ (median_days_mentorship_paid row = NaN
      <-> forall t, In t cohort -> days_to_mentorship_paid t = None)
  /\ (forall q, median_days_any_paid row = Fin q -> (0 <= q)%Q)
  /\ (forall q, median_days_mentorship_paid row = Fin q -> (0 <= q)%Q)
  /\ median_days_any_paid row <> PInf /\ median_days_any_paid row <> NInf
  /\ median_days_mentorship_paid row <> PInf
  /\ median_days_mentorship_paid row <> NInf.
Proof.
  intros cohort row.
  pose proof (SummaryFacts.cohort_size_length live_sessions live_session_attendance
                payments prod_flags product_accesses def) as SL.
  destruct def as [name col]. cbn [snd] in *. unfold row.
  cbn [summary_of median_days_any_paid median_days_mentorship_paid cohort_size] in *.
  fold cohort in SL |- *.
  set (size := nunique (map touch_user cohort)) in *.
  assert (NN : forall t, In t cohort ->
                         (forall d, days_to_any_paid t = Some d -> 0 <= d)
                         /\ (forall d, days_to_mentorship_paid t = Some d -> 0 <= d)).
  { intros t Ht. apply touch_days_nonneg. unfold cohort in Ht.
    apply filter_In in Ht. destruct Ht as [Ht _]. exact Ht. }
  clearbody size. clearbody cohort.
  assert (M : forall (col' : touch -> option Z),
             (forall t, In t cohort -> forall d, col' t = Some d -> 0 <= d) ->
             ((if (size =? 0)%nat then NaN else median (map col' cohort)) = NaN
              <-> forall t, In t cohort -> col' t = None)
             /\ (forall q,
                    (if (size =? 0)%nat then NaN else median (map col' cohort))
                    = Fin q -> (0 <= q)%Q)
             /\ (if (size =? 0)%nat then NaN else median (map col' cohort)) <> PInf
             /\ (if (size =? 0)%nat then NaN else median (map col' cohort)) <> NInf).
  { intros col' P. destruct (Nat.eqb_spec size 0) as [Z | NZ].
    - assert (E : cohort = []).
      { rewrite Z in SL. destruct cohort; [reflexivity | discriminate SL]. }
      rewrite E. split; [split; [intros _ t [] | reflexivity]|].
      split; [discriminate|]. split; discriminate.
    - split; [|split; [|split]].
      + rewrite median_nan. split.
        * intros H t Ht. apply H. apply in_map. exact Ht.
        * intros H x Hx. apply in_map_iff in Hx. destruct Hx as [t [<- Ht]].
          exact (H t Ht).
      + intros q. apply median_nonneg. intros d Hd.
        apply in_map_iff in Hd. destruct Hd as [t [E Ht]]. exact (P t Ht d E).
      + unfold median. destruct (sort Z.leb _); [discriminate|].
        destruct (Nat.even _); discriminate.
      + unfold median. destruct (sort Z.leb _); [discriminate|].
        destruct (Nat.even _); discriminate. }
  destruct (M days_to_any_paid (fun t Ht => proj1 (NN t Ht))) as [A1 [A2 [A3 A4]]].
  destruct (M days_to_mentorship_paid (fun t Ht => proj2 (NN t Ht)))
    as [B1 [B2 [B3 B4]]].
  repeat split; try assumption; try apply A1; try apply B1.
Qed.
End Pipeline.
End MedianFacts.

(** X27. The medians of a row of the conversion summary.  The median
    delay to any payment is null exactly when no member of the cohort has
    a payment after the touch (in particular for an empty cohort), and
    likewise the median delay to a mentorship payment; a median that is
    not null is a non-negative number of days, never infinite. *)
Theorem summary_medians_defined :
  forall (live_sessions : list live_session)
         (live_session_attendance : list attendance_event)
         (live_session_assigned : list assigned)
         (payments : list payment) (products : list product)
         (product_accesses : list product_access)
         (gateway_quantile mentorship_quantile : Q)
         (out : attribution) (name : string) (flag : touch_row -> bool)
         (row : summary_row),
    build_gateway_attribution live_sessions live_session_attendance
                              live_session_assigned payments products
                              product_accesses gateway_quantile mentorship_quantile
    = Ok out ->
    In (name, flag) cohort_flags ->
    In row (gateway_conversion_summary out) ->
    sr_cohort row = name ->
    (median_days_any_paid row = NaN
     <-> forall r, In r (members flag out) -> tr_days_to_any_paid r = None)
    /\ (median_days_mentorship_paid row = NaN
        <-> forall r, In r (members flag out) -> tr_days_to_mentorship_paid r = None)
    /\ (forall q, median_days_any_paid row = Fin q -> (0 <= q)%Q)
    /\ (forall q, median_days_mentorship_paid row = Fin q -> (0 <= q)%Q)
    /\ median_days_any_paid row <> PInf /\ median_days_any_paid row <> NInf
    /\ median_days_mentorship_paid row <> PInf
    /\ median_days_mentorship_paid row <> NInf.
Proof.
  intros ls lsa lsas payments products accesses gq mq out name flag row
         Hb Hflag Hrow Hname.
  apply GatewayFacts.build_inv in Hb. destruct Hb as [flags [_ [Ht [Hsum _]]]].
  rewrite Hsum in Hrow. apply ConversionFacts.summary_row_inv in Hrow.
  destruct Hrow as [def [Hdef ->]].
  apply GatewayFacts.cohort_flags_defs in Hflag.
  assert (E : def = (name, fun t => flag (final_columns t))).
  { apply SummaryFacts.cohort_defs_name_inj; try assumption.
    destruct def as [n c]. exact Hname. }
  subst def.
  destruct (MedianFacts.summary_medians ls lsa payments flags accesses
              (name, fun t => flag (final_columns t)))
    as [A [B [C [D [I1 [I2 [I3 I4]]]]]]].
  cbn [snd] in A, B.
  assert (Mem : forall (col : touch_row -> option Z),
             (forall r, In r (members flag out) -> col r = None)
             <-> (forall t, In t (filter (fun t => flag (final_columns t))
                                         (touches ls lsa payments flags accesses)) ->
                            col (final_columns t) = None)).
  { intro col. unfold members. rewrite Ht, GatewayFacts.filter_final_columns. split.
    - intros H t Ht'. apply H. apply in_map. exact Ht'.
    - intros H r Hr. apply in_map_iff in Hr. destruct Hr as [t [<- Ht']]. exact (H t Ht'). }
  split; [rewrite A; symmetry; exact (Mem tr_days_to_any_paid)|].
  split; [rewrite B; symmetry; exact (Mem tr_days_to_mentorship_paid)|].
  split; [exact C|]. split; [exact D|]. repeat split; assumption.
Qed.

Lemma summary_medians_defined_witness :
  median_days_any_paid Scenario.summary_A = Fin 5
  /\ forall q, median_days_mentorship_paid Scenario.summary_A = Fin q -> (0 <= q)%Q.
Proof.
  split; [reflexivity|].
  refine (proj1 (proj2 (proj2 (proj2
            (summary_medians_defined
               Scenario.live_sessions Scenario.live_session_attendance
               Scenario.live_session_assigned Scenario.payments Scenario.products
               Scenario.product_accesses Scenario.gateway_quantile
               Scenario.mentorship_quantile Scenario.attributed
               "newcomer_A"%string tr_is_newcomer_A Scenario.summary_A _ _ _ _))))).
  - vm_compute. reflexivity.
  - simpl. tauto.
  - vm_compute. tauto.
  - reflexivity.
Defined.

(* ===================================================================== *)
(** * The assignment threshold, in counts *)
(* ===================================================================== *)

Lemma find_all_false {A} (p : A -> bool) (l : list A) :
  (forall x, In x l -> p x = false) -> find p l = None.
Proof.
  induction l as [|x t IH]; intro H; [reflexivity|].
  cbn [find]. rewrite (H x (or_introl eq_refl)).
  apply IH. intros y Hy. apply H. right. exact Hy.
Qed.

(** In a frame with distinct keys, looking a row's key up finds the row. *)
Lemma find_by_key {R} (k : R -> key * key) (rows : list R) (c : R) :
  NoDup (map k rows) -> In c rows ->
  find (fun x => Engagement.pair_eqb (k c) (k x)) rows = Some c.
Proof.
  induction rows as [|x t IH]; intros ND H; [destruct H|].
  inversion ND as [|? ? Hnot ND']; subst. cbn [find].
  destruct H as [-> | H].
  - rewrite (proj2 (pair_eqb_eq (k c) (k c)) eq_refl). reflexivity.
  - destruct (Engagement.pair_eqb (k c) (k x)) eqn:E.
    + apply pair_eqb_eq in E. exfalso. apply Hnot. rewrite <- E. now apply in_map.
    + exact (IH ND' H).
Qed.

Module AssignmentRateFacts.
Import Engagement AssignmentCompletion AssignmentSpec ScoringSpec.

Section Rate.
Variable enrollments : list enrollment.
Variable counts : list completion_counts.
Variable attendance : list attendance_row.
Hypothesis counts_NoDup : NoDup (map cc_pair counts).

(** Every completion row takes its assignment rate from the one row
    of its (user, course) pair. *)
Lemma completion_assignment_rate (r : completion_row) :
  In r (build_completion enrollments (map completion_columns counts) attendance) ->
  assignmentCompletionRate r
  = fillna0 (match counts_for counts (row_pair r) with
             | Some c => cc_assignmentCompletionRate c
             | None => NaN
             end).
Proof.
  unfold build_completion. rewrite in_map_iff.
  intros [[[e oa] oatt] [<- H]].
  apply merge_left_In in H. destruct H as [H _].
  apply merge_left_In in H. destruct H as [_ H].
  cbn [completion_of assignmentCompletionRate]. unfold row_pair.
  cbn [Engagement.userId Engagement.courseId].
  replace (fst e, snd e) with e by (destruct e; reflexivity).
  unfold counts_for. destruct oa as [a|].
  - destruct H as [Ha K]. apply in_map_iff in Ha. destruct Ha as [c [<- Hc]].
    cbn [completion_columns ac_studentId ac_courseId ac_assignmentCompletionRate]
      in *.
    apply andb_prop in K. destruct K as [K1 K2]. apply key_eqb_eq in K1, K2.
    assert (E : e = cc_pair c) by (destruct e; unfold cc_pair; cbn in *; congruence).
    rewrite E, (find_by_key cc_pair counts c counts_NoDup Hc). reflexivity.
  - rewrite find_all_false; [reflexivity|].
    intros c Hc.
    specialize (H (completion_columns c) (in_map completion_columns counts c Hc)).
    cbn [completion_columns ac_studentId ac_courseId] in H.
    unfold pair_eqb, cc_pair. cbn [fst snd]. exact H.
Qed.
End Rate.
End AssignmentRateFacts.

Import AssignmentSpec.

(** X28. The assignment threshold of the scoring, in counts.  On the
    frame [build_assignment_completion] computes, a completion row takes
    its assignment rate from the one row of its (user, course) pair, 0
    when there is none or when its rate is null; and for a row of a
    course, the rate is at least 0.7 exactly when the pair has a row, the
    course has assignments and the student has submitted at least seven
    tenths of them. *)
Theorem assignment_threshold :
  forall (enrollments : list enrollment)
         (assignments : list assignment) (assignment_submissions : list submission)
         (modules : list course_module)
         (attendance : list attendance_row)
         (login_history : list login) (max_date : timestamp)
         (r : completion_row),
    let counts :=
      fst (build_assignment_completion assignments assignment_submissions modules) in
    In r (fst (build_completion_and_absconded
                 enrollments (map completion_columns counts) attendance
                 login_history max_date)) ->
    assignmentCompletionRate r
    = fillna0 (match counts_for counts (row_pair r) with
               | Some c => cc_assignmentCompletionRate c
               | None => NaN
               end)
    /\ (Engagement.courseId r <> None ->
        (fge (assignmentCompletionRate r) (Fin (7 # 10)) = true
         <-> exists c total,
               counts_for counts (row_pair r) = Some c
               /\ totalAssignments c = Some total
               /\ total <> 0%nat
               /\ (7 * total <= 10 * submittedAssignments c)%nat)).
Proof.
  intros enrollments assignments subs modules attendance login_history max_date r
         counts Hr.
  assert (Hr' : In r (build_completion enrollments (map completion_columns counts)
                                       attendance)) by exact Hr.
  pose proof (AssignmentFacts.pairs_NoDup assignments subs modules) as ND.
  fold counts in ND.
  pose proof (AssignmentRateFacts.completion_assignment_rate
                enrollments counts attendance ND r Hr') as R.
  split; [exact R|]. intro NC. rewrite R. clear R Hr Hr'.
  destruct (counts_for counts (row_pair r)) as [c|] eqn:F.
  - apply find_some in F. destruct F as [Hc K]. apply pair_eqb_eq in K.
    assert (Cc : cc_courseId c <> None).
    { intro Z. apply NC. unfold row_pair, cc_pair in K. congruence. }
    destruct (AssignmentFacts.row_counts assignments subs modules c Hc Cc)
      as [total [T [L Rc]]].
    rewrite Rc. destruct (Nat.eq_dec total 0) as [Z | NZ].
    + subst total. assert (S0 : submittedAssignments c = 0%nat) by lia.
      rewrite S0. split; [discriminate|].
      intros [c' [total' [E [T' [NZ' _]]]]]. injection E as <-. congruence.
    + rewrite (fdiv_counts _ _ NZ). unfold Gateway.quotient.
      cbn [fillna0]. unfold fge, fle.
      rewrite Qle_bool_iff, Qred_correct, (ratio_ge _ _ 7 10 NZ). split.
      * intro H. exists c, total. split; [reflexivity|]. split; [exact T|].
        split; [exact NZ | lia].
      * intros [c' [total' [E [T' [_ H]]]]]. injection E as <-.
        assert (total' = total) by congruence. subst total'. lia.
  - split; [discriminate|]. intros [c [total [E _]]]. discriminate E.
Qed.

Lemma assignment_threshold_witness :
  assignmentCompletionRate ScenarioExtra.ada_c1_from_submissions = Fin 1
  /\ fge (assignmentCompletionRate ScenarioExtra.ada_c1_from_submissions)
         (Fin (7 # 10)) = true.
Proof.
  split; [reflexivity|].
  destruct (assignment_threshold
              Scenario.enrollments ScenarioExtra.assignments
              ScenarioExtra.assignment_submissions ScenarioExtra.modules
              Scenario.attendance_table Scenario.login_history Scenario.as_of
              ScenarioExtra.ada_c1_from_submissions) as [_ T].
  - vm_compute. tauto.
  - apply T; [discriminate|].
    exists (nth 0 ScenarioExtra.assignment_counts ScenarioExtra.no_counts), 2%nat.
    split; [reflexivity|]. split; [reflexivity|]. split; [discriminate|].
    vm_compute. lia.
Defined.
